(** * SchoolSchedulePro: the schedule-generation engine

    A shallow embedding of [server/services/schedulingEngine.ts] (class
    [SchedulingEngine]) together with the parts of [shared/schema.ts] it
    reads, and the properties of the engine stated over that embedding.

    Conventions of the embedding.
    - A JavaScript [number] that holds a database integer is a [Z].
    - A nullable column is an [option]; JavaScript truthiness ([x || y],
      [if (x)], [!x]) is written out by [truthy] and [truthyB]: [null] and
      [0] (resp. [null] and [false]) are falsy.
    - The PostgreSQL enums of the schema are inductive types.
    - [Map<number, TeacherWorkload>] is a [gmap Z TeacherWorkload]; the JSON
      object [teacher.availability] is a [gmap DayOfWeek (list _)].
    - The engine's mutable fields ([teacherWorkloads], [generatedEntries])
      are threaded explicitly through the run as a [SchedulingEngine] value;
      the catalog arrays filled by [loadData] are a read-only [Storage]. *)

From Stdlib Require Import ZArith String Ascii List Bool Lia Sorted Permutation.
From Stdlib Require Import DecimalString DecimalPos.
From stdpp Require Import base decidable countable gmap list fin_maps sorting.

Import ListNotations.
Local Open Scope Z_scope.

(* ===================================================================== *)
(** ** shared/schema.ts: enums and rows                                  *)
(* ===================================================================== *)

(** [dayOfWeekEnum] *)
Inductive DayOfWeek : Type :=
  | monday | tuesday | wednesday | thursday | friday.

(** [constraintTypeEnum] *)
Inductive ConstraintType : Type := hard | soft.

(** [constraintScopeEnum] *)
Inductive ConstraintScope : Type :=
  | scope_subject | scope_teacher | scope_class | scope_room | scope_global.

#[global] Instance DayOfWeek_eq_dec : EqDecision DayOfWeek.
Proof. solve_decision. Defined.

Definition DayOfWeek_to_nat (d : DayOfWeek) : nat :=
  match d with
  | monday => 0 | tuesday => 1 | wednesday => 2 | thursday => 3 | friday => 4
  end%nat.

Definition DayOfWeek_of_nat (n : nat) : option DayOfWeek :=
  match n with
  | 0 => Some monday | 1 => Some tuesday | 2 => Some wednesday
  | 3 => Some thursday | 4 => Some friday | _ => None
  end%nat.

#[global] Program Instance DayOfWeek_countable : Countable DayOfWeek :=
  inj_countable DayOfWeek_to_nat DayOfWeek_of_nat _.
Next Obligation. by intros []. Qed.

#[global] Instance ConstraintType_eq_dec : EqDecision ConstraintType.
Proof. solve_decision. Defined.

#[global] Instance ConstraintScope_eq_dec : EqDecision ConstraintScope.
Proof. solve_decision. Defined.

(** Row of [classes]. *)
Record Class : Type := mkClass {
  class_id : Z;
  class_name : string;
}.

(** Row of [subjects]. *)
Record Subject : Type := mkSubject {
  subject_id : Z;
  subject_name : string;
  weeklyHours : Z;
}.

(** One window [{start, end}] of a day's availability list. *)
Record AvailabilityWindow : Type := mkWindow {
  window_start : string;
  window_end : string;
}.

(** Row of [teachers]. [availability] is the JSON column: [None] is SQL
    NULL, otherwise an object from day to a list of windows. *)
Record Teacher : Type := mkTeacher {
  teacher_id : Z;
  maxClassesPerDay : option Z;
  maxClassesPerWeek : option Z;
  availability : option (gmap DayOfWeek (list AvailabilityWindow));
}.

(** Row of [rooms]. *)
Record Room : Type := mkRoom {
  room_id : Z;
  room_isAvailable : option bool;
}.

(** Row of [teacher_subjects]. *)
Record TeacherSubject : Type := mkTeacherSubject {
  ts_teacherId : Z;
  ts_subjectId : Z;
}.

(** Row of [class_subjects]. *)
Record ClassSubject : Type := mkClassSubject {
  cs_classId : Z;
  cs_subjectId : Z;
  cs_teacherId : option Z;
  cs_preferredRoomId : option Z;
}.

(** Row of [time_periods]. *)
Record TimePeriod : Type := mkTimePeriod {
  tp_id : Z;
  tp_name : string;
  startTime : string;
  endTime : string;
  dayOfWeek : DayOfWeek;
  isBreak : option bool;
  orderIndex : Z;
}.

(** Row of [constraints]; the [rule] payload is never read by the engine. *)
Record Constraint : Type := mkConstraint {
  constraint_type : ConstraintType;
  constraint_scope : ConstraintScope;
  constraint_targetId : option Z;
  constraint_isActive : bool;
}.

(** [InsertTimetableEntry] as the engine builds it. *)
Record InsertTimetableEntry : Type := mkEntry {
  classId : Z;
  subjectId : Z;
  teacherId : Z;
  roomId : option Z;
  timePeriodId : Z;
  weekNumber : Z;
  isGenerated : bool;
}.

(** What [loadData] and [storage.getSubjectTeachers] read. *)
Record Storage : Type := mkStorage {
  classes : list Class;
  subjects : list Subject;
  teachers : list Teacher;
  rooms : list Room;
  timePeriods : list TimePeriod;
  classSubjects : list ClassSubject;
  teacherSubjects : list TeacherSubject;
  constraints : list Constraint;
}.

(* ===================================================================== *)
(** ** schedulingEngine.ts: interfaces                                    *)
(* ===================================================================== *)

Record SchedulingOptions : Type := mkOptions {
  optimizeTeacherWorkload : bool;
  minimizeRoomChanges : bool;
  prioritizeMorningClasses : bool;
  enforceHardConstraints : bool;
  respectSoftConstraints : bool;
}.

Record Stats : Type := mkStats {
  stats_totalClasses : Z;
  stats_totalEntries : Z;
  stats_conflictsResolved : Z;
}.

Record SchedulingResult : Type := mkResult {
  success : bool;
  timetableEntries : list InsertTimetableEntry;
  stats : Stats;
  conflicts : list string;
  errors : option (list string);
}.

(** The object literal [{monday: 0, ..., friday: 0}] and its updates. *)
Record ClassesPerDay : Type := mkPerDay {
  on_monday : Z;
  on_tuesday : Z;
  on_wednesday : Z;
  on_thursday : Z;
  on_friday : Z;
}.

Record TeacherWorkload : Type := mkWorkload {
  workload_teacherId : Z;
  classesPerDay : ClassesPerDay;
  totalClasses : Z;
}.

Record ConflictCheck : Type := mkConflictCheck {
  teacherConflicts : bool;
  roomConflicts : bool;
  classConflicts : bool;
}.

(** A candidate returned by [findSuitableTimeSlots]. *)
Record Slot : Type := mkSlot {
  slot_timePeriodId : Z;
  slot_timePeriod : TimePeriod;
  slot_teacherId : Z;
  slot_roomId : option Z;
}.

(** The two mutable fields of the engine that a run reads and writes. *)
Record SchedulingEngine : Type := mkEngine {
  teacherWorkloads : gmap Z TeacherWorkload;
  generatedEntries : list InsertTimetableEntry;
}.

(* ===================================================================== *)
(** ** JavaScript primitives used by the engine                          *)
(* ===================================================================== *)

(** Truthiness of a nullable integer: [null] and [0] are falsy. *)
Definition truthy (o : option Z) : bool :=
  match o with
  | Some n => negb (n =? 0)
  | None => false
  end.

(** Truthiness of a nullable boolean. *)
Definition truthyB (o : option bool) : bool :=
  match o with
  | Some b => b
  | None => false
  end.

(** [a === b] between a nullable integer and an integer. *)
Definition strictEqOpt (o : option Z) (n : Z) : bool :=
  match o with
  | Some m => m =? n
  | None => false
  end.

(** [a === b] between two nullable integers. *)
Definition strictEqOpt2 (a b : option Z) : bool :=
  match a, b with
  | Some m, Some n => m =? n
  | None, None => true
  | _, _ => false
  end.

(** [s.split(':')[0]]: the part of [s] before its first colon. *)
Fixpoint splitColonHead (s : string) : string :=
  match s with
  | EmptyString => EmptyString
  | String c rest =>
      if Ascii.eqb c ":"%char then EmptyString
      else String c (splitColonHead rest)
  end.

(** The ASCII members of ECMAScript's WhiteSpace and LineTerminator. *)
Definition isWhiteSpace (c : ascii) : bool :=
  let n := Z.of_nat (nat_of_ascii c) in
  (n =? 32) || ((9 <=? n) && (n <=? 13)).

Fixpoint trimStart (s : string) : string :=
  match s with
  | EmptyString => EmptyString
  | String c rest => if isWhiteSpace c then trimStart rest else s
  end.

(** The value of [c] as a digit in [radix], if it is one. *)
Definition digitValue (radix : Z) (c : ascii) : option Z :=
  let n := Z.of_nat (nat_of_ascii c) in
  let v :=
    if (48 <=? n) && (n <=? 57) then Some (n - 48)
    else if (97 <=? n) && (n <=? 122) then Some (n - 87)
    else if (65 <=? n) && (n <=? 90) then Some (n - 55)
    else None in
  match v with
  | Some d => if d <? radix then Some d else None
  | None => None
  end.

(** The longest prefix of [s] made of digits of [radix], as digit values. *)
Fixpoint digitPrefix (radix : Z) (s : string) : list Z :=
  match s with
  | EmptyString => []
  | String c rest =>
      match digitValue radix c with
      | Some d => d :: digitPrefix radix rest
      | None => []
      end
  end.

Definition digitsValue (radix : Z) (ds : list Z) : Z :=
  fold_left (fun acc d => acc * radix + d) ds 0.

(** [parseInt(s)] with no radix argument; [None] is NaN. Leading white
    space is skipped, a sign is read, a [0x]/[0X] prefix switches to
    radix 16, and the digits stop at the first character that is not one.
    The result is the exact integer (the rounding of a JavaScript number
    beyond 2^53 is not modelled). *)
Definition parseInt (s : string) : option Z :=
  let s1 := trimStart s in
  let '(sign, s2) :=
    match s1 with
    | String "-"%char rest => (-1, rest)
    | String "+"%char rest => (1, rest)
    | _ => (1, s1)
    end in
  let '(radix, s3) :=
    match s2 with
    | String "0"%char (String "x"%char rest) => (16, rest)
    | String "0"%char (String "X"%char rest) => (16, rest)
    | _ => (10, s2)
    end in
  match digitPrefix radix s3 with
  | [] => None
  | ds => Some (sign * digitsValue radix ds)
  end.

(** [parseInt(t.split(':')[0])]: the hour of a time string. *)
Definition hourOf (t : string) : option Z := parseInt (splitColonHead t).

(** [x >= y] on JavaScript numbers: false when either side is NaN. *)
Definition geNum (x y : option Z) : bool :=
  match x, y with
  | Some a, Some b => b <=? a
  | _, _ => false
  end.

(** [x <= y] on JavaScript numbers: false when either side is NaN. *)
Definition leNum (x y : option Z) : bool :=
  match x, y with
  | Some a, Some b => a <=? b
  | _, _ => false
  end.

(** The template literal's rendering of an integer. *)
Definition numberToString (n : Z) : string :=
  NilZero.string_of_int (Z.to_int n).

(** [Array.prototype.sort(cmp)]. ECMAScript requires the sort to be stable,
    and for a comparator that is a consistent ordering every stable sort
    returns the same array; it is written here as a stable insertion sort.
    A NaN returned by the comparator counts as [0], which the callers
    below already produce. *)
Fixpoint sortInsert {A : Type} (cmp : A -> A -> Z) (x : A) (l : list A)
  : list A :=
  match l with
  | [] => [x]
  | y :: rest =>
      if cmp x y <=? 0 then x :: y :: rest
      else y :: sortInsert cmp x rest
  end.

Definition arraySort {A : Type} (cmp : A -> A -> Z) (l : list A) : list A :=
  fold_right (sortInsert cmp) [] l.

(** [x || d] for a nullable integer [x] and a default [d]. *)
Definition orDefault (o : option Z) (d : Z) : Z :=
  if truthy o then match o with Some n => n | None => d end else d.

(** [x || y] for two nullable integers. *)
Definition orElse (o1 o2 : option Z) : option Z :=
  if truthy o1 then o1 else o2.

(* ===================================================================== *)
(** ** schedulingEngine.ts: the engine                                    *)
(* ===================================================================== *)

(** [initializeWorkloadTracking]: the map is cleared, then every teacher
    of the catalog gets a record of zeros. *)
Definition zeroPerDay : ClassesPerDay := mkPerDay 0 0 0 0 0.

Definition zeroWorkload (id : Z) : TeacherWorkload :=
  mkWorkload id zeroPerDay 0.

Definition initializeWorkloadTracking (ts : list Teacher)
  : gmap Z TeacherWorkload :=
  fold_left (fun m t => <[teacher_id t := zeroWorkload (teacher_id t)]> m)
            ts ∅.

(** [workload.classesPerDay[day]] *)
Definition perDay (c : ClassesPerDay) (d : DayOfWeek) : Z :=
  match d with
  | monday => on_monday c
  | tuesday => on_tuesday c
  | wednesday => on_wednesday c
  | thursday => on_thursday c
  | friday => on_friday c
  end.

(** [workload.classesPerDay[day]++] *)
Definition incrPerDay (c : ClassesPerDay) (d : DayOfWeek) : ClassesPerDay :=
  match d with
  | monday =>
      mkPerDay (on_monday c + 1) (on_tuesday c) (on_wednesday c)
               (on_thursday c) (on_friday c)
  | tuesday =>
      mkPerDay (on_monday c) (on_tuesday c + 1) (on_wednesday c)
               (on_thursday c) (on_friday c)
  | wednesday =>
      mkPerDay (on_monday c) (on_tuesday c) (on_wednesday c + 1)
               (on_thursday c) (on_friday c)
  | thursday =>
      mkPerDay (on_monday c) (on_tuesday c) (on_wednesday c)
               (on_thursday c + 1) (on_friday c)
  | friday =>
      mkPerDay (on_monday c) (on_tuesday c) (on_wednesday c)
               (on_thursday c) (on_friday c + 1)
  end.

(** [storage.getSubjectTeachers]: the rows of [teacher_subjects] for the
    subject, in table order. *)
Definition getSubjectTeachers (db : Storage) (sid : Z) : list TeacherSubject :=
  List.filter (fun ts => ts_subjectId ts =? sid) (teacherSubjects db).

(** [getAvailableTeachers]: each row mapped to the first catalog teacher
    with its id, rows without one dropped ([filter(Boolean)]). *)
Definition getAvailableTeachers (db : Storage) (sid : Z) : list Teacher :=
  omap (fun ts =>
          List.find (fun t => teacher_id t =? ts_teacherId ts) (teachers db))
       (getSubjectTeachers db sid).

(** [isTeacherAvailable] *)
Definition isTeacherAvailable (teacher : Teacher) (timePeriod : TimePeriod)
  : bool :=
  match availability teacher with
  | None => true
  | Some av =>
      match av !! dayOfWeek timePeriod with
      | None => false
      | Some dayAvailability =>
          let startHour := hourOf (startTime timePeriod) in
          let endHour := hourOf (endTime timePeriod) in
          List.existsb
            (fun slot =>
               let slotStart := hourOf (window_start slot) in
               let slotEnd := hourOf (window_end slot) in
               geNum startHour slotStart && leNum endHour slotEnd)
            dayAvailability
      end
  end.

(** [checkTeacherWorkloadConstraints]; [options] is not read. *)
Definition checkTeacherWorkloadConstraints (eng : SchedulingEngine)
    (teacher : Teacher) (timePeriod : TimePeriod) (options : SchedulingOptions)
  : bool :=
  match teacherWorkloads eng !! teacher_id teacher with
  | None => false
  | Some workload =>
      let dayClasses := perDay (classesPerDay workload) (dayOfWeek timePeriod) in
      if orDefault (maxClassesPerDay teacher) 6 <=? dayClasses then false
      else if orDefault (maxClassesPerWeek teacher) 30 <=? totalClasses workload
           then false
           else true
  end.

(** [isRoomAvailable]: no entry of the run books the room in the period. *)
Definition isRoomAvailable (eng : SchedulingEngine) (room : Room)
    (timePeriod : TimePeriod) : bool :=
  negb (List.existsb
          (fun entry =>
             strictEqOpt (roomId entry) (room_id room)
             && (timePeriodId entry =? tp_id timePeriod))
          (generatedEntries eng)).

(** [findSuitableRoom] *)
Definition findSuitableRoom (db : Storage) (eng : SchedulingEngine)
    (classSubject : ClassSubject) (timePeriod : TimePeriod) : option Room :=
  let anyRoom :=
    List.find (fun room =>
                 truthyB (room_isAvailable room)
                 && isRoomAvailable eng room timePeriod)
              (rooms db) in
  if truthy (cs_preferredRoomId classSubject) then
    match List.find
            (fun r => strictEqOpt (cs_preferredRoomId classSubject) (room_id r))
            (rooms db) with
    | Some preferredRoom =>
        if isRoomAvailable eng preferredRoom timePeriod then Some preferredRoom
        else anyRoom
    | None => anyRoom
    end
  else anyRoom.

(** The comparator given to [sort] in [findSuitableTimeSlots]. A NaN hour
    makes the difference NaN, which [sort] reads as [0]. *)
Definition comparePeriods (options : SchedulingOptions) (a b : TimePeriod) : Z :=
  if prioritizeMorningClasses options then
    match hourOf (startTime a), hourOf (startTime b) with
    | Some aHour, Some bHour => aHour - bHour
    | _, _ => 0
    end
  else orderIndex a - orderIndex b.

(** [[...this.timePeriods].filter(tp => !tp.isBreak)] *)
Definition nonBreakPeriods (db : Storage) : list TimePeriod :=
  List.filter (fun tp => negb (truthyB (isBreak tp))) (timePeriods db).

(** [sortedTimePeriods]: the non-break periods, sorted. *)
Definition sortedTimePeriods (db : Storage) (options : SchedulingOptions)
  : list TimePeriod :=
  arraySort (comparePeriods options) (nonBreakPeriods db).

(** The inner loop of [findSuitableTimeSlots]: the first teacher that is
    available and under both caps. *)
Definition firstTeacherFor (eng : SchedulingEngine)
    (availableTeachers : list Teacher) (timePeriod : TimePeriod)
    (options : SchedulingOptions) : option Teacher :=
  List.find (fun teacher =>
               isTeacherAvailable teacher timePeriod
               && checkTeacherWorkloadConstraints eng teacher timePeriod options)
            availableTeachers.

(** The outer loop of [findSuitableTimeSlots] over the sorted periods;
    [suitableSlots] is the array built so far. *)
Fixpoint scanTimePeriods (db : Storage) (eng : SchedulingEngine)
    (classSubject : ClassSubject) (periodsNeeded : Z)
    (options : SchedulingOptions) (availableTeachers : list Teacher)
    (sorted : list TimePeriod) (suitableSlots : list Slot) : list Slot :=
  match sorted with
  | [] => suitableSlots
  | timePeriod :: rest =>
      if periodsNeeded <=? Z.of_nat (length suitableSlots) then suitableSlots
      else
        match firstTeacherFor eng availableTeachers timePeriod options with
        | Some teacher =>
            let suitableRoom := findSuitableRoom db eng classSubject timePeriod in
            scanTimePeriods db eng classSubject periodsNeeded options
              availableTeachers rest
              (suitableSlots ++
                 [mkSlot (tp_id timePeriod) timePeriod (teacher_id teacher)
                         (option_map room_id suitableRoom)])
        | None =>
            scanTimePeriods db eng classSubject periodsNeeded options
              availableTeachers rest suitableSlots
        end
  end.

(** [findSuitableTimeSlots] *)
Definition findSuitableTimeSlots (db : Storage) (eng : SchedulingEngine)
    (classSubject : ClassSubject) (periodsNeeded : Z)
    (options : SchedulingOptions) : list Slot :=
  scanTimePeriods db eng classSubject periodsNeeded options
    (getAvailableTeachers db (cs_subjectId classSubject))
    (sortedTimePeriods db options) [].

(** [checkConflicts] *)
Definition checkConflicts (eng : SchedulingEngine) (entry : InsertTimetableEntry)
  : ConflictCheck :=
  mkConflictCheck
    (List.existsb
       (fun existing =>
          (teacherId existing =? teacherId entry)
          && (timePeriodId existing =? timePeriodId entry))
       (generatedEntries eng))
    (if truthy (roomId entry) then
       List.existsb
         (fun existing =>
            strictEqOpt2 (roomId existing) (roomId entry)
            && (timePeriodId existing =? timePeriodId entry))
         (generatedEntries eng)
     else false)
    (List.existsb
       (fun existing =>
          (classId existing =? classId entry)
          && (timePeriodId existing =? timePeriodId entry))
       (generatedEntries eng)).

(** [{ ...entry, teacherId: t }] *)
Definition withTeacher (entry : InsertTimetableEntry) (t : Z)
  : InsertTimetableEntry :=
  mkEntry (classId entry) (subjectId entry) t (roomId entry)
          (timePeriodId entry) (weekNumber entry) (isGenerated entry).

(** [{ ...entry, roomId: r }] *)
Definition withRoom (entry : InsertTimetableEntry) (r : Z)
  : InsertTimetableEntry :=
  mkEntry (classId entry) (subjectId entry) (teacherId entry) (Some r)
          (timePeriodId entry) (weekNumber entry) (isGenerated entry).

(** [this.timePeriods.find(tp => tp.id === entry.timePeriodId)] *)
Definition findTimePeriod (db : Storage) (id : Z) : option TimePeriod :=
  List.find (fun tp => tp_id tp =? id) (timePeriods db).

(** First loop of [resolveConflicts]: the first other eligible teacher
    that is available in the period and whose substitution has neither a
    teacher nor a class conflict. *)
Definition alternativeTeacher (db : Storage) (eng : SchedulingEngine)
    (entry : InsertTimetableEntry) : option InsertTimetableEntry :=
  option_map (fun teacher => withTeacher entry (teacher_id teacher))
    (List.find
       (fun teacher =>
          negb (teacher_id teacher =? teacherId entry)
          && match findTimePeriod db (timePeriodId entry) with
             | Some timePeriod => isTeacherAvailable teacher timePeriod
             | None => false
             end
          && (let conflicts := checkConflicts eng
                                 (withTeacher entry (teacher_id teacher)) in
              negb (teacherConflicts conflicts)
              && negb (classConflicts conflicts)))
       (getAvailableTeachers db (subjectId entry))).

(** Second loop of [resolveConflicts]: the first other room flagged
    available, free in the period, whose substitution has no room
    conflict. *)
Definition alternativeRoom (db : Storage) (eng : SchedulingEngine)
    (entry : InsertTimetableEntry) : option InsertTimetableEntry :=
  option_map (fun room => withRoom entry (room_id room))
    (List.find
       (fun room =>
          negb (strictEqOpt (roomId entry) (room_id room)
                || negb (truthyB (room_isAvailable room)))
          && match findTimePeriod db (timePeriodId entry) with
             | Some timePeriod => isRoomAvailable eng room timePeriod
             | None => false
             end
          && negb (roomConflicts
                     (checkConflicts eng (withRoom entry (room_id room)))))
       (rooms db)).

(** [resolveConflicts]; [originalSlot] is not read. *)
Definition resolveConflicts (db : Storage) (eng : SchedulingEngine)
    (entry : InsertTimetableEntry) (originalSlot : Slot)
  : option InsertTimetableEntry :=
  let tryRoom :=
    if truthy (roomId entry) then alternativeRoom db eng entry else None in
  if negb (teacherId entry =? 0) then
    match alternativeTeacher db eng entry with
    | Some testEntry => Some testEntry
    | None => tryRoom
    end
  else tryRoom.

(** [updateTeacherWorkload] *)
Definition updateTeacherWorkload (eng : SchedulingEngine) (tid : Z)
    (day : DayOfWeek) : SchedulingEngine :=
  match teacherWorkloads eng !! tid with
  | Some workload =>
      mkEngine
        (<[tid := mkWorkload (workload_teacherId workload)
                             (incrPerDay (classesPerDay workload) day)
                             (totalClasses workload + 1)]>
           (teacherWorkloads eng))
        (generatedEntries eng)
  | None => eng
  end.

(** [applyConstraint]: every branch of the [switch] returns [true] or
    falls through to the final [return true]. *)
Definition applyConstraint (constraint : Constraint)
    (entry : InsertTimetableEntry) : bool :=
  let other (id : option Z) :=
    truthy (constraint_targetId constraint)
    && negb (strictEqOpt2 (constraint_targetId constraint) id) in
  match constraint_scope constraint with
  | scope_teacher => if other (Some (teacherId entry)) then true else true
  | scope_class => if other (Some (classId entry)) then true else true
  | scope_subject => if other (Some (subjectId entry)) then true else true
  | scope_room => if other (roomId entry) then true else true
  | scope_global => true
  end.

(** The [for] loop of [validateConstraints]. *)
Fixpoint validateLoop (cs : list Constraint) (entry : InsertTimetableEntry)
    (options : SchedulingOptions) : bool :=
  match cs with
  | [] => true
  | constraint :: rest =>
      if negb (constraint_isActive constraint) then
        validateLoop rest entry options
      else if bool_decide (constraint_type constraint = soft)
              && negb (respectSoftConstraints options) then
        validateLoop rest entry options
      else
        let isValid := applyConstraint constraint entry in
        if bool_decide (constraint_type constraint = hard) && negb isValid
        then false
        else validateLoop rest entry options
  end.

(** [validateConstraints] *)
Definition validateConstraints (db : Storage) (entry : InsertTimetableEntry)
    (options : SchedulingOptions) : bool :=
  if negb (enforceHardConstraints options)
     && negb (respectSoftConstraints options)
  then true
  else validateLoop (constraints db) entry options.

(** The two template literals pushed onto [conflicts]. *)
Definition shortfallMessage (periodsNeeded : Z) (subject : Subject)
    (classObj : Class) : string :=
  ("Cannot schedule all " ++ numberToString periodsNeeded ++ " periods for "
   ++ subject_name subject ++ " in " ++ class_name classObj)%string.

Definition unresolvableMessage (subject : Subject) (classObj : Class)
    (slot : Slot) : string :=
  ("Unresolvable conflict for " ++ subject_name subject ++ " in "
   ++ class_name classObj ++ " at " ++ tp_name (slot_timePeriod slot))%string.

Definition noAssignmentsMessage : string :=
  "No class-subject assignments found. Please assign subjects to classes first."%string.

(** What a run carries through its loops: the engine's fields and the
    locals [conflicts] and [conflictsResolved] of [generateSchedule]. *)
Record RunState : Type := mkRun {
  run_engine : SchedulingEngine;
  run_conflicts : list string;
  run_conflictsResolved : Z;
}.

(** [this.generatedEntries.push(e)] *)
Definition pushEntry (eng : SchedulingEngine) (e : InsertTimetableEntry)
  : SchedulingEngine :=
  mkEngine (teacherWorkloads eng) (generatedEntries eng ++ [e]).

(** The entry built for a candidate slot. *)
Definition candidateEntry (classSubject : ClassSubject) (slot : Slot)
  : InsertTimetableEntry :=
  mkEntry (cs_classId classSubject) (cs_subjectId classSubject)
          (orDefault (cs_teacherId classSubject) (slot_teacherId slot))
          (orElse (cs_preferredRoomId classSubject) (slot_roomId slot))
          (slot_timePeriodId slot) 1 true.

(** The [if]/[else] of the assignment loop: commit the entry, commit its
    resolution, or record the conflict. *)
Definition commitOrReport (db : Storage) (options : SchedulingOptions)
    (subject : Subject) (classObj : Class) (st : RunState)
    (entry : InsertTimetableEntry) (slot : Slot) : RunState :=
  let eng := run_engine st in
  let conflictCheck := checkConflicts eng entry in
  let constraintsValid := validateConstraints db entry options in
  let unresolved :=
    mkRun eng (run_conflicts st ++ [unresolvableMessage subject classObj slot])
          (run_conflictsResolved st) in
  if teacherConflicts conflictCheck || roomConflicts conflictCheck
     || classConflicts conflictCheck || negb constraintsValid
  then
    match resolveConflicts db eng entry slot with
    | Some resolved =>
        if validateConstraints db resolved options then
          mkRun (pushEntry eng resolved) (run_conflicts st)
                (run_conflictsResolved st + 1)
        else unresolved
    | None => unresolved
    end
  else
    mkRun (pushEntry eng entry) (run_conflicts st) (run_conflictsResolved st).

(** One iteration of the assignment loop, workload update included. *)
Definition attemptSlot (db : Storage) (options : SchedulingOptions)
    (classSubject : ClassSubject) (subject : Subject) (classObj : Class)
    (st : RunState) (slot : Slot) : RunState :=
  let entry := candidateEntry classSubject slot in
  let st1 := commitOrReport db options subject classObj st entry slot in
  if negb (teacherId entry =? 0) then
    mkRun (updateTeacherWorkload (run_engine st1) (teacherId entry)
             (dayOfWeek (slot_timePeriod slot)))
          (run_conflicts st1) (run_conflictsResolved st1)
  else st1.

(** The assignment loop over [suitableSlots[0 .. min(length, needed))]. *)
Definition assignSlots (db : Storage) (options : SchedulingOptions)
    (classSubject : ClassSubject) (subject : Subject) (classObj : Class)
    (periodsNeeded : Z) (suitableSlots : list Slot) (st : RunState)
  : RunState :=
  fold_left (attemptSlot db options classSubject subject classObj)
    (firstn (Z.to_nat (Z.min (Z.of_nat (length suitableSlots)) periodsNeeded))
            suitableSlots)
    st.

(** [conflicts.push(shortfall)] when too few slots were found. *)
Definition noteShortfall (periodsNeeded : Z) (subject : Subject)
    (classObj : Class) (suitableSlots : list Slot) (st : RunState)
  : RunState :=
  if Z.of_nat (length suitableSlots) <? periodsNeeded then
    mkRun (run_engine st)
          (run_conflicts st ++ [shortfallMessage periodsNeeded subject classObj])
          (run_conflictsResolved st)
  else st.

Definition findSubject (db : Storage) (id : Z) : option Subject :=
  List.find (fun s => subject_id s =? id) (subjects db).

Definition findClass (db : Storage) (id : Z) : option Class :=
  List.find (fun c => class_id c =? id) (classes db).

(** The body of the loop over [this.classSubjects]. *)
Definition processClassSubject (db : Storage) (options : SchedulingOptions)
    (st : RunState) (classSubject : ClassSubject) : RunState :=
  match findSubject db (cs_subjectId classSubject),
        findClass db (cs_classId classSubject) with
  | Some subject, Some classObj =>
      let periodsNeeded := weeklyHours subject in
      let suitableSlots :=
        findSuitableTimeSlots db (run_engine st) classSubject periodsNeeded
                              options in
      assignSlots db options classSubject subject classObj periodsNeeded
        suitableSlots
        (noteShortfall periodsNeeded subject classObj suitableSlots st)
  | _, _ => st
  end.

(** The engine as a run starts: workloads zeroed, no entries. *)
Definition startEngine (db : Storage) : SchedulingEngine :=
  mkEngine (initializeWorkloadTracking (teachers db)) [].

Definition failureResult (message : string) : SchedulingResult :=
  mkResult false [] (mkStats 0 0 0) [] (Some [message]).

(** [generateSchedule] on the catalog [db] that [loadData] reads: the
    engine's fields when the run returns, and the result it returns.
    Nothing in the embedded run throws, so the [catch] branch has no
    counterpart here. *)
Definition generateSchedule (db : Storage) (options : SchedulingOptions)
  : SchedulingEngine * SchedulingResult :=
  let eng0 := startEngine db in
  if (length (classSubjects db) =? 0)%nat then
    (eng0, failureResult noAssignmentsMessage)
  else
    let st := fold_left (processClassSubject db options) (classSubjects db)
                        (mkRun eng0 [] 0) in
    (run_engine st,
     mkResult true (generatedEntries (run_engine st))
       (mkStats (Z.of_nat (length (classes db)))
                (Z.of_nat (length (generatedEntries (run_engine st))))
                (run_conflictsResolved st))
       (run_conflicts st) None).

(* ===================================================================== *)
(** ** Measures over a run's output, used to state the invariants        *)
(* ===================================================================== *)

(** Two entries book the same teacher in the same period. *)
Definition sameTeacherSlot (a b : InsertTimetableEntry) : bool :=
  (teacherId a =? teacherId b) && (timePeriodId a =? timePeriodId b).

(** Two entries, both with a room, book the same room in the same period. *)
Definition sameRoomSlot (a b : InsertTimetableEntry) : bool :=
  match roomId a, roomId b with
  | Some ra, Some rb => (ra =? rb) && (timePeriodId a =? timePeriodId b)
  | _, _ => false
  end.

(** Two entries place the same class in the same period. *)
Definition sameClassSlot (a b : InsertTimetableEntry) : bool :=
  (classId a =? classId b) && (timePeriodId a =? timePeriodId b).

(** Some two entries at distinct positions of [l] are related by [clash]. *)
Fixpoint hasClash (clash : InsertTimetableEntry -> InsertTimetableEntry -> bool)
    (l : list InsertTimetableEntry) : bool :=
  match l with
  | [] => false
  | e :: rest => List.existsb (clash e) rest || hasClash clash rest
  end.

(** The day an entry falls on, through its period in the catalog. *)
Definition entryDay (db : Storage) (e : InsertTimetableEntry)
  : option DayOfWeek :=
  option_map dayOfWeek (findTimePeriod db (timePeriodId e)).

(** Entries of teacher [tid] in the whole week. *)
Definition entriesOfTeacher (tid : Z) (l : list InsertTimetableEntry) : Z :=
  Z.of_nat (length (List.filter (fun e => teacherId e =? tid) l)).

(** Entries of teacher [tid] that fall on [day]. *)
Definition entriesOfTeacherOn (db : Storage) (tid : Z) (day : DayOfWeek)
    (l : list InsertTimetableEntry) : Z :=
  Z.of_nat (length (List.filter
                      (fun e => (teacherId e =? tid)
                                && bool_decide (entryDay db e = Some day))
                      l)).

(* ===================================================================== *)
(** ** Catalogs used as concrete inputs                                   *)
(* ===================================================================== *)

Module Catalog.

Definition defaults : SchedulingOptions :=
  mkOptions false false false true true.

Definition morningFirst : SchedulingOptions :=
  mkOptions false false true true true.

Definition c1 : Class := mkClass 1 "C1".
Definition c2 : Class := mkClass 2 "C2".
Definition math : Subject := mkSubject 1 "Math" 1.
Definition math2 : Subject := mkSubject 1 "Math" 2.
Definition english : Subject := mkSubject 2 "English" 1.
Definition t1 : Teacher := mkTeacher 1 None None None.
Definition t2 : Teacher := mkTeacher 2 None None None.
Definition t1_capped : Teacher := mkTeacher 1 (Some 1) (Some 1) None.
Definition r1 : Room := mkRoom 1 (Some true).
Definition r2 : Room := mkRoom 2 (Some true).
Definition r3 : Room := mkRoom 3 (Some true).
Definition p1 : TimePeriod :=
  mkTimePeriod 1 "Monday-P1" "08:00" "09:00" monday (Some false) 1.
Definition p2 : TimePeriod :=
  mkTimePeriod 2 "Monday-P2" "09:00" "10:00" monday (Some false) 2.

(** Two classes need Math in the only period, one teacher, three rooms. *)
Definition oneTeacherThreeRooms : Storage :=
  mkStorage [c1; c2] [math] [t1] [r1; r2; r3] [p1]
    [mkClassSubject 1 1 None None; mkClassSubject 2 1 None None]
    [mkTeacherSubject 1 1] [].

(** Two classes need Math in the only period, both pinned to room 1; two
    teachers can teach it. *)
Definition sharedPreferredRoom : Storage :=
  mkStorage [c1; c2] [math] [t1; t2] [r1] [p1]
    [mkClassSubject 1 1 None (Some 1); mkClassSubject 2 1 None (Some 1)]
    [mkTeacherSubject 1 1; mkTeacherSubject 2 1] [].

(** One class needs Math and English in the only period. *)
Definition oneClassTwoSubjects : Storage :=
  mkStorage [c1] [math; english] [t1; t2] [r1; r2; r3] [p1]
    [mkClassSubject 1 1 None None; mkClassSubject 1 2 None None]
    [mkTeacherSubject 1 1; mkTeacherSubject 2 2] [].

(** One class needs two periods of Math; the only teacher is capped at one
    class per day and one per week; both periods are on Monday. *)
Definition cappedTeacher : Storage :=
  mkStorage [c1] [math2] [t1_capped] [r1] [p1; p2]
    [mkClassSubject 1 1 None None]
    [mkTeacherSubject 1 1] [].

(** Two classes need Math in the only period, one teacher, one room. *)
Definition oneTeacherOneRoom : Storage :=
  mkStorage [c1; c2] [math] [t1] [r1] [p1]
    [mkClassSubject 1 1 None None; mkClassSubject 2 1 None None]
    [mkTeacherSubject 1 1] [].

End Catalog.

Module Scenario.

(** Teacher 1 is free on Monday from 08:00 to 10:00 and has no entry for
    any other day. *)
Definition mondayMorning : gmap DayOfWeek (list AvailabilityWindow) :=
  {[ monday := [mkWindow "08:00" "10:00"] ]}.

Definition t1_monday : Teacher := mkTeacher 1 None None (Some mondayMorning).

(** A Monday period that starts and ends off the hour. *)
Definition p1_late : TimePeriod :=
  mkTimePeriod 3 "Monday-P1b" "08:45" "09:30" monday (Some false) 3.

Definition p_tuesday : TimePeriod :=
  mkTimePeriod 4 "Tuesday-P1" "08:00" "09:00" tuesday (Some false) 1.

(** Scenario C: the later period has the lower [orderIndex]. *)
Definition p2_first : TimePeriod :=
  mkTimePeriod 2 "Monday-P2" "09:00" "10:00" monday (Some false) 1.

Definition p1_second : TimePeriod :=
  mkTimePeriod 1 "Monday-P1" "08:00" "09:00" monday (Some false) 2.

Definition scenarioC : Storage :=
  mkStorage [Catalog.c1] [Catalog.math] [Catalog.t1] [Catalog.r1]
    [p2_first; p1_second]
    [mkClassSubject 1 1 None None]
    [mkTeacherSubject 1 1] [].

(** Scenario D: an active hard constraint scoped to teacher 1. *)
Definition hardOnT1 : Constraint :=
  mkConstraint hard scope_teacher (Some 1) true.

Definition scenarioD : Storage :=
  mkStorage [Catalog.c1] [Catalog.math] [Catalog.t1; Catalog.t2]
    [Catalog.r1] [Catalog.p1]
    [mkClassSubject 1 1 None None]
    [mkTeacherSubject 1 1; mkTeacherSubject 2 1] [hardOnT1].

(** A catalog with classes, teachers and periods but no assignment. *)
Definition noAssignments : Storage :=
  mkStorage [Catalog.c1; Catalog.c2] [Catalog.math] [Catalog.t1; Catalog.t2]
    [Catalog.r1] [Catalog.p1; Catalog.p2] []
    [mkTeacherSubject 1 1] [hardOnT1].

(** One class needs two periods of Math and the catalog has one period. *)
Definition tooFewPeriods : Storage :=
  mkStorage [Catalog.c1] [Catalog.math2] [Catalog.t1] [Catalog.r1]
    [Catalog.p1]
    [mkClassSubject 1 1 None None]
    [mkTeacherSubject 1 1] [].

(** The engine of [oneTeacherOneRoom] once class 1 has its Math entry. *)
Definition afterFirstClass : RunState :=
  processClassSubject Catalog.oneTeacherOneRoom Catalog.defaults
    (mkRun (startEngine Catalog.oneTeacherOneRoom) [] 0)
    (mkClassSubject 1 1 None None).

End Scenario.

(** The caps [checkTeacherWorkloadConstraints] compares against. *)
Definition dailyCap (teacher : Teacher) : Z :=
  orDefault (maxClassesPerDay teacher) 6.

Definition weeklyCap (teacher : Teacher) : Z :=
  orDefault (maxClassesPerWeek teacher) 30.

(** A window covers a period at hour granularity. *)
Definition windowCovers (w : AvailabilityWindow) (timePeriod : TimePeriod)
  : Prop :=
  exists slotStart slotEnd startHour endHour : Z,
    hourOf (window_start w) = Some slotStart
    /\ hourOf (window_end w) = Some slotEnd
    /\ hourOf (startTime timePeriod) = Some startHour
    /\ hourOf (endTime timePeriod) = Some endHour
    /\ slotStart <= startHour /\ endHour <= slotEnd.

(** [st'] is [st] with at most [n] more entries, all satisfying [P], and
    possibly more conflict messages; nothing already there is changed. *)
Definition grows (P : InsertTimetableEntry -> Prop) (n : nat)
    (st st' : RunState) : Prop :=
  exists new later,
    generatedEntries (run_engine st') = generatedEntries (run_engine st) ++ new
    /\ (length new <= n)%nat
    /\ Forall P new
    /\ run_conflicts st' = run_conflicts st ++ later.

(** The entry belongs to the pairing. *)
Definition ofPairing (classSubject : ClassSubject) (e : InsertTimetableEntry)
  : Prop :=
  classId e = cs_classId classSubject
  /\ subjectId e = cs_subjectId classSubject.

(** Period [a] starts at an hour no later than period [b]; both hours
    are numbers. *)
Definition startsNoLater (a b : TimePeriod) : Prop :=
  exists x y : Z,
    hourOf (startTime a) = Some x /\ hourOf (startTime b) = Some y /\ x <= y.

(** The hour of a period's start, [0] standing in for NaN. *)
Definition startHourKey (tp : TimePeriod) : Z :=
  match hourOf (startTime tp) with
  | Some h => h
  | None => 0
  end.

(** The five day counters added up. *)
Definition weekSum (c : ClassesPerDay) : Z :=
  on_monday c + on_tuesday c + on_wednesday c + on_thursday c + on_friday c.

(** The record kept under key [tid] names [tid], its total is the sum of
    its day counters, and no counter is negative. *)
Definition workloadConsistent (tid : Z) (w : TeacherWorkload) : Prop :=
  workload_teacherId w = tid
  /\ totalClasses w = weekSum (classesPerDay w)
  /\ 0 <= on_monday (classesPerDay w)
  /\ 0 <= on_tuesday (classesPerDay w)
  /\ 0 <= on_wednesday (classesPerDay w)
  /\ 0 <= on_thursday (classesPerDay w)
  /\ 0 <= on_friday (classesPerDay w).

(** [tid] is the id of a teacher [getAvailableTeachers] returns for the
    subject. *)
Definition eligibleTeacherId (db : Storage) (sid tid : Z) : Prop :=
  exists teacher,
    In teacher (getAvailableTeachers db sid) /\ teacher_id teacher = tid.

(** [r] is the id of a room of the catalog. *)
Definition catalogRoomId (db : Storage) (r : Z) : Prop :=
  exists room, In room (rooms db) /\ room_id room = r.

(** A candidate slot built from the catalog for the pairing: an eligible
    teacher, a non-break period of the catalog under its own id, and a
    catalog room if any. *)
Definition slotFromCatalog (db : Storage) (classSubject : ClassSubject)
    (slot : Slot) : Prop :=
  eligibleTeacherId db (cs_subjectId classSubject) (slot_teacherId slot)
  /\ slot_timePeriodId slot = tp_id (slot_timePeriod slot)
  /\ In (slot_timePeriod slot) (nonBreakPeriods db)
  /\ (forall r, slot_roomId slot = Some r -> catalogRoomId db r).

(** Where every field of a generated entry comes from. *)
Definition entryFromCatalog (db : Storage) (e : InsertTimetableEntry) : Prop :=
  exists classSubject,
    In classSubject (classSubjects db)
    /\ classId e = cs_classId classSubject
    /\ subjectId e = cs_subjectId classSubject
    /\ (exists subject, findSubject db (subjectId e) = Some subject)
    /\ (exists classObj, findClass db (classId e) = Some classObj)
    /\ (exists tp, In tp (nonBreakPeriods db) /\ tp_id tp = timePeriodId e)
    /\ (cs_teacherId classSubject = Some (teacherId e)
        \/ eligibleTeacherId db (subjectId e) (teacherId e))
    /\ (roomId e = None
        \/ roomId e = cs_preferredRoomId classSubject
        \/ exists r, roomId e = Some r /\ catalogRoomId db r)
    /\ weekNumber e = 1
    /\ isGenerated e = true.

(* ===================================================================== *)
(** ** client/src/lib/scheduling.ts: time utilities                       *)
(* ===================================================================== *)

Module ClientScheduling.

(** A JavaScript number as far as this part reads it: an integer, NaN, or
    a value the embedding does not determine (a literal with a fraction, an
    exponent, a radix prefix or [Infinity], or text with characters
    outside ASCII, whose white space is not trimmed here). Integers are
    exact; the rounding of a double beyond 2^53 is not modelled. *)
Inductive JsNumber : Type :=
  | JsInt (z : Z)
  | JsNaN
  | JsUndetermined.

(** [s.split(':')]: the parts between colons; never empty. *)
Fixpoint splitColon (s : string) : list string :=
  match s with
  | EmptyString => [EmptyString]
  | String c rest =>
      if Ascii.eqb c ":"%char then EmptyString :: splitColon rest
      else match splitColon rest with
           | part :: parts => String c part :: parts
           | [] => [String c EmptyString]
           end
  end.

(** White space removed from the end (ASCII white space only). *)
Fixpoint trimEnd (s : string) : string :=
  match s with
  | EmptyString => EmptyString
  | String c rest =>
      match trimEnd rest with
      | EmptyString => if isWhiteSpace c then EmptyString
                       else String c EmptyString
      | kept => String c kept
      end
  end.

(** The digits of [s] when every character of it is a decimal digit. *)
Fixpoint decimalDigits (s : string) : option (list Z) :=
  match s with
  | EmptyString => Some []
  | String c rest =>
      match digitValue 10 c, decimalDigits rest with
      | Some d, Some ds => Some (d :: ds)
      | _, _ => None
      end
  end.

Fixpoint existsChar (p : ascii -> bool) (s : string) : bool :=
  match s with
  | EmptyString => false
  | String c rest => p c || existsChar p rest
  end.

Definition isAscii (c : ascii) : bool := Z.of_nat (nat_of_ascii c) <? 128.

(** An ASCII character that no numeric literal contains: anything but a
    letter, a digit, a dot or a sign. *)
Definition notInAnyLiteral (c : ascii) : bool :=
  let n := Z.of_nat (nat_of_ascii c) in
  negb (((48 <=? n) && (n <=? 57))
        || ((65 <=? n) && (n <=? 90))
        || ((97 <=? n) && (n <=? 122))
        || (n =? 46) || (n =? 43) || (n =? 45)).

(** [Number(s)] on a string: white space is trimmed, the empty string is
    0, an optionally signed run of decimal digits is that integer. Any
    other text is NaN when it is ASCII and holds a character no numeric
    literal contains, and is left undetermined otherwise. *)
Definition jsNumber (s : string) : JsNumber :=
  let t := trimEnd (trimStart s) in
  match t with
  | EmptyString => JsInt 0
  | String c rest =>
      let '(sign, body) :=
        if Ascii.eqb c "-"%char then (-1, rest)
        else if Ascii.eqb c "+"%char then (1, rest)
        else (1, t) in
      match decimalDigits body with
      | Some (d :: ds) => JsInt (sign * digitsValue 10 (d :: ds))
      | _ =>
          if existsChar (fun a => negb (isAscii a)) t then JsUndetermined
          else if existsChar notInAnyLiteral t then JsNaN
          else JsUndetermined
      end
  end.

(** [hours * 60 + minutes] on two numbers. *)
Definition timesSixtyPlus (hours minutes : JsNumber) : JsNumber :=
  match hours, minutes with
  | JsInt h, JsInt m => JsInt (h * 60 + m)
  | JsNaN, _ => JsNaN
  | _, JsNaN => JsNaN
  | _, _ => JsUndetermined
  end.

(** [parseTime]: the first two parts of the split are read as numbers; a
    string without a colon has no minutes part and gives NaN. *)
Definition parseTime (timeString : string) : JsNumber :=
  match List.map jsNumber (splitColon timeString) with
  | hours :: minutes :: _ => timesSixtyPlus hours minutes
  | _ => JsNaN
  end.



(** [a < b] on two numbers: false with a NaN on either side; [None] when
    the embedding does not determine it. *)
Definition ltNum (a b : JsNumber) : option bool :=
  match a, b with
  | JsInt x, JsInt y => Some (x <? y)
  | JsNaN, _ => Some false
  | _, JsNaN => Some false
  | _, _ => None
  end.

(** [p && q] on two comparisons, one of which may be undetermined: the
    result is known to be false as soon as either side is. *)
Definition andNum (p q : option bool) : option bool :=
  match p, q with
  | Some false, _ => Some false
  | Some true, _ => q
  | None, Some false => Some false
  | None, _ => None
  end.

(** A slot [{start, end}]. *)
Record TimeRange : Type := mkRange {
  range_start : string;
  range_end : string;
}.

(** [isTimeOverlap] *)
Definition isTimeOverlap (slot1 slot2 : TimeRange) : option bool :=
  let start1 := parseTime (range_start slot1) in
  let end1 := parseTime (range_end slot1) in
  let start2 := parseTime (range_start slot2) in
  let end2 := parseTime (range_end slot2) in
  andNum (ltNum start1 end2) (ltNum start2 end1).

(** The [timePeriod] object of an entry, as far as these functions read
    it. *)
Record PeriodTimes : Type := mkPeriodTimes {
  pt_startTime : string;
  pt_endTime : string;
  pt_dayOfWeek : string;
}.

(** A timetable entry as the client holds it. Each of the four required
    ids is [None] when the property is absent ([undefined]); [se_roomId]
    is [None] when the room is [null] or absent. *)
Record ScheduleEntry : Type := mkScheduleEntry {
  se_classId : option Z;
  se_subjectId : option Z;
  se_teacherId : option Z;
  se_roomId : option Z;
  se_timePeriodId : option Z;
  se_timePeriod : PeriodTimes;
}.

(** [TimeSlot] *)
Record TimeSlot : Type := mkTimeSlot {
  slot_start : string;
  slot_end : string;
  slot_day : string;
}.

Inductive ConflictKind : Type := kind_teacher | kind_room | kind_class.

(** One element of [ConflictDetectionResult.conflicts]. *)
Record Conflict : Type := mkConflict {
  conflict_type : ConflictKind;
  conflict_message : string;
  conflict_timeSlot : TimeSlot;
  conflict_entities : list string;
}.

Record ConflictDetectionResult : Type := mkDetection {
  hasConflicts : bool;
  detected : list Conflict;
}.

(** What a schedule array holds: [{timeSlot, entryId}]. *)
Definition ScheduleItem : Type := (TimeSlot * string)%type.

(** The [Map] from a teacher or room id to its schedule array, in
    insertion order of the keys. *)
Definition Schedules : Type := list (option Z * list ScheduleItem).

(** [if (!map.has(key)) map.set(key, []); map.get(key).push(item)] *)
Fixpoint groupPush (key : option Z) (item : ScheduleItem) (m : Schedules)
  : Schedules :=
  match m with
  | [] => [(key, [item])]
  | (k, schedule) :: rest =>
      if strictEqOpt2 k key then (k, schedule ++ [item]) :: rest
      else (k, schedule) :: groupPush key item rest
  end.

(** The [timeSlot] built for an entry. *)
Definition timeSlotOf (entry : ScheduleEntry) : TimeSlot :=
  mkTimeSlot (pt_startTime (se_timePeriod entry))
             (pt_endTime (se_timePeriod entry))
             (pt_dayOfWeek (se_timePeriod entry)).

(** [`entry-${index}`] *)
Definition entryId (index : nat) : string :=
  ("entry-" ++ numberToString (Z.of_nat index))%string.

(** First [forEach] of [detectTeacherConflicts], from entry [index] on. *)
Fixpoint groupByTeacher (index : nat) (entries : list ScheduleEntry)
    (m : Schedules) : Schedules :=
  match entries with
  | [] => m
  | entry :: rest =>
      groupByTeacher (S index) rest
        (groupPush (se_teacherId entry) (timeSlotOf entry, entryId index) m)
  end.

(** First [forEach] of [detectRoomConflicts]: entries without a room are
    skipped. *)
Fixpoint groupByRoom (index : nat) (entries : list ScheduleEntry)
    (m : Schedules) : Schedules :=
  match entries with
  | [] => m
  | entry :: rest =>
      groupByRoom (S index) rest
        (if truthy (se_roomId entry)
         then groupPush (se_roomId entry) (timeSlotOf entry, entryId index) m
         else m)
  end.

(** [slot1.day === slot2.day && isTimeOverlap(slot1, slot2)] *)
Definition overlapSameDay (slot1 slot2 : TimeSlot) : option bool :=
  if String.eqb (slot_day slot1) (slot_day slot2)
  then isTimeOverlap (mkRange (slot_start slot1) (slot_end slot1))
                     (mkRange (slot_start slot2) (slot_end slot2))
  else Some false.

(** The loop over [j] for a fixed [slot1]; [None] when a comparison is
    not determined. *)
Fixpoint innerLoop (mk : ScheduleItem -> ScheduleItem -> Conflict)
    (slot1 : ScheduleItem) (later : list ScheduleItem)
  : option (list Conflict) :=
  match later with
  | [] => Some []
  | slot2 :: rest =>
      match overlapSameDay (fst slot1) (fst slot2), innerLoop mk slot1 rest with
      | Some hit, Some found =>
          Some (if hit then mk slot1 slot2 :: found else found)
      | _, _ => None
      end
  end.

(** The loop over [i] through one schedule. *)
Fixpoint scheduleLoop (mk : ScheduleItem -> ScheduleItem -> Conflict)
    (schedule : list ScheduleItem) : option (list Conflict) :=
  match schedule with
  | [] => Some []
  | slot1 :: rest =>
      match innerLoop mk slot1 rest, scheduleLoop mk rest with
      | Some first, Some others => Some (first ++ others)
      | _, _ => None
      end
  end.

(** The second [forEach]: every schedule of the map in turn. *)
Fixpoint schedulesLoop
    (mk : option Z -> ScheduleItem -> ScheduleItem -> Conflict)
    (m : Schedules) : option (list Conflict) :=
  match m with
  | [] => Some []
  | (key, schedule) :: rest =>
      match scheduleLoop (mk key) schedule, schedulesLoop mk rest with
      | Some first, Some others => Some (first ++ others)
      | _, _ => None
      end
  end.

(** [`${id}`] for a map key. *)
Definition keyToString (key : option Z) : string :=
  match key with
  | Some id => numberToString id
  | None => "undefined"%string
  end.

Definition teacherConflict (key : option Z) (slot1 slot2 : ScheduleItem)
  : Conflict :=
  mkConflict kind_teacher
    ("Teacher " ++ keyToString key ++ " has overlapping classes")%string
    (fst slot1) [snd slot1; snd slot2].

Definition roomConflict (key : option Z) (slot1 slot2 : ScheduleItem)
  : Conflict :=
  mkConflict kind_room
    ("Room " ++ keyToString key ++ " has overlapping bookings")%string
    (fst slot1) [snd slot1; snd slot2].

Definition detection (found : list Conflict) : ConflictDetectionResult :=
  mkDetection (negb (length found =? 0)%nat) found.

(** [detectTeacherConflicts]; [None] when an overlap test it needs is not
    determined. *)
Definition detectTeacherConflicts (entries : list ScheduleEntry)
  : option ConflictDetectionResult :=
  option_map detection
    (schedulesLoop teacherConflict (groupByTeacher 0 entries [])).

(** [detectRoomConflicts] *)
Definition detectRoomConflicts (entries : list ScheduleEntry)
  : option ConflictDetectionResult :=
  option_map detection
    (schedulesLoop roomConflict (groupByRoom 0 entries [])).

Record Validation : Type := mkValidation {
  isValid : bool;
  validation_errors : list string;
  validation_warnings : list string;
}.

(** The four required-field checks on the entry at [index]. *)
Definition missingFieldErrors (index : nat) (entry : ScheduleEntry)
  : list string :=
  let label := ("Entry " ++ numberToString (Z.of_nat index))%string in
  (if truthy (se_classId entry) then []
   else [(label ++ ": Missing class assignment")%string])
  ++ (if truthy (se_subjectId entry) then []
      else [(label ++ ": Missing subject assignment")%string])
  ++ (if truthy (se_teacherId entry) then []
      else [(label ++ ": Missing teacher assignment")%string])
  ++ (if truthy (se_timePeriodId entry) then []
      else [(label ++ ": Missing time period assignment")%string]).

Fixpoint requiredFieldErrors (index : nat) (entries : list ScheduleEntry)
  : list string :=
  match entries with
  | [] => []
  | entry :: rest =>
      missingFieldErrors index entry ++ requiredFieldErrors (S index) rest
  end.

(** The messages a detection adds: all of them when [hasConflicts]. *)
Definition detectedMessages (r : ConflictDetectionResult) : list string :=
  if hasConflicts r then List.map conflict_message (detected r) else [].

(** [validateScheduleIntegrity] *)
Definition validateScheduleIntegrity (entries : list ScheduleEntry)
  : option Validation :=
  match detectTeacherConflicts entries, detectRoomConflicts entries with
  | Some teacherConflicts, Some roomConflicts =>
      let errors := requiredFieldErrors 0 entries
                    ++ detectedMessages teacherConflicts in
      let warnings := detectedMessages roomConflicts in
      Some (mkValidation (length errors =? 0)%nat errors warnings)
  | _, _ => None
  end.

End ClientScheduling.



(** [a] stands before [b] in [l], at two different positions. *)
Definition orderedPair {A : Type} (a b : A) (l : list A) : Prop :=
  exists l1 l2 l3, l = l1 ++ a :: l2 ++ b :: l3.

(** Both times of the entry read as an integer or as NaN. *)
Definition timesDetermined (entry : ClientScheduling.ScheduleEntry) : Prop :=
  ClientScheduling.parseTime
    (ClientScheduling.pt_startTime (ClientScheduling.se_timePeriod entry))
  <> ClientScheduling.JsUndetermined
  /\ ClientScheduling.parseTime
       (ClientScheduling.pt_endTime (ClientScheduling.se_timePeriod entry))
     <> ClientScheduling.JsUndetermined.

(** Two entries fall on the same day and [isTimeOverlap] is true of their
    times. *)
Definition entriesOverlap (e1 e2 : ClientScheduling.ScheduleEntry) : Prop :=
  ClientScheduling.pt_dayOfWeek (ClientScheduling.se_timePeriod e1)
  = ClientScheduling.pt_dayOfWeek (ClientScheduling.se_timePeriod e2)
  /\ ClientScheduling.isTimeOverlap
       (ClientScheduling.mkRange
          (ClientScheduling.pt_startTime (ClientScheduling.se_timePeriod e1))
          (ClientScheduling.pt_endTime (ClientScheduling.se_timePeriod e1)))
       (ClientScheduling.mkRange
          (ClientScheduling.pt_startTime (ClientScheduling.se_timePeriod e2))
          (ClientScheduling.pt_endTime (ClientScheduling.se_timePeriod e2)))
     = Some true.

(** The four required ids of the entry are present and non-zero. *)
Definition hasRequiredFields (entry : ClientScheduling.ScheduleEntry) : Prop :=
  truthy (ClientScheduling.se_classId entry) = true
  /\ truthy (ClientScheduling.se_subjectId entry) = true
  /\ truthy (ClientScheduling.se_teacherId entry) = true
  /\ truthy (ClientScheduling.se_timePeriodId entry) = true.

(** Two entries of one teacher, at different positions, that overlap. *)
Definition teacherOverlap (entries : list ClientScheduling.ScheduleEntry)
  : Prop :=
  exists e1 e2,
    orderedPair e1 e2 entries
    /\ ClientScheduling.se_teacherId e1 = ClientScheduling.se_teacherId e2
    /\ entriesOverlap e1 e2.

(** Two entries in one room, at different positions, that overlap. *)
Definition roomOverlap (entries : list ClientScheduling.ScheduleEntry)
  : Prop :=
  exists e1 e2,
    orderedPair e1 e2 entries
    /\ truthy (ClientScheduling.se_roomId e1) = true
    /\ ClientScheduling.se_roomId e1 = ClientScheduling.se_roomId e2
    /\ entriesOverlap e1 e2.

(** Both times of the slot read as an integer or as NaN. *)
Definition slotDetermined (t : ClientScheduling.TimeSlot) : Prop :=
  ClientScheduling.parseTime (ClientScheduling.slot_start t)
  <> ClientScheduling.JsUndetermined
  /\ ClientScheduling.parseTime (ClientScheduling.slot_end t)
     <> ClientScheduling.JsUndetermined.

(** The keys and items a grouping loop pushes, in order: one per entry
    that [selected] keeps, under the key [keyOf] gives it, with the
    entry's position in the whole array in its [entryId]. *)
Fixpoint keyedPushes (selected : ClientScheduling.ScheduleEntry -> bool)
    (keyOf : ClientScheduling.ScheduleEntry -> option Z) (index : nat)
    (entries : list ClientScheduling.ScheduleEntry)
  : list (option Z * ClientScheduling.ScheduleItem) :=
  match entries with
  | [] => []
  | entry :: rest =>
      if selected entry
      then (keyOf entry,
            (ClientScheduling.timeSlotOf entry, ClientScheduling.entryId index))
           :: keyedPushes selected keyOf (S index) rest
      else keyedPushes selected keyOf (S index) rest
  end.

(** What [groupByTeacher] pushes. *)
Definition teacherPushes :=
  keyedPushes (fun _ => true) ClientScheduling.se_teacherId.

(** What [groupByRoom] pushes. *)
Definition roomPushes :=
  keyedPushes (fun entry => truthy (ClientScheduling.se_roomId entry))
              ClientScheduling.se_roomId.

(** A sequence of pushes applied to a map. *)
Definition pushAll (pushes : list (option Z * ClientScheduling.ScheduleItem))
    (m : ClientScheduling.Schedules) : ClientScheduling.Schedules :=
  fold_left (fun acc p => ClientScheduling.groupPush (fst p) (snd p) acc)
            pushes m.

(** The schedule stored under [key], empty when the key is absent. *)
Fixpoint scheduleOf (key : option Z) (m : ClientScheduling.Schedules)
  : list ClientScheduling.ScheduleItem :=
  match m with
  | [] => []
  | (k, schedule) :: rest =>
      if strictEqOpt2 k key then schedule else scheduleOf key rest
  end.

(** Keys are distinct and no schedule is empty. *)
Definition wellGrouped (m : ClientScheduling.Schedules) : Prop :=
  List.NoDup (map fst m) /\ Forall (fun g => snd g <> []) m.

(** ** Teacher availability grid

    The state functions of the [TeacherAvailabilityGrid] component. Each
    handler is given with the [localAvailability] it closes over, and
    returns the value it passes to [onChange] ([None] when its guard fails
    and nothing is called). *)
Module AvailabilityGrid.

(** [AvailabilitySlot] *)
Record AvailabilitySlot : Type := mkAvailabilitySlot {
  avail_start : string;
  avail_end : string;
  available : bool;
}.

(** [DayAvailability]: an object from a day key to the slots of the day.
    The keys are those of [DAYS]. *)
Abbreviation DayAvailability := (gmap DayOfWeek (list AvailabilitySlot)).

Definition DAYS : list DayOfWeek :=
  [monday; tuesday; wednesday; thursday; friday].

(** [TIME_SLOTS]: start and end of each row. *)
Definition TIME_SLOTS : list (string * string) :=
  [("08:00", "09:00"); ("09:00", "10:00"); ("10:00", "11:00");
   ("11:00", "12:00"); ("12:00", "13:00"); ("13:00", "14:00");
   ("14:00", "15:00"); ("15:00", "16:00")]%string.

(** [createDefaultAvailability] *)
Definition createDefaultAvailability : DayAvailability :=
  fold_left
    (fun defaultAvailability day =>
       <[day := List.map (fun slot => mkAvailabilitySlot (fst slot) (snd slot)
                                                         true)
                         TIME_SLOTS]> defaultAvailability)
    DAYS ∅.

(** [slot.available = available] *)
Definition setAvailable (flag : bool) (slot : AvailabilitySlot)
  : AvailabilitySlot :=
  mkAvailabilitySlot (avail_start slot) (avail_end slot) flag.

(** [handleSlotToggle] *)
Definition handleSlotToggle (localAvailability : DayAvailability)
    (dayKey : DayOfWeek) (timeSlotIndex : nat) : option DayAvailability :=
  match localAvailability !! dayKey with
  | Some slots =>
      match slots !! timeSlotIndex with
      | Some slot =>
          Some (<[dayKey := <[timeSlotIndex :=
                                setAvailable (negb (available slot)) slot]>
                              slots]> localAvailability)
      | None => None
      end
  | None => None
  end.

(** [handleDayToggle] *)
Definition handleDayToggle (localAvailability : DayAvailability)
    (dayKey : DayOfWeek) (flag : bool) : option DayAvailability :=
  match localAvailability !! dayKey with
  | Some slots =>
      Some (<[dayKey := List.map (setAvailable flag) slots]> localAvailability)
  | None => None
  end.

(** [handleAllToggle] *)
Definition handleAllToggle (localAvailability : DayAvailability)
    (flag : bool) : DayAvailability :=
  List.map (setAvailable flag) <$> localAvailability.

(** [resetToDefault] *)
Definition resetToDefault : DayAvailability := createDefaultAvailability.

(** [getAvailableCount] *)
Definition getAvailableCount (localAvailability : DayAvailability)
    (dayKey : DayOfWeek) : Z :=
  match localAvailability !! dayKey with
  | Some slots => Z.of_nat (length (List.filter available slots))
  | None => 0
  end.

(** [getTotalAvailableCount]: the sum over the keys of the object. *)
Definition getTotalAvailableCount (localAvailability : DayAvailability) : Z :=
  map_fold (fun dayKey _ total => total + getAvailableCount localAvailability
                                                            dayKey)
           0 localAvailability.

End AvailabilityGrid.

(** What the engine reads of a stored slot: [slot.start] and [slot.end]
    ([isTeacherAvailable]). *)
Definition asWindow (slot : AvailabilityGrid.AvailabilitySlot)
  : AvailabilityWindow :=
  mkWindow (AvailabilityGrid.avail_start slot) (AvailabilityGrid.avail_end slot).

(** The grid's value as the [availability] column of a teacher holds it
    for the engine. *)
Definition storedAvailability (grid : AvailabilityGrid.DayAvailability)
  : gmap DayOfWeek (list AvailabilityWindow) :=
  List.map asWindow <$> grid.

(** [teacher] saved with the grid's value as its availability. *)
Definition savedWith (teacher : Teacher)
    (grid : AvailabilityGrid.DayAvailability) : Teacher :=
  mkTeacher (teacher_id teacher) (maxClassesPerDay teacher)
            (maxClassesPerWeek teacher) (Some (storedAvailability grid)).


(** A sum over the five days. *)
Definition overDays (f : DayOfWeek -> Z) : Z :=
  f monday + f tuesday + f wednesday + f thursday + f friday.

(** ** CSV export (server/services/excelExport.ts) *)
Module ExcelExport.

(** The [timePeriod] relation of an exported entry. *)
Record PeriodInfo : Type := mkPeriodInfo {
  pi_startTime : string;
  pi_endTime : string;
  pi_dayOfWeek : string;
}.

(** An entry with its relations, as far as [generateCSV] reads it.
    [ee_timePeriod] is [None] when the relation is absent; each name is
    [None] when the relation or its [name] is. *)
Record ExportEntry : Type := mkExportEntry {
  ee_timePeriod : option PeriodInfo;
  ee_subjectName : option string;
  ee_teacherName : option string;
  ee_roomName : option string;
}.

(** [ExcelOptions]; only [title] is read. *)
Record ExcelOptions : Type := mkExcelOptions {
  title : string;
}.

Definition dquote : string := String (ascii_of_nat 34) EmptyString.

Definition newline : string := String (ascii_of_nat 10) EmptyString.

(** A value between double quotes. *)
Definition quoted (s : string) : string := (dquote ++ s ++ dquote)%string.

(** [parts.join(sep)] *)
Fixpoint join (sep : string) (parts : list string) : string :=
  match parts with
  | [] => EmptyString
  | [part] => part
  | part :: rest => (part ++ sep ++ join sep rest)%string
  end.

(** [`${entry.timePeriod?.startTime}-${entry.timePeriod?.endTime}`] *)
Definition timeKeyOf (entry : ExportEntry) : string :=
  match ee_timePeriod entry with
  | Some timePeriod =>
      (pi_startTime timePeriod ++ "-" ++ pi_endTime timePeriod)%string
  | None => "undefined-undefined"%string
  end.

(** [entry.timePeriod?.dayOfWeek]; [None] is [undefined]. *)
Definition dayKeyOf (entry : ExportEntry) : option string :=
  option_map pi_dayOfWeek (ee_timePeriod entry).

(** Equality of two keys of the inner map. *)
Definition sameDayKey (a b : option string) : bool :=
  match a, b with
  | Some x, Some y => String.eqb x y
  | None, None => true
  | _, _ => false
  end.

(** The inner [Map] from day to entry, in insertion order. *)
Definition DayEntries : Type := list (option string * ExportEntry).

(** [dayEntries.set(dayKey, entry)] *)
Fixpoint daySet (dayKey : option string) (entry : ExportEntry)
    (dayEntries : DayEntries) : DayEntries :=
  match dayEntries with
  | [] => [(dayKey, entry)]
  | (k, v) :: rest =>
      if sameDayKey k dayKey then (k, entry) :: rest
      else (k, v) :: daySet dayKey entry rest
  end.

(** [dayEntries.get(dayKey)] *)
Fixpoint dayGet (dayKey : option string) (dayEntries : DayEntries)
  : option ExportEntry :=
  match dayEntries with
  | [] => None
  | (k, v) :: rest =>
      if sameDayKey k dayKey then Some v else dayGet dayKey rest
  end.

(** The outer [Map] from time key to the entries of its days, in
    insertion order. *)
Definition TimeSlots : Type := list (string * DayEntries).

(** [if (!timeSlots.has(timeKey)) timeSlots.set(timeKey, new Map());
    timeSlots.get(timeKey)?.set(dayKey, entry)] *)
Fixpoint groupEntry (timeKey : string) (dayKey : option string)
    (entry : ExportEntry) (timeSlots : TimeSlots) : TimeSlots :=
  match timeSlots with
  | [] => [(timeKey, [(dayKey, entry)])]
  | (k, dayEntries) :: rest =>
      if String.eqb k timeKey
      then (k, daySet dayKey entry dayEntries) :: rest
      else (k, dayEntries) :: groupEntry timeKey dayKey entry rest
  end.

(** The [forEach] that fills [timeSlots]. *)
Definition groupEntries (entries : list ExportEntry) : TimeSlots :=
  fold_left
    (fun timeSlots entry =>
       groupEntry (timeKeyOf entry) (dayKeyOf entry) entry timeSlots)
    entries [].

Definition days : list string :=
  ["monday"; "tuesday"; "wednesday"; "thursday"; "friday"]%string.

(** [name || 'N/A'] *)
Definition orNA (name : option string) : string :=
  match name with
  | Some (String c rest) => String c rest
  | _ => "N/A"%string
  end.

(** [`${subject} - ${teacher} (${room})`] *)
Definition cellContent (entry : ExportEntry) : string :=
  (orNA (ee_subjectName entry) ++ " - " ++ orNA (ee_teacherName entry)
   ++ " (" ++ orNA (ee_roomName entry) ++ ")")%string.

(** One cell of a row, from what [dayEntries.get(day)] gave. *)
Definition csvCell (found : option ExportEntry) : string :=
  match found with
  | Some entry => quoted (cellContent entry)
  | None => quoted "-"
  end.

(** One row: the time slot, then a cell for each of the five days. *)
Definition csvRow (timeSlot : string) (dayEntries : DayEntries) : string :=
  join ","
       (quoted timeSlot
        :: List.map (fun day => csvCell (dayGet (Some day) dayEntries)) days).

(** The table header line. *)
Definition tableHeader : string :=
  join "," (List.map quoted
              ["Time"; "Monday"; "Tuesday"; "Wednesday"; "Thursday";
               "Friday"]%string).

(** The [lines] array of [generateCSV]. [generatedOn] stands for
    [new Date().toLocaleDateString()]. *)
Definition csvLines (generatedOn : string) (entries : list ExportEntry)
    (options : ExcelOptions) : list string :=
  [quoted (title options);
   quoted ("Generated on: " ++ generatedOn)%string;
   EmptyString;
   tableHeader]
  ++ List.map (fun slot => csvRow (fst slot) (snd slot)) (groupEntries entries).

(** [generateCSV] *)
Definition generateCSV (generatedOn : string) (entries : list ExportEntry)
    (options : ExcelOptions) : string :=
  join newline (csvLines generatedOn entries options).

End ExcelExport.

(** The keys of [keys] that are not in [seen], each once, in the order of
    their first appearance. *)
Fixpoint firstOccurrences (seen keys : list string) : list string :=
  match keys with
  | [] => []
  | k :: rest =>
      if List.existsb (fun s => String.eqb s k) seen
      then firstOccurrences seen rest
      else k :: firstOccurrences (seen ++ [k]) rest
  end.

(** The last of [entries] with that time key and that day. *)
Definition lastFor (timeKey : string) (day : option string)
    (entries : list ExcelExport.ExportEntry)
  : option ExcelExport.ExportEntry :=
  List.find
    (fun entry =>
       String.eqb (ExcelExport.timeKeyOf entry) timeKey
       && ExcelExport.sameDayKey (ExcelExport.dayKeyOf entry) day)
    (rev entries).

(** The day entries stored under [timeKey]; empty when the key is absent. *)
Fixpoint slotGet (timeKey : string) (timeSlots : ExcelExport.TimeSlots)
  : ExcelExport.DayEntries :=
  match timeSlots with
  | [] => []
  | (k, dayEntries) :: rest =>
      if String.eqb k timeKey then dayEntries else slotGet timeKey rest
  end.

(** Entries of a small export. *)
Module ExportSample.

Definition mathsMonday : ExcelExport.ExportEntry :=
  ExcelExport.mkExportEntry
    (Some (ExcelExport.mkPeriodInfo "08:00" "09:00" "monday"))
    (Some "Maths"%string) (Some "Ada"%string) (Some "Room 1"%string).

(** Another class in the same period of the same day; no room. *)
Definition englishMonday : ExcelExport.ExportEntry :=
  ExcelExport.mkExportEntry
    (Some (ExcelExport.mkPeriodInfo "08:00" "09:00" "monday"))
    (Some "English"%string) (Some "Grace"%string) None.

(** An entry whose period was not loaded. *)
Definition orphan : ExcelExport.ExportEntry :=
  ExcelExport.mkExportEntry None (Some "Art"%string) None None.

Definition week : list ExcelExport.ExportEntry :=
  [mathsMonday; orphan; englishMonday].

End ExportSample.

(** Entries of a small client-side timetable. *)
Module Timetable.

Definition mondayFirst : ClientScheduling.PeriodTimes :=
  ClientScheduling.mkPeriodTimes "08:00" "09:00" "monday".

Definition mondayHalfPast : ClientScheduling.PeriodTimes :=
  ClientScheduling.mkPeriodTimes "08:30" "09:30" "monday".

Definition mondaySecond : ClientScheduling.PeriodTimes :=
  ClientScheduling.mkPeriodTimes "09:00" "10:00" "monday".

(** Class 1 with teacher 1 in room 5. *)
Definition lessonA : ClientScheduling.ScheduleEntry :=
  ClientScheduling.mkScheduleEntry
    (Some 1) (Some 1) (Some 1) (Some 5) (Some 1) mondayFirst.

(** Class 2 with teacher 1, no room, half an hour later. *)
Definition lessonB : ClientScheduling.ScheduleEntry :=
  ClientScheduling.mkScheduleEntry
    (Some 2) (Some 1) (Some 1) None (Some 2) mondayHalfPast.

(** Class 3 with teacher 2 in room 5, at the time of [lessonA]. *)
Definition lessonC : ClientScheduling.ScheduleEntry :=
  ClientScheduling.mkScheduleEntry
    (Some 3) (Some 2) (Some 2) (Some 5) (Some 1) mondayFirst.

(** Class 1 with teacher 1 in room 5, right after [lessonA]. *)
Definition lessonD : ClientScheduling.ScheduleEntry :=
  ClientScheduling.mkScheduleEntry
    (Some 1) (Some 2) (Some 1) (Some 5) (Some 3) mondaySecond.

Definition doubleBookedTeacher : list ClientScheduling.ScheduleEntry :=
  [lessonA; lessonD; lessonB].

Definition sharedRoom : list ClientScheduling.ScheduleEntry :=
  [lessonA; lessonD; lessonC].

End Timetable.

(* ===================================================================== *)
(** * Properties                                                          *)
(* ===================================================================== *)

(** ** Availability Evaluator *)

Lemma geNum_spec (x y : option Z) :
  geNum x y = true <-> exists a b, x = Some a /\ y = Some b /\ b <= a.
Proof.
  destruct x as [a|], y as [b|]; simpl; split.
  - intros H. exists a, b. rewrite Z.leb_le in H. auto.
  - intros (a' & b' & Ha & Hb & Hle). inversion Ha; inversion Hb; subst.
    now apply Z.leb_le.
  - discriminate.
  - intros (a' & b' & _ & Hb & _). discriminate.
  - discriminate.
  - intros (a' & b' & Ha & _). discriminate.
  - discriminate.
  - intros (a' & b' & Ha & _). discriminate.
Qed.

Lemma leNum_spec (x y : option Z) :
  leNum x y = true <-> exists a b, x = Some a /\ y = Some b /\ a <= b.
Proof.
  destruct x as [a|], y as [b|]; simpl; split.
  - intros H. exists a, b. rewrite Z.leb_le in H. auto.
  - intros (a' & b' & Ha & Hb & Hle). inversion Ha; inversion Hb; subst.
    now apply Z.leb_le.
  - discriminate.
  - intros (a' & b' & _ & Hb & _). discriminate.
  - discriminate.
  - intros (a' & b' & Ha & _). discriminate.
  - discriminate.
  - intros (a' & b' & Ha & _). discriminate.
Qed.

Lemma window_test_spec (w : AvailabilityWindow) (timePeriod : TimePeriod) :
  geNum (hourOf (startTime timePeriod)) (hourOf (window_start w))
  && leNum (hourOf (endTime timePeriod)) (hourOf (window_end w)) = true
  <-> windowCovers w timePeriod.
Proof.
  rewrite andb_true_iff, geNum_spec, leNum_spec. unfold windowCovers. split.
  - intros [(ps & ws & Hps & Hws & H1) (pe & we & Hpe & Hwe & H2)].
    exists ws, we, ps, pe. auto 10.
  - intros (ws & we & ps & pe & Hws & Hwe & Hps & Hpe & H1 & H2).
    split; [exists ps, ws | exists pe, we]; auto.
Qed.

(** C7. [isTeacherAvailable] is [true] for a teacher without availability
    data. For a teacher whose availability has a window list for the
    period's day, it is [true] exactly when some window of that list
    starts at or before the period's start hour and ends at or after its
    end hour. Only the hour of each time is read: two periods on the same
    day with the same start and end hours get the same answer. *)
Theorem C7_isTeacherAvailable_windows (teacher : Teacher)
    (timePeriod : TimePeriod) :
  (availability teacher = None -> isTeacherAvailable teacher timePeriod = true)
  /\ (forall av windows,
        availability teacher = Some av ->
        av !! dayOfWeek timePeriod = Some windows ->
        (isTeacherAvailable teacher timePeriod = true
         <-> exists w, In w windows /\ windowCovers w timePeriod))
  /\ (forall other : TimePeriod,
        dayOfWeek other = dayOfWeek timePeriod ->
        hourOf (startTime other) = hourOf (startTime timePeriod) ->
        hourOf (endTime other) = hourOf (endTime timePeriod) ->
        isTeacherAvailable teacher other
        = isTeacherAvailable teacher timePeriod).
Proof.
  split; [|split].
  - intros Hnone. unfold isTeacherAvailable. now rewrite Hnone.
  - intros av windows Hav Hday. unfold isTeacherAvailable.
    rewrite Hav, Hday. cbv zeta. rewrite existsb_exists.
    split; intros (w & Hin & Hw); exists w; split; trivial;
      now apply window_test_spec.
  - intros other Hd Hs He. unfold isTeacherAvailable.
    now rewrite Hd, Hs, He.
Qed.

Lemma C7_witness :
  isTeacherAvailable Scenario.t1_monday Catalog.p1 = true
  /\ isTeacherAvailable Scenario.t1_monday Scenario.p1_late
     = isTeacherAvailable Scenario.t1_monday Catalog.p1.
Proof.
  split.
  - apply (proj1 (proj2 (C7_isTeacherAvailable_windows
                           Scenario.t1_monday Catalog.p1))
             Scenario.mondayMorning [mkWindow "08:00" "10:00"]
             eq_refl eq_refl).
    exists (mkWindow "08:00" "10:00"). split; [now left|].
    exists 8, 10, 8, 9. repeat split; try reflexivity; lia.
  - apply (proj2 (proj2 (C7_isTeacherAvailable_windows
                           Scenario.t1_monday Catalog.p1))
             Scenario.p1_late); reflexivity.
Defined.

(** C9. A teacher that has availability data, but no window list for the
    day of the period, is unavailable in that period. *)
Theorem C9_missing_day_is_unavailable (teacher : Teacher)
    (timePeriod : TimePeriod) (av : gmap DayOfWeek (list AvailabilityWindow)) :
  availability teacher = Some av ->
  av !! dayOfWeek timePeriod = None ->
  isTeacherAvailable teacher timePeriod = false.
Proof.
  intros Hav Hday. unfold isTeacherAvailable. now rewrite Hav, Hday.
Qed.

Lemma C9_witness :
  isTeacherAvailable Scenario.t1_monday Scenario.p_tuesday = false.
Proof.
  apply (C9_missing_day_is_unavailable Scenario.t1_monday Scenario.p_tuesday
           Scenario.mondayMorning); reflexivity.
Defined.

(** ** Workload Tracker *)

Lemma orDefault_unset (d : Z) : orDefault None d = d.
Proof. reflexivity. Qed.

Lemma orDefault_set (n d : Z) : n <> 0 -> orDefault (Some n) d = n.
Proof.
  intros Hn. unfold orDefault, truthy.
  destruct (Z.eqb_spec n 0); [contradiction | reflexivity].
Qed.

(** C10. With counters on record for the teacher, the workload check
    passes exactly when the count of the period's day is below the daily
    cap and the week's total is below the weekly cap. The daily cap is 6
    when [maxClassesPerDay] is unset and the weekly cap is 30 when
    [maxClassesPerWeek] is unset; a configured non-zero value is the cap
    itself. *)
Theorem C10_workload_caps_and_defaults (eng : SchedulingEngine)
    (teacher : Teacher) (timePeriod : TimePeriod) (options : SchedulingOptions)
    (workload : TeacherWorkload) :
  teacherWorkloads eng !! teacher_id teacher = Some workload ->
  (maxClassesPerDay teacher = None -> dailyCap teacher = 6)
  /\ (maxClassesPerWeek teacher = None -> weeklyCap teacher = 30)
  /\ (forall n, maxClassesPerDay teacher = Some n -> n <> 0 ->
                dailyCap teacher = n)
  /\ (forall n, maxClassesPerWeek teacher = Some n -> n <> 0 ->
                weeklyCap teacher = n)
  /\ (checkTeacherWorkloadConstraints eng teacher timePeriod options = true
      <-> perDay (classesPerDay workload) (dayOfWeek timePeriod)
            < dailyCap teacher
          /\ totalClasses workload < weeklyCap teacher).
Proof.
  intros Hw. unfold dailyCap, weeklyCap.
  repeat split.
  - intros ->. apply orDefault_unset.
  - intros ->. apply orDefault_unset.
  - intros n -> Hn. now apply orDefault_set.
  - intros n -> Hn. now apply orDefault_set.
  - unfold checkTeacherWorkloadConstraints in H. rewrite Hw in H.
    cbv zeta in H.
    destruct (Z.leb_spec (orDefault (maxClassesPerDay teacher) 6)
                (perDay (classesPerDay workload) (dayOfWeek timePeriod)));
      [discriminate | assumption].
  - unfold checkTeacherWorkloadConstraints in H. rewrite Hw in H.
    cbv zeta in H.
    destruct (Z.leb_spec (orDefault (maxClassesPerDay teacher) 6)
                (perDay (classesPerDay workload) (dayOfWeek timePeriod)));
      [discriminate |].
    destruct (Z.leb_spec (orDefault (maxClassesPerWeek teacher) 30)
                (totalClasses workload)); [discriminate | assumption].
  - intros [Hd Hwk]. unfold checkTeacherWorkloadConstraints. rewrite Hw.
    cbv zeta.
    destruct (Z.leb_spec (orDefault (maxClassesPerDay teacher) 6)
                (perDay (classesPerDay workload) (dayOfWeek timePeriod)));
      [lia |].
    destruct (Z.leb_spec (orDefault (maxClassesPerWeek teacher) 30)
                (totalClasses workload)); [lia | reflexivity].
Qed.

Lemma C10_witness :
  dailyCap Catalog.t1 = 6
  /\ weeklyCap Catalog.t1 = 30
  /\ dailyCap Catalog.t1_capped = 1
  /\ checkTeacherWorkloadConstraints
       (run_engine Scenario.afterFirstClass) Catalog.t1 Catalog.p1
       Catalog.defaults = true.
Proof.
  pose proof (C10_workload_caps_and_defaults
                (run_engine Scenario.afterFirstClass) Catalog.t1 Catalog.p1
                Catalog.defaults
                (mkWorkload 1 (mkPerDay 1 0 0 0 0) 1) eq_refl)
    as (Hd & Hw & _ & _ & Hiff).
  pose proof (C10_workload_caps_and_defaults
                (run_engine Scenario.afterFirstClass) Catalog.t1_capped
                Catalog.p1 Catalog.defaults
                (mkWorkload 1 (mkPerDay 1 0 0 0 0) 1) eq_refl)
    as (_ & _ & Hn & _ & _).
  split; [exact (Hd eq_refl)|].
  split; [exact (Hw eq_refl)|].
  split; [apply (Hn 1 eq_refl); discriminate|].
  apply Hiff. rewrite (Hd eq_refl), (Hw eq_refl). simpl. lia.
Defined.

(** ** Run start *)

Lemma initializeWorkloadTracking_fold (ts : list Teacher)
    (m : gmap Z TeacherWorkload) (tid : Z) :
  fold_left (fun m t => <[teacher_id t := zeroWorkload (teacher_id t)]> m) ts m
    !! tid
  = if List.existsb (fun t => teacher_id t =? tid) ts
    then Some (zeroWorkload tid)
    else m !! tid.
Proof.
  revert m. induction ts as [|t ts IH]; intros m; simpl; [reflexivity|].
  rewrite IH.
  destruct (List.existsb (fun t0 => teacher_id t0 =? tid) ts).
  - now rewrite orb_true_r.
  - rewrite orb_false_r. destruct (Z.eqb_spec (teacher_id t) tid) as [->|Hne].
    + apply lookup_insert_eq.
    + now apply lookup_insert_ne.
Qed.

(** Every teacher of the catalog starts with zero counters, and nobody
    else has counters. *)
Lemma initializeWorkloadTracking_lookup (ts : list Teacher) (tid : Z) :
  initializeWorkloadTracking ts !! tid
  = if List.existsb (fun t => teacher_id t =? tid) ts
    then Some (zeroWorkload tid)
    else None.
Proof.
  unfold initializeWorkloadTracking.
  rewrite initializeWorkloadTracking_fold.
  now destruct (List.existsb _ ts).
Qed.

(** C8. With no class-subject assignment in the catalog, [generateSchedule]
    returns [success = false], no entries, all-zero stats, no conflicts
    and the explicit error message; the engine is as the run started it:
    no entry generated and every counter still zero. *)
Theorem C8_no_assignments_fails_early (db : Storage)
    (options : SchedulingOptions) :
  classSubjects db = [] ->
  snd (generateSchedule db options)
  = mkResult false [] (mkStats 0 0 0) []
      (Some ["No class-subject assignments found. Please assign subjects to classes first."%string])
  /\ generatedEntries (fst (generateSchedule db options)) = []
  /\ (forall tid workload,
        teacherWorkloads (fst (generateSchedule db options)) !! tid
        = Some workload ->
        workload = zeroWorkload tid).
Proof.
  intros Hnone. unfold generateSchedule. rewrite Hnone. simpl.
  repeat split.
  intros tid workload. rewrite initializeWorkloadTracking_lookup.
  destruct (List.existsb _ _); congruence.
Qed.

Lemma C8_witness :
  snd (generateSchedule Scenario.noAssignments Catalog.defaults)
  = mkResult false [] (mkStats 0 0 0) []
      (Some ["No class-subject assignments found. Please assign subjects to classes first."%string])
  /\ generatedEntries
       (fst (generateSchedule Scenario.noAssignments Catalog.defaults)) = [].
Proof.
  pose proof (C8_no_assignments_fails_early Scenario.noAssignments
                Catalog.defaults eq_refl) as (Hres & Hentries & _).
  exact (conj Hres Hentries).
Defined.

(** ** Constraint Validator *)

Lemma applyConstraint_true (constraint : Constraint)
    (entry : InsertTimetableEntry) :
  applyConstraint constraint entry = true.
Proof.
  unfold applyConstraint.
  destruct (constraint_scope constraint); trivial;
    match goal with |- (if ?b then _ else _) = _ => now destruct b end.
Qed.

Lemma validateLoop_true (cs : list Constraint) (entry : InsertTimetableEntry)
    (options : SchedulingOptions) :
  validateLoop cs entry options = true.
Proof.
  induction cs as [|c cs IH]; simpl; [reflexivity|].
  rewrite applyConstraint_true, andb_false_r.
  destruct (negb (constraint_isActive c)); [assumption|].
  now destruct (bool_decide (constraint_type c = soft)
                && negb (respectSoftConstraints options)).
Qed.

(** C3 (as the code has it). Whatever the constraint set and the options,
    [applyConstraint] answers [true] and so [validateConstraints] judges
    every candidate valid, the candidates of a teacher targeted by an
    active hard constraint included. A candidate without double-booking
    is therefore committed as it is: the validator alone never hands a
    candidate to the Conflict Resolver and never makes a pairing
    unresolved. *)
Theorem C3_validator_accepts_every_entry (db : Storage)
    (options : SchedulingOptions) (entry : InsertTimetableEntry) :
  (forall constraint, applyConstraint constraint entry = true)
  /\ validateConstraints db entry options = true
  /\ (forall subject classObj st slot,
        checkConflicts (run_engine st) entry
        = mkConflictCheck false false false ->
        commitOrReport db options subject classObj st entry slot
        = mkRun (pushEntry (run_engine st) entry) (run_conflicts st)
                (run_conflictsResolved st)).
Proof.
  assert (Hvalid : validateConstraints db entry options = true).
  { unfold validateConstraints.
    destruct (negb (enforceHardConstraints options)
              && negb (respectSoftConstraints options)); trivial.
    apply validateLoop_true. }
  split; [intros c; apply applyConstraint_true|].
  split; [exact Hvalid|].
  intros subject classObj st slot Hfree. unfold commitOrReport.
  rewrite Hfree, Hvalid. reflexivity.
Qed.

(** C3 as stated fails: with [enforceHardConstraints] on and an active hard
    constraint scoped to teacher 1, the entry naming teacher 1 is judged
    valid, and the run commits it as it is, with nothing resolved and no
    conflict reported, although teacher 2 is eligible as well. *)
Lemma C3_counterexample :
  enforceHardConstraints Catalog.defaults = true
  /\ constraints Scenario.scenarioD
     = [mkConstraint hard scope_teacher (Some 1) true]
  /\ validateConstraints Scenario.scenarioD
       (mkEntry 1 1 1 (Some 1) 1 1 true) Catalog.defaults = true
  /\ snd (generateSchedule Scenario.scenarioD Catalog.defaults)
     = mkResult true [mkEntry 1 1 1 (Some 1) 1 1 true] (mkStats 1 1 0) [] None.
Proof. repeat split. Qed.

Lemma C3_witness :
  commitOrReport Scenario.scenarioD Catalog.defaults Catalog.math Catalog.c1
    (mkRun (startEngine Scenario.scenarioD) [] 0)
    (mkEntry 1 1 1 (Some 1) 1 1 true)
    (mkSlot 1 Catalog.p1 1 (Some 1))
  = mkRun (pushEntry (startEngine Scenario.scenarioD)
             (mkEntry 1 1 1 (Some 1) 1 1 true)) [] 0.
Proof.
  apply (proj2 (proj2 (C3_validator_accepts_every_entry Scenario.scenarioD
                         Catalog.defaults (mkEntry 1 1 1 (Some 1) 1 1 true)))
           Catalog.math Catalog.c1
           (mkRun (startEngine Scenario.scenarioD) [] 0)
           (mkSlot 1 Catalog.p1 1 (Some 1))).
  reflexivity.
Defined.

(** ** Orchestrator: what one pairing adds *)

Section Pairing.

Variable db : Storage.
Variable options : SchedulingOptions.

Lemma grows_refl P st : grows P 0 st st.
Proof.
  exists [], []. rewrite !app_nil_r. repeat split; auto.
Qed.

Lemma grows_trans P n m st1 st2 st3 :
  grows P n st1 st2 -> grows P m st2 st3 -> grows P (n + m) st1 st3.
Proof.
  intros (new1 & later1 & He1 & Hl1 & Hp1 & Hc1)
         (new2 & later2 & He2 & Hl2 & Hp2 & Hc2).
  exists (new1 ++ new2), (later1 ++ later2).
  rewrite He2, He1, Hc2, Hc1, <- !app_assoc, length_app.
  repeat split; [lia|]. now apply Forall_app.
Qed.

Lemma resolveConflicts_keeps_pairing eng entry slot resolved :
  resolveConflicts db eng entry slot = Some resolved ->
  classId resolved = classId entry /\ subjectId resolved = subjectId entry.
Proof.
  unfold resolveConflicts, alternativeTeacher, alternativeRoom.
  intros H.
  repeat match type of H with
         | context [if ?b then _ else _] => destruct b
         | context [option_map _ ?o] => destruct o; simpl in H
         end;
    inversion H; subst; simpl; auto.
Qed.

Lemma commitOrReport_grows classSubject subject classObj st slot :
  grows (ofPairing classSubject) 1 st
    (commitOrReport db options subject classObj st
       (candidateEntry classSubject slot) slot).
Proof.
  unfold commitOrReport.
  set (entry := candidateEntry classSubject slot).
  assert (Hentry : ofPairing classSubject entry) by (split; reflexivity).
  assert (Hunres :
    grows (ofPairing classSubject) 1 st
      (mkRun (run_engine st)
             (run_conflicts st ++ [unresolvableMessage subject classObj slot])
             (run_conflictsResolved st))).
  { exists [], [unresolvableMessage subject classObj slot]. simpl.
    rewrite app_nil_r. repeat split; auto. }
  destruct (teacherConflicts _ || roomConflicts _ || classConflicts _ || negb _).
  - destruct (resolveConflicts db (run_engine st) entry slot) as [resolved|] eqn:Hres;
      [|exact Hunres].
    destruct (validateConstraints db resolved options); [|exact Hunres].
    apply resolveConflicts_keeps_pairing in Hres as [Hc Hs].
    exists [resolved], []. simpl. rewrite app_nil_r.
    repeat split; auto.
    constructor; [|constructor].
    destruct Hentry. split; congruence.
  - exists [entry], []. simpl. rewrite app_nil_r. repeat split; auto.
Qed.

Lemma updateTeacherWorkload_entries eng tid day :
  generatedEntries (updateTeacherWorkload eng tid day) = generatedEntries eng.
Proof.
  unfold updateTeacherWorkload. now destruct (teacherWorkloads eng !! tid).
Qed.

Lemma attemptSlot_grows classSubject subject classObj st slot :
  grows (ofPairing classSubject) 1 st
    (attemptSlot db options classSubject subject classObj st slot).
Proof.
  unfold attemptSlot.
  destruct (commitOrReport_grows classSubject subject classObj st slot)
    as (new & later & He & Hl & Hp & Hc).
  destruct (negb _); exists new, later; simpl;
    rewrite ?updateTeacherWorkload_entries; auto.
Qed.

Lemma attemptSlots_grow classSubject subject classObj slots st :
  grows (ofPairing classSubject) (length slots) st
    (fold_left (attemptSlot db options classSubject subject classObj) slots st).
Proof.
  revert st. induction slots as [|slot slots IH]; intros st; simpl.
  - apply grows_refl.
  - change (S (length slots)) with (1 + length slots)%nat.
    eapply grows_trans; [apply attemptSlot_grows | apply IH].
Qed.

(** C5. When the pairing's subject and class are in the catalog and the
    subject's [weeklyHours] is not negative, processing the pairing
    appends at most [weeklyHours] entries, all for that class and subject,
    and changes no earlier entry. When the Slot Finder returns fewer slots
    than [weeklyHours], the message "Cannot schedule all N periods for
    SUBJECT in CLASS" is put on [conflicts] first: the assignment loop
    starts from the state that already holds it, and whatever the loop
    reports comes after it. *)
Theorem C5_pairing_bound_and_shortfall (st : RunState)
    (classSubject : ClassSubject) (subject : Subject) (classObj : Class) :
  findSubject db (cs_subjectId classSubject) = Some subject ->
  findClass db (cs_classId classSubject) = Some classObj ->
  0 <= weeklyHours subject ->
  exists new,
    generatedEntries
      (run_engine (processClassSubject db options st classSubject))
    = generatedEntries (run_engine st) ++ new
    /\ Z.of_nat (length new) <= weeklyHours subject
    /\ Forall (fun e => classId e = cs_classId classSubject
                        /\ subjectId e = cs_subjectId classSubject) new
    /\ (Z.of_nat
          (length (findSuitableTimeSlots db (run_engine st) classSubject
                     (weeklyHours subject) options))
        < weeklyHours subject ->
        let message :=
          ("Cannot schedule all " ++ numberToString (weeklyHours subject)
           ++ " periods for " ++ subject_name subject
           ++ " in " ++ class_name classObj)%string in
        processClassSubject db options st classSubject
        = assignSlots db options classSubject subject classObj
            (weeklyHours subject)
            (findSuitableTimeSlots db (run_engine st) classSubject
               (weeklyHours subject) options)
            (mkRun (run_engine st) (run_conflicts st ++ [message])
                   (run_conflictsResolved st))
        /\ exists later,
             run_conflicts (processClassSubject db options st classSubject)
             = run_conflicts st ++ message :: later).
Proof.
  intros Hsubject Hclass Hhours.
  unfold processClassSubject. rewrite Hsubject, Hclass. cbv zeta.
  set (slots := findSuitableTimeSlots db (run_engine st) classSubject
                  (weeklyHours subject) options).
  unfold assignSlots.
  set (tried := firstn (Z.to_nat (Z.min (Z.of_nat (length slots))
                                    (weeklyHours subject))) slots).
  assert (Htried : Z.of_nat (length tried) <= weeklyHours subject).
  { subst tried. rewrite length_firstn. lia. }
  destruct (attemptSlots_grow classSubject subject classObj tried
              (noteShortfall (weeklyHours subject) subject classObj slots st))
    as (new & later & He & Hl & Hp & Hc).
  exists new. split; [|split; [|split]].
  - rewrite He. unfold noteShortfall. now destruct (_ <? _).
  - lia.
  - exact Hp.
  - intros Hshort. unfold noteShortfall in *.
    apply Z.ltb_lt in Hshort. rewrite Hshort in *.
    split; [reflexivity|].
    exists later. rewrite Hc. simpl. now rewrite <- app_assoc.
Qed.

End Pairing.

Lemma C5_witness :
  Z.of_nat
    (length
       (generatedEntries
          (run_engine
             (processClassSubject Scenario.tooFewPeriods Catalog.defaults
                (mkRun (startEngine Scenario.tooFewPeriods) [] 0)
                (mkClassSubject 1 1 None None))))) <= 2
  /\ exists later,
       run_conflicts
         (processClassSubject Scenario.tooFewPeriods Catalog.defaults
            (mkRun (startEngine Scenario.tooFewPeriods) [] 0)
            (mkClassSubject 1 1 None None))
       = "Cannot schedule all 2 periods for Math in C1"%string :: later.
Proof.
  destruct (C5_pairing_bound_and_shortfall Scenario.tooFewPeriods
              Catalog.defaults
              (mkRun (startEngine Scenario.tooFewPeriods) [] 0)
              (mkClassSubject 1 1 None None) Catalog.math2 Catalog.c1
              eq_refl eq_refl ltac:(discriminate))
    as (new & Hentries & Hbound & _ & Hshort).
  split.
  - rewrite Hentries. exact Hbound.
  - destruct (Hshort eq_refl) as (_ & later & Hlater).
    exists later. exact Hlater.
Defined.

(** ** Slot Finder: the order of the scan *)

Section ArraySort.

Context {A : Type}.
Variable cmp : A -> A -> Z.
Variable key : A -> Z.

Lemma sortInsert_perm (x : A) (l : list A) :
  Permutation (sortInsert cmp x l) (x :: l).
Proof.
  induction l as [|y l IH]; simpl; [reflexivity|].
  destruct (cmp x y <=? 0); [reflexivity|].
  rewrite IH. apply perm_swap.
Qed.

Lemma arraySort_perm (l : list A) : Permutation (arraySort cmp l) l.
Proof.
  induction l as [|x l IH]; simpl; [reflexivity|].
  rewrite sortInsert_perm. now constructor.
Qed.

Lemma sortInsert_sorted (x : A) (l : list A) :
  (forall b, In b l -> cmp x b = key x - key b) ->
  StronglySorted (fun a b => key a <= key b) l ->
  StronglySorted (fun a b => key a <= key b) (sortInsert cmp x l).
Proof.
  induction l as [|y l IH]; intros Hcmp Hsorted; simpl.
  - repeat constructor.
  - apply StronglySorted_cons in Hsorted as [Hy Hl].
    rewrite (Hcmp y) by now left.
    destruct (Z.leb_spec (key x - key y) 0) as [Hle|Hgt].
    + constructor; [now constructor|].
      constructor; [lia|].
      eapply List.Forall_impl; [|exact Hy]. simpl. intros; lia.
    + constructor.
      * apply IH; [|exact Hl]. intros b Hb. apply Hcmp. now right.
      * eapply Permutation_Forall;
          [symmetry; apply sortInsert_perm|].
        constructor; [lia | exact Hy].
Qed.

Lemma arraySort_sorted (l : list A) :
  (forall a b, In a l -> In b l -> cmp a b = key a - key b) ->
  StronglySorted (fun a b => key a <= key b) (arraySort cmp l).
Proof.
  induction l as [|x l IH]; intros Hcmp; simpl; [constructor|].
  apply sortInsert_sorted.
  - intros b Hb. apply Hcmp; [now left | right].
    eapply Permutation_in; [apply arraySort_perm | exact Hb].
  - apply IH. intros a b Ha Hb. apply Hcmp; now right.
Qed.

End ArraySort.

Lemma StronglySorted_weaken {A : Type} (R R' : A -> A -> Prop) (l : list A) :
  (forall a b, In a l -> In b l -> R a b -> R' a b) ->
  StronglySorted R l -> StronglySorted R' l.
Proof.
  induction l as [|x l IH]; intros Himp Hsorted; [constructor|].
  apply StronglySorted_cons in Hsorted as [Hx Hl].
  constructor.
  - apply IH; [|exact Hl]. intros a b Ha Hb. apply Himp; now right.
  - apply List.Forall_forall. intros b Hb.
    apply Himp; [now left | now right |].
    exact (proj1 (List.Forall_forall _ _) Hx b Hb).
Qed.

Lemma Forall_sublist_of {A : Type} (P : A -> Prop) (l1 l2 : list A) :
  sublist l1 l2 -> Forall P l2 -> Forall P l1.
Proof.
  induction 1 as [|x l1 l2 Hsub IH|x l1 l2 Hsub IH]; intros Hall.
  - constructor.
  - inversion Hall; subst. constructor; auto.
  - inversion Hall; subst. auto.
Qed.

Lemma StronglySorted_sublist_of {A : Type} (R : A -> A -> Prop)
    (l1 l2 : list A) :
  sublist l1 l2 -> StronglySorted R l2 -> StronglySorted R l1.
Proof.
  induction 1 as [|x l1 l2 Hsub IH|x l1 l2 Hsub IH]; intros Hsorted.
  - constructor.
  - apply StronglySorted_cons in Hsorted as [Hx Hl].
    constructor; [now apply IH|].
    eapply Forall_sublist_of; eassumption.
  - apply StronglySorted_cons in Hsorted as [_ Hl]. now apply IH.
Qed.

Lemma StronglySorted_positions {A : Type} (R : A -> A -> Prop) (l : list A)
    (i j : nat) (a b : A) :
  StronglySorted R l ->
  (i < j)%nat -> l !! i = Some a -> l !! j = Some b -> R a b.
Proof.
  intros Hsorted Hij Hi Hj.
  rewrite <- (take_drop j l) in Hsorted.
  apply (StronglySorted_app_1_elem_of _ _ _ a b Hsorted).
  - apply list_elem_of_lookup. exists i. rewrite lookup_take_lt; auto.
  - apply list_elem_of_lookup. exists 0%nat. rewrite lookup_drop.
    now rewrite Nat.add_0_r.
Qed.

(** The candidates come out of the scan in the order of the scanned
    list. *)
Lemma scanTimePeriods_in_order db eng classSubject periodsNeeded options
    availableTeachers sorted suitableSlots :
  exists found,
    map slot_timePeriod
      (scanTimePeriods db eng classSubject periodsNeeded options
         availableTeachers sorted suitableSlots)
    = map slot_timePeriod suitableSlots ++ found
    /\ sublist found sorted.
Proof.
  revert suitableSlots.
  induction sorted as [|tp rest IH]; intros suitableSlots; simpl.
  - exists []. rewrite app_nil_r. split; [reflexivity | constructor].
  - destruct (periodsNeeded <=? Z.of_nat (length suitableSlots)).
    + exists []. rewrite app_nil_r. split; [reflexivity|].
      apply sublist_nil_l.
    + destruct (firstTeacherFor eng availableTeachers tp options) as [t|].
      * destruct (IH (suitableSlots ++
                        [mkSlot (tp_id tp) tp (teacher_id t)
                           (option_map room_id
                              (findSuitableRoom db eng classSubject tp))]))
          as (found & Heq & Hsub).
        exists (tp :: found). split; [|now constructor].
        rewrite Heq, map_app. simpl. now rewrite <- app_assoc.
      * destruct (IH suitableSlots) as (found & Heq & Hsub).
        exists found. split; [exact Heq | now constructor].
Qed.

Lemma comparePeriods_morning options a b :
  prioritizeMorningClasses options = true ->
  (exists h, hourOf (startTime a) = Some h) ->
  (exists h, hourOf (startTime b) = Some h) ->
  comparePeriods options a b = startHourKey a - startHourKey b.
Proof.
  intros Hopt [x Hx] [y Hy]. unfold comparePeriods, startHourKey.
  now rewrite Hopt, Hx, Hy.
Qed.

Lemma sortedTimePeriods_perm db options :
  Permutation (sortedTimePeriods db options) (nonBreakPeriods db).
Proof. apply arraySort_perm. Qed.

Lemma sortedTimePeriods_morning db options :
  prioritizeMorningClasses options = true ->
  Forall (fun tp => exists h, hourOf (startTime tp) = Some h)
         (nonBreakPeriods db) ->
  StronglySorted startsNoLater (sortedTimePeriods db options).
Proof.
  intros Hopt Hparse.
  pose proof (proj1 (List.Forall_forall _ _) Hparse) as Hin.
  apply (StronglySorted_weaken
           (fun a b => startHourKey a <= startHourKey b)).
  - intros a b Ha Hb Hle.
    apply (Permutation_in _ (sortedTimePeriods_perm db options)) in Ha, Hb.
    destruct (Hin a Ha) as [x Hx]. destruct (Hin b Hb) as [y Hy].
    exists x, y. unfold startHourKey in Hle. rewrite Hx, Hy in Hle. auto.
  - apply arraySort_sorted. intros a b Ha Hb.
    apply comparePeriods_morning; auto.
Qed.

(** Without the option the same scan goes by ascending [orderIndex]. *)
Lemma sortedTimePeriods_by_orderIndex db options :
  prioritizeMorningClasses options = false ->
  StronglySorted (fun a b => orderIndex a <= orderIndex b)
                 (sortedTimePeriods db options).
Proof.
  intros Hopt. apply arraySort_sorted. intros a b _ _.
  unfold comparePeriods. now rewrite Hopt.
Qed.

(** C6. With [prioritizeMorningClasses] on, and every non-break period
    having a start time whose hour reads as a number, the Slot Finder
    scans exactly the non-break periods, in ascending order of start
    hour. Its candidates are a subsequence of that scan, so they too come
    in ascending start hour. In particular a period with an earlier start
    hour stands before any period with a later one, whatever their
    [orderIndex]. *)
Theorem C6_morning_priority_scan_order (db : Storage) (eng : SchedulingEngine)
    (classSubject : ClassSubject) (periodsNeeded : Z)
    (options : SchedulingOptions) :
  prioritizeMorningClasses options = true ->
  Forall (fun tp => exists h, hourOf (startTime tp) = Some h)
         (nonBreakPeriods db) ->
  Permutation (sortedTimePeriods db options) (nonBreakPeriods db)
  /\ StronglySorted startsNoLater (sortedTimePeriods db options)
  /\ findSuitableTimeSlots db eng classSubject periodsNeeded options
     = scanTimePeriods db eng classSubject periodsNeeded options
         (getAvailableTeachers db (cs_subjectId classSubject))
         (sortedTimePeriods db options) []
  /\ sublist
       (map slot_timePeriod
          (findSuitableTimeSlots db eng classSubject periodsNeeded options))
       (sortedTimePeriods db options)
  /\ StronglySorted startsNoLater
       (map slot_timePeriod
          (findSuitableTimeSlots db eng classSubject periodsNeeded options))
  /\ (forall (i j : nat) (a b : TimePeriod) (x y : Z),
        sortedTimePeriods db options !! i = Some a ->
        sortedTimePeriods db options !! j = Some b ->
        hourOf (startTime a) = Some x ->
        hourOf (startTime b) = Some y ->
        x < y ->
        (i < j)%nat).
Proof.
  intros Hopt Hparse.
  pose proof (sortedTimePeriods_morning db options Hopt Hparse) as Hsorted.
  assert (Hsub : sublist
            (map slot_timePeriod
               (findSuitableTimeSlots db eng classSubject periodsNeeded options))
            (sortedTimePeriods db options)).
  { unfold findSuitableTimeSlots.
    destruct (scanTimePeriods_in_order db eng classSubject periodsNeeded
                options (getAvailableTeachers db (cs_subjectId classSubject))
                (sortedTimePeriods db options) [])
      as (found & Heq & Hfound).
    now rewrite Heq. }
  split; [apply sortedTimePeriods_perm|].
  split; [exact Hsorted|].
  split; [reflexivity|].
  split; [exact Hsub|].
  split; [eapply StronglySorted_sublist_of; eassumption|].
  intros i j a b x y Hi Hj Hx Hy Hlt.
  destruct (Nat.lt_trichotomy i j) as [Hij|[Hij|Hij]]; [exact Hij | |].
  - subst j. rewrite Hi in Hj. inversion Hj; subst b.
    rewrite Hx in Hy. inversion Hy. lia.
  - destruct (StronglySorted_positions _ _ j i b a Hsorted Hij Hj Hi)
      as (y' & x' & Hy' & Hx' & Hle).
    rewrite Hx in Hx'. rewrite Hy in Hy'. inversion Hx'; inversion Hy'. lia.
Qed.

(** Scenario C: Monday-P2 has [orderIndex] 1 and starts at 09:00,
    Monday-P1 has [orderIndex] 2 and starts at 08:00; the scan takes
    Monday-P1 first, and so does the first candidate. *)
Lemma C6_witness :
  sortedTimePeriods Scenario.scenarioC Catalog.morningFirst
  = [Scenario.p1_second; Scenario.p2_first]
  /\ sortedTimePeriods Scenario.scenarioC Catalog.defaults
     = [Scenario.p2_first; Scenario.p1_second]
  /\ map slot_timePeriod
       (findSuitableTimeSlots Scenario.scenarioC
          (startEngine Scenario.scenarioC) (mkClassSubject 1 1 None None) 1
          Catalog.morningFirst)
     = [Scenario.p1_second]
  /\ (0 < 1)%nat.
Proof.
  split; [reflexivity|]. split; [reflexivity|]. split; [reflexivity|].
  assert (Hparse : Forall (fun tp => exists h, hourOf (startTime tp) = Some h)
                     (nonBreakPeriods Scenario.scenarioC)).
  { repeat constructor; [exists 9 | exists 8]; reflexivity. }
  exact (proj2 (proj2 (proj2 (proj2 (proj2
           (C6_morning_priority_scan_order Scenario.scenarioC
              (startEngine Scenario.scenarioC) (mkClassSubject 1 1 None None)
              1 Catalog.morningFirst eq_refl Hparse)))))
           0%nat 1%nat Scenario.p1_second Scenario.p2_first 8 9
           eq_refl eq_refl eq_refl eq_refl eq_refl).
Defined.

(** ** Runs in which the resolver or the counters go wrong *)

(** C1 (fails on the code). Three runs whose output holds a double
    booking. In each the second candidate clashes with the committed
    entry and goes to [resolveConflicts], which returns a substitute that
    was checked for only part of the clashes:
    - a new room is accepted while the teacher is still booked in the
      period (one teacher, three rooms);
    - a new teacher is accepted while the room is still booked in the
      period (both classes pinned to room 1);
    - a new room is accepted while the class is still placed in the
      period (one class, two subjects). *)
Theorem C1_resolver_commits_double_bookings :
  (timetableEntries
     (snd (generateSchedule Catalog.oneTeacherThreeRooms Catalog.defaults))
   = [mkEntry 1 1 1 (Some 1) 1 1 true; mkEntry 2 1 1 (Some 3) 1 1 true]
   /\ hasClash sameTeacherSlot
        (timetableEntries
           (snd (generateSchedule Catalog.oneTeacherThreeRooms
                   Catalog.defaults))) = true)
  /\ (timetableEntries
        (snd (generateSchedule Catalog.sharedPreferredRoom Catalog.defaults))
      = [mkEntry 1 1 1 (Some 1) 1 1 true; mkEntry 2 1 2 (Some 1) 1 1 true]
      /\ hasClash sameRoomSlot
           (timetableEntries
              (snd (generateSchedule Catalog.sharedPreferredRoom
                      Catalog.defaults))) = true)
  /\ (timetableEntries
        (snd (generateSchedule Catalog.oneClassTwoSubjects Catalog.defaults))
      = [mkEntry 1 1 1 (Some 1) 1 1 true; mkEntry 1 2 2 (Some 3) 1 1 true]
      /\ hasClash sameClassSlot
           (timetableEntries
              (snd (generateSchedule Catalog.oneClassTwoSubjects
                      Catalog.defaults))) = true).
Proof. repeat split; vm_compute; reflexivity. Qed.

(** C2 (fails on the code). Teacher 1 is capped at one class per day and
    one per week. The Slot Finder picks the teacher for both Monday
    periods against counters that are still zero, since they move only
    in the assignment loop; both candidates are committed, and the teacher
    ends with two entries on Monday and two in the week. *)
Theorem C2_caps_exceeded_within_one_pairing :
  maxClassesPerDay Catalog.t1_capped = Some 1
  /\ maxClassesPerWeek Catalog.t1_capped = Some 1
  /\ timetableEntries
       (snd (generateSchedule Catalog.cappedTeacher Catalog.defaults))
     = [mkEntry 1 1 1 (Some 1) 1 1 true; mkEntry 1 1 1 (Some 1) 2 1 true]
  /\ entriesOfTeacherOn Catalog.cappedTeacher 1 monday
       (timetableEntries
          (snd (generateSchedule Catalog.cappedTeacher Catalog.defaults))) = 2
  /\ entriesOfTeacher 1
       (timetableEntries
          (snd (generateSchedule Catalog.cappedTeacher Catalog.defaults))) = 2.
Proof. repeat split; vm_compute; reflexivity. Qed.

(** C4 (fails on the code). The workload update stands after the
    commit-or-report branch and names the candidate's teacher, so:
    - the candidate of class 2 in the one-teacher, one-room catalog ends
      unresolved, no entry is added, and teacher 1's Monday and week
      counters still go from 1 to 2;
    - in the catalog with the shared preferred room the candidate of
      class 2 is committed with teacher 2 in place of teacher 1, and the
      counters that move are teacher 1's; teacher 2's stay at zero. *)
Theorem C4_counters_move_without_commit :
  (findSuitableTimeSlots Catalog.oneTeacherOneRoom
     (run_engine Scenario.afterFirstClass) (mkClassSubject 2 1 None None) 1
     Catalog.defaults
   = [mkSlot 1 Catalog.p1 1 None]
   /\ generatedEntries
     (run_engine
        (attemptSlot Catalog.oneTeacherOneRoom Catalog.defaults
           (mkClassSubject 2 1 None None) Catalog.math Catalog.c2
           Scenario.afterFirstClass (mkSlot 1 Catalog.p1 1 None)))
   = generatedEntries (run_engine Scenario.afterFirstClass)
   /\ run_conflicts
        (attemptSlot Catalog.oneTeacherOneRoom Catalog.defaults
           (mkClassSubject 2 1 None None) Catalog.math Catalog.c2
           Scenario.afterFirstClass (mkSlot 1 Catalog.p1 1 None))
      = ["Unresolvable conflict for Math in C2 at Monday-P1"%string]
   /\ teacherWorkloads (run_engine Scenario.afterFirstClass) !! 1
      = Some (mkWorkload 1 (mkPerDay 1 0 0 0 0) 1)
   /\ teacherWorkloads
        (run_engine
           (attemptSlot Catalog.oneTeacherOneRoom Catalog.defaults
              (mkClassSubject 2 1 None None) Catalog.math Catalog.c2
              Scenario.afterFirstClass (mkSlot 1 Catalog.p1 1 None))) !! 1
      = Some (mkWorkload 1 (mkPerDay 2 0 0 0 0) 2))
  /\ (timetableEntries
        (snd (generateSchedule Catalog.oneTeacherOneRoom Catalog.defaults))
      = [mkEntry 1 1 1 (Some 1) 1 1 true]
      /\ conflicts
           (snd (generateSchedule Catalog.oneTeacherOneRoom Catalog.defaults))
         = ["Unresolvable conflict for Math in C2 at Monday-P1"%string]
      /\ teacherWorkloads
           (fst (generateSchedule Catalog.oneTeacherOneRoom Catalog.defaults))
           !! 1
         = Some (mkWorkload 1 (mkPerDay 2 0 0 0 0) 2))
  /\ (timetableEntries
        (snd (generateSchedule Catalog.sharedPreferredRoom Catalog.defaults))
      = [mkEntry 1 1 1 (Some 1) 1 1 true; mkEntry 2 1 2 (Some 1) 1 1 true]
      /\ teacherWorkloads
           (fst (generateSchedule Catalog.sharedPreferredRoom
                   Catalog.defaults)) !! 1
         = Some (mkWorkload 1 (mkPerDay 2 0 0 0 0) 2)
      /\ teacherWorkloads
           (fst (generateSchedule Catalog.sharedPreferredRoom
                   Catalog.defaults)) !! 2
         = Some (mkWorkload 2 (mkPerDay 0 0 0 0 0) 0)).
Proof. repeat split; vm_compute; reflexivity. Qed.

(** ** What the direct path and the Slot Finder do guarantee *)

Lemma hasClash_snoc clash (l : list InsertTimetableEntry)
    (e : InsertTimetableEntry) :
  hasClash clash (l ++ [e])
  = hasClash clash l || List.existsb (fun x => clash x e) l.
Proof.
  induction l as [|x l IH]; simpl; [reflexivity|].
  rewrite IH, existsb_app. simpl.
  destruct (List.existsb (clash x) l), (clash x e), (hasClash clash l),
    (List.existsb (fun y => clash y e) l); reflexivity.
Qed.

Lemma sameRoomSlot_no_room (l : list InsertTimetableEntry)
    (e : InsertTimetableEntry) :
  roomId e = None -> List.existsb (fun x => sameRoomSlot x e) l = false.
Proof.
  intros Hnone. induction l as [|x l IH]; simpl; [reflexivity|].
  rewrite IH. unfold sameRoomSlot. rewrite Hnone. now destruct (roomId x).
Qed.

(** Pushing an entry adds a clash of a kind exactly when [checkConflicts]
    raises the flag of that kind (for rooms: when the entry has a room
    with a non-zero id). *)
Lemma pushEntry_clash_is_conflict (eng : SchedulingEngine)
    (entry : InsertTimetableEntry) :
  hasClash sameTeacherSlot (generatedEntries (pushEntry eng entry))
  = hasClash sameTeacherSlot (generatedEntries eng)
    || teacherConflicts (checkConflicts eng entry)
  /\ hasClash sameClassSlot (generatedEntries (pushEntry eng entry))
     = hasClash sameClassSlot (generatedEntries eng)
       || classConflicts (checkConflicts eng entry)
  /\ (truthy (roomId entry) = true ->
      hasClash sameRoomSlot (generatedEntries (pushEntry eng entry))
      = hasClash sameRoomSlot (generatedEntries eng)
        || roomConflicts (checkConflicts eng entry)).
Proof.
  unfold pushEntry. simpl. rewrite !hasClash_snoc.
  split; [reflexivity|]. split; [reflexivity|].
  intros Hroom. rewrite Hroom. f_equal.
  destruct (roomId entry) as [r|] eqn:Hr; [|discriminate].
  induction (generatedEntries eng) as [|x l IH]; simpl; [reflexivity|].
  rewrite IH. f_equal. unfold sameRoomSlot, strictEqOpt2. rewrite Hr.
  now destruct (roomId x).
Qed.

(** X1. A candidate that passes [checkConflicts] is committed as it is, and
    the committed set stays free of teacher, class and room double
    bookings: the path that does not go through [resolveConflicts] keeps
    the invariant. *)
Theorem direct_commit_keeps_entries_clash_free (db : Storage)
    (options : SchedulingOptions) (subject : Subject) (classObj : Class)
    (st : RunState) (entry : InsertTimetableEntry) (slot : Slot) :
  checkConflicts (run_engine st) entry = mkConflictCheck false false false ->
  truthy (roomId entry) = true \/ roomId entry = None ->
  hasClash sameTeacherSlot (generatedEntries (run_engine st)) = false ->
  hasClash sameRoomSlot (generatedEntries (run_engine st)) = false ->
  hasClash sameClassSlot (generatedEntries (run_engine st)) = false ->
  generatedEntries
    (run_engine (commitOrReport db options subject classObj st entry slot))
  = generatedEntries (run_engine st) ++ [entry]
  /\ hasClash sameTeacherSlot
       (generatedEntries
          (run_engine (commitOrReport db options subject classObj st entry slot)))
     = false
  /\ hasClash sameRoomSlot
       (generatedEntries
          (run_engine (commitOrReport db options subject classObj st entry slot)))
     = false
  /\ hasClash sameClassSlot
       (generatedEntries
          (run_engine (commitOrReport db options subject classObj st entry slot)))
     = false.
Proof.
  intros Hfree Hroom Ht Hr Hc.
  assert (Hcommit :
    commitOrReport db options subject classObj st entry slot
    = mkRun (pushEntry (run_engine st) entry) (run_conflicts st)
            (run_conflictsResolved st)).
  { unfold commitOrReport. rewrite Hfree. simpl.
    unfold validateConstraints.
    destruct (negb (enforceHardConstraints options)
              && negb (respectSoftConstraints options)); [reflexivity|].
    now rewrite validateLoop_true. }
  rewrite Hcommit. cbn [run_engine].
  destruct (pushEntry_clash_is_conflict (run_engine st) entry)
    as (Hpt & Hpc & Hpr).
  split; [reflexivity|].
  split; [now rewrite Hpt, Hfree, Ht|].
  split; [|now rewrite Hpc, Hfree, Hc].
  destruct Hroom as [Hset|Hnone].
  - now rewrite (Hpr Hset), Hfree, Hr.
  - unfold pushEntry. cbn [generatedEntries]. rewrite hasClash_snoc, Hr.
    now rewrite sameRoomSlot_no_room.
Qed.

Lemma direct_commit_witness :
  hasClash sameTeacherSlot
    (generatedEntries
       (run_engine
          (commitOrReport Catalog.cappedTeacher Catalog.defaults
             Catalog.math2 Catalog.c1
             (mkRun (pushEntry (startEngine Catalog.cappedTeacher)
                       (mkEntry 1 1 1 (Some 1) 1 1 true)) [] 0)
             (mkEntry 1 1 1 (Some 1) 2 1 true)
             (mkSlot 2 Catalog.p2 1 (Some 1))))) = false.
Proof.
  apply (direct_commit_keeps_entries_clash_free Catalog.cappedTeacher
           Catalog.defaults Catalog.math2 Catalog.c1
           (mkRun (pushEntry (startEngine Catalog.cappedTeacher)
                     (mkEntry 1 1 1 (Some 1) 1 1 true)) [] 0)
           (mkEntry 1 1 1 (Some 1) 2 1 true)
           (mkSlot 2 Catalog.p2 1 (Some 1))
           eq_refl (or_introl eq_refl) eq_refl eq_refl eq_refl).
Defined.

Lemma commitOrReport_workloads db options subject classObj st entry slot :
  teacherWorkloads
    (run_engine (commitOrReport db options subject classObj st entry slot))
  = teacherWorkloads (run_engine st).
Proof.
  unfold commitOrReport.
  destruct (teacherConflicts _ || roomConflicts _ || classConflicts _ || negb _);
    [|reflexivity].
  destruct (resolveConflicts db (run_engine st) entry slot) as [resolved|];
    [|reflexivity].
  now destruct (validateConstraints db resolved options).
Qed.

(** X4. [initializeWorkloadTracking] gives every teacher of the catalog a
    record with zero counters under the teacher's own id, and gives no
    record to any other id. *)
Theorem initializeWorkloadTracking_zeroes_every_teacher (ts : list Teacher) :
  (forall teacher,
      In teacher ts ->
      initializeWorkloadTracking ts !! teacher_id teacher
      = Some (zeroWorkload (teacher_id teacher)))
  /\ (forall tid workload,
        initializeWorkloadTracking ts !! tid = Some workload ->
        workload = zeroWorkload tid
        /\ exists teacher, In teacher ts /\ teacher_id teacher = tid).
Proof.
  split.
  - intros teacher Hin. rewrite initializeWorkloadTracking_lookup.
    replace (List.existsb (fun t => teacher_id t =? teacher_id teacher) ts)
      with true; [reflexivity|].
    symmetry. apply existsb_exists. exists teacher.
    split; [exact Hin | apply Z.eqb_refl].
  - intros tid workload. rewrite initializeWorkloadTracking_lookup.
    destruct (List.existsb (fun t => teacher_id t =? tid) ts) eqn:Hex;
      [|discriminate].
    intros Heq. split; [congruence|].
    apply existsb_exists in Hex as (teacher & Hin & Hid).
    exists teacher. split; [exact Hin | now apply Z.eqb_eq].
Qed.

(** The counters after one attempt. *)
Lemma attemptSlot_workloads (db : Storage)
    (options : SchedulingOptions) (classSubject : ClassSubject)
    (subject : Subject) (classObj : Class) (st : RunState) (slot : Slot) :
  teacherWorkloads
    (run_engine (attemptSlot db options classSubject subject classObj st slot))
  = if teacherId (candidateEntry classSubject slot) =? 0
    then teacherWorkloads (run_engine st)
    else
      match teacherWorkloads (run_engine st)
            !! teacherId (candidateEntry classSubject slot) with
      | Some workload =>
          <[teacherId (candidateEntry classSubject slot) :=
              mkWorkload (workload_teacherId workload)
                (incrPerDay (classesPerDay workload)
                            (dayOfWeek (slot_timePeriod slot)))
                (totalClasses workload + 1)]>
            (teacherWorkloads (run_engine st))
      | None => teacherWorkloads (run_engine st)
      end.
Proof.
  unfold attemptSlot. cbv zeta.
  set (entry := candidateEntry classSubject slot).
  destruct (teacherId entry =? 0); cbn [negb run_engine].
  - apply commitOrReport_workloads.
  - unfold updateTeacherWorkload. rewrite commitOrReport_workloads.
    destruct (teacherWorkloads (run_engine st) !! teacherId entry);
      [reflexivity | apply commitOrReport_workloads].
Qed.

(** X2. Whatever became of the candidate (committed, committed after
    resolution with another teacher or room, or reported unresolved), the
    counters after the attempt are the counters before it with one more
    class for the candidate's own teacher on the slot's day. *)
Theorem attemptSlot_counts_every_candidate (db : Storage)
    (options : SchedulingOptions) (classSubject : ClassSubject)
    (subject : Subject) (classObj : Class) (st : RunState) (slot : Slot) :
  teacherWorkloads
    (run_engine (attemptSlot db options classSubject subject classObj st slot))
  = if teacherId (candidateEntry classSubject slot) =? 0
    then teacherWorkloads (run_engine st)
    else
      match teacherWorkloads (run_engine st)
            !! teacherId (candidateEntry classSubject slot) with
      | Some workload =>
          <[teacherId (candidateEntry classSubject slot) :=
              mkWorkload (workload_teacherId workload)
                (incrPerDay (classesPerDay workload)
                            (dayOfWeek (slot_timePeriod slot)))
                (totalClasses workload + 1)]>
            (teacherWorkloads (run_engine st))
      | None => teacherWorkloads (run_engine st)
      end.
Proof.
  exact (attemptSlot_workloads db options classSubject subject classObj st
                               slot).
Qed.

(** What the scan adds satisfies any property that holds of every slot it
    can build, and it stops at [periodsNeeded]. *)
Lemma scanTimePeriods_candidates db eng classSubject periodsNeeded options
    availableTeachers sorted suitableSlots (P : Slot -> Prop) :
  (forall teacher timePeriod room,
      In teacher availableTeachers ->
      In timePeriod sorted ->
      isTeacherAvailable teacher timePeriod = true ->
      checkTeacherWorkloadConstraints eng teacher timePeriod options = true ->
      P (mkSlot (tp_id timePeriod) timePeriod (teacher_id teacher) room)) ->
  Forall P suitableSlots ->
  Z.of_nat (length suitableSlots) <= Z.max 0 periodsNeeded ->
  Forall P (scanTimePeriods db eng classSubject periodsNeeded options
              availableTeachers sorted suitableSlots)
  /\ Z.of_nat (length (scanTimePeriods db eng classSubject periodsNeeded
                         options availableTeachers sorted suitableSlots))
     <= Z.max 0 periodsNeeded.
Proof.
  revert suitableSlots.
  induction sorted as [|tp rest IH]; intros suitableSlots HP Hacc Hlen; simpl.
  - auto.
  - destruct (Z.leb_spec periodsNeeded (Z.of_nat (length suitableSlots)));
      [auto|].
    assert (HP' : forall teacher timePeriod room,
               In teacher availableTeachers -> In timePeriod rest ->
               isTeacherAvailable teacher timePeriod = true ->
               checkTeacherWorkloadConstraints eng teacher timePeriod options
               = true ->
               P (mkSlot (tp_id timePeriod) timePeriod (teacher_id teacher)
                         room)).
    { intros t p r Ht Hp. apply HP; [exact Ht | now right]. }
    unfold firstTeacherFor.
    destruct (List.find _ availableTeachers) as [t|] eqn:Hfind.
    + apply find_some in Hfind as [Hin Hok].
      apply andb_true_iff in Hok as [Hav Hcap].
      apply IH; [exact HP' | |].
      * apply Forall_app. split; [exact Hacc|].
        constructor; [|constructor]. apply HP; auto. now left.
      * rewrite length_app. simpl. lia.
    + apply IH; auto.
Qed.

(** X3. Every candidate of the Slot Finder names a teacher eligible for the
    subject who, against the counters as they stood when the scan
    started, was available in the period and under both caps; and no more
    candidates are returned than were asked for. *)
Theorem findSuitableTimeSlots_candidates_under_caps (db : Storage)
    (eng : SchedulingEngine) (classSubject : ClassSubject) (periodsNeeded : Z)
    (options : SchedulingOptions) :
  Forall
    (fun slot =>
       exists teacher,
         In teacher (getAvailableTeachers db (cs_subjectId classSubject))
         /\ slot_teacherId slot = teacher_id teacher
         /\ slot_timePeriodId slot = tp_id (slot_timePeriod slot)
         /\ In (slot_timePeriod slot) (sortedTimePeriods db options)
         /\ isTeacherAvailable teacher (slot_timePeriod slot) = true
         /\ checkTeacherWorkloadConstraints eng teacher (slot_timePeriod slot)
              options = true)
    (findSuitableTimeSlots db eng classSubject periodsNeeded options)
  /\ Z.of_nat
       (length (findSuitableTimeSlots db eng classSubject periodsNeeded options))
     <= Z.max 0 periodsNeeded.
Proof.
  unfold findSuitableTimeSlots. apply scanTimePeriods_candidates.
  - intros teacher timePeriod room Hin Htp Hav Hcap.
    exists teacher. simpl. auto 10.
  - constructor.
  - simpl. lia.
Qed.

(** ** Room search *)

(** The three outcomes of the room search. *)
Lemma findSuitableRoom_cases (db : Storage) (eng : SchedulingEngine)
    (classSubject : ClassSubject) (timePeriod : TimePeriod) :
  (forall room,
      findSuitableRoom db eng classSubject timePeriod = Some room ->
      In room (rooms db)
      /\ isRoomAvailable eng room timePeriod = true
      /\ (strictEqOpt (cs_preferredRoomId classSubject) (room_id room) = true
          \/ truthyB (room_isAvailable room) = true))
  /\ (forall preferredRoom,
        truthy (cs_preferredRoomId classSubject) = true ->
        List.find
          (fun r => strictEqOpt (cs_preferredRoomId classSubject) (room_id r))
          (rooms db) = Some preferredRoom ->
        isRoomAvailable eng preferredRoom timePeriod = true ->
        findSuitableRoom db eng classSubject timePeriod = Some preferredRoom)
  /\ (findSuitableRoom db eng classSubject timePeriod = None ->
      forall room,
        In room (rooms db) ->
        truthyB (room_isAvailable room) = true ->
        isRoomAvailable eng room timePeriod = false).
Proof.
  unfold findSuitableRoom.
  set (flagged := fun room => truthyB (room_isAvailable room)
                              && isRoomAvailable eng room timePeriod).
  set (isPreferred := fun r => strictEqOpt (cs_preferredRoomId classSubject)
                                           (room_id r)).
  assert (Hany : forall room, List.find flagged (rooms db) = Some room ->
            In room (rooms db)
            /\ isRoomAvailable eng room timePeriod = true
            /\ (isPreferred room = true
                \/ truthyB (room_isAvailable room) = true)).
  { intros room Hfind. apply find_some in Hfind as [Hin Hok].
    apply andb_true_iff in Hok as [Hflag Hfree]. auto. }
  assert (Hnone : List.find flagged (rooms db) = None ->
            forall room, In room (rooms db) ->
              truthyB (room_isAvailable room) = true ->
              isRoomAvailable eng room timePeriod = false).
  { intros Hfind room Hin Hflag.
    pose proof (find_none _ _ Hfind room Hin) as Hno.
    unfold flagged in Hno. rewrite Hflag in Hno. exact Hno. }
  split; [|split].
  - intros room.
    destruct (truthy (cs_preferredRoomId classSubject)); [|apply Hany].
    destruct (List.find isPreferred (rooms db)) as [p|] eqn:Hp; [|apply Hany].
    destruct (isRoomAvailable eng p timePeriod) eqn:Hfree; [|apply Hany].
    intros Heq. inversion Heq; subst room.
    apply find_some in Hp as [Hin Hpref]. auto.
  - intros p Htruthy Hp Hfree. now rewrite Htruthy, Hp, Hfree.
  - destruct (truthy (cs_preferredRoomId classSubject)); [|apply Hnone].
    destruct (List.find isPreferred (rooms db)) as [p|]; [|apply Hnone].
    destruct (isRoomAvailable eng p timePeriod); [discriminate | apply Hnone].
Qed.

(** X6. [findSuitableRoom] returns a catalog room that no entry of the run
    books in the period; it is the pairing's preferred room or a room
    flagged available. A preferred room that exists and is free in the
    period is returned whatever its [isAvailable] flag says. When nothing
    is returned, every room flagged available is booked in the period. *)
Theorem findSuitableRoom_free_room (db : Storage) (eng : SchedulingEngine)
    (classSubject : ClassSubject) (timePeriod : TimePeriod) :
  (forall room,
      findSuitableRoom db eng classSubject timePeriod = Some room ->
      In room (rooms db)
      /\ isRoomAvailable eng room timePeriod = true
      /\ (strictEqOpt (cs_preferredRoomId classSubject) (room_id room) = true
          \/ truthyB (room_isAvailable room) = true))
  /\ (forall preferredRoom,
        truthy (cs_preferredRoomId classSubject) = true ->
        List.find
          (fun r => strictEqOpt (cs_preferredRoomId classSubject) (room_id r))
          (rooms db) = Some preferredRoom ->
        isRoomAvailable eng preferredRoom timePeriod = true ->
        findSuitableRoom db eng classSubject timePeriod = Some preferredRoom)
  /\ (findSuitableRoom db eng classSubject timePeriod = None ->
      forall room,
        In room (rooms db) ->
        truthyB (room_isAvailable room) = true ->
        isRoomAvailable eng room timePeriod = false).
Proof. exact (findSuitableRoom_cases db eng classSubject timePeriod). Qed.

Lemma findSuitableRoom_witness :
  findSuitableRoom Catalog.sharedPreferredRoom
    (startEngine Catalog.sharedPreferredRoom)
    (mkClassSubject 1 1 None (Some 1)) Catalog.p1 = Some Catalog.r1
  /\ isRoomAvailable (startEngine Catalog.sharedPreferredRoom) Catalog.r1
       Catalog.p1 = true.
Proof.
  pose proof (findSuitableRoom_free_room Catalog.sharedPreferredRoom
                (startEngine Catalog.sharedPreferredRoom)
                (mkClassSubject 1 1 None (Some 1)) Catalog.p1)
    as (Hsome & Hpref & _).
  pose proof (Hpref Catalog.r1 eq_refl eq_refl eq_refl) as Hfound.
  split; [exact Hfound|].
  exact (proj1 (proj2 (Hsome Catalog.r1 Hfound))).
Defined.

(** ** Conflict Resolver *)

(** The two ways the resolver succeeds. *)
Lemma resolveConflicts_cases (db : Storage)
    (eng : SchedulingEngine) (entry : InsertTimetableEntry)
    (originalSlot : Slot) (resolved : InsertTimetableEntry) :
  resolveConflicts db eng entry originalSlot = Some resolved ->
  (exists teacher timePeriod,
      In teacher (getAvailableTeachers db (subjectId entry))
      /\ teacher_id teacher <> teacherId entry
      /\ findTimePeriod db (timePeriodId entry) = Some timePeriod
      /\ isTeacherAvailable teacher timePeriod = true
      /\ resolved = withTeacher entry (teacher_id teacher)
      /\ teacherConflicts (checkConflicts eng resolved) = false
      /\ classConflicts (checkConflicts eng resolved) = false)
  \/ (exists room timePeriod,
        In room (rooms db)
        /\ truthy (roomId entry) = true
        /\ roomId entry <> Some (room_id room)
        /\ truthyB (room_isAvailable room) = true
        /\ findTimePeriod db (timePeriodId entry) = Some timePeriod
        /\ isRoomAvailable eng room timePeriod = true
        /\ resolved = withRoom entry (room_id room)
        /\ roomConflicts (checkConflicts eng resolved) = false).
Proof.
  unfold resolveConflicts.
  assert (Hteacher : forall r, alternativeTeacher db eng entry = Some r ->
    exists teacher timePeriod,
      In teacher (getAvailableTeachers db (subjectId entry))
      /\ teacher_id teacher <> teacherId entry
      /\ findTimePeriod db (timePeriodId entry) = Some timePeriod
      /\ isTeacherAvailable teacher timePeriod = true
      /\ r = withTeacher entry (teacher_id teacher)
      /\ teacherConflicts (checkConflicts eng r) = false
      /\ classConflicts (checkConflicts eng r) = false).
  { intros r. unfold alternativeTeacher.
    destruct (List.find _ _) as [teacher|] eqn:Hfind; [|discriminate].
    simpl. intros Heq. inversion Heq; subst r. clear Heq.
    apply find_some in Hfind as [Hin Hok].
    apply andb_true_iff in Hok as [Hok Hfree].
    apply andb_true_iff in Hok as [Hne Hav].
    apply andb_true_iff in Hfree as [Htc Hcc].
    destruct (findTimePeriod db (timePeriodId entry)) as [tp|];
      [|discriminate].
    exists teacher, tp. repeat split; auto.
    - intros Heq. rewrite Heq, Z.eqb_refl in Hne. discriminate.
    - now apply negb_true_iff.
    - now apply negb_true_iff. }
  assert (Hroom : forall r, truthy (roomId entry) = true ->
    alternativeRoom db eng entry = Some r ->
    exists room timePeriod,
      In room (rooms db)
      /\ truthy (roomId entry) = true
      /\ roomId entry <> Some (room_id room)
      /\ truthyB (room_isAvailable room) = true
      /\ findTimePeriod db (timePeriodId entry) = Some timePeriod
      /\ isRoomAvailable eng room timePeriod = true
      /\ r = withRoom entry (room_id room)
      /\ roomConflicts (checkConflicts eng r) = false).
  { intros r Htruthy. unfold alternativeRoom.
    destruct (List.find _ _) as [room|] eqn:Hfind; [|discriminate].
    simpl. intros Heq. inversion Heq; subst r. clear Heq.
    apply find_some in Hfind as [Hin Hok].
    apply andb_true_iff in Hok as [Hok Hrc].
    apply andb_true_iff in Hok as [Hne Hav].
    apply negb_true_iff, orb_false_iff in Hne as [Hne Hflag].
    destruct (findTimePeriod db (timePeriodId entry)) as [tp|];
      [|discriminate].
    exists room, tp. repeat split; auto.
    - intros Heq. rewrite Heq in Hne. simpl in Hne.
      rewrite Z.eqb_refl in Hne. discriminate.
    - now apply negb_false_iff in Hflag.
    - now apply negb_true_iff. }
  intros H.
  destruct (negb (teacherId entry =? 0)).
  - destruct (alternativeTeacher db eng entry) as [t|] eqn:Ht.
    + inversion H; subst t. left. now apply Hteacher.
    + destruct (truthy (roomId entry)) eqn:Htruthy; [|discriminate].
      right. now apply Hroom.
  - destruct (truthy (roomId entry)) eqn:Htruthy; [|discriminate].
    right. now apply Hroom.
Qed.

(** X7. What [resolveConflicts] returns is the entry with one field replaced.
    Either the teacher is replaced by another teacher eligible for the
    subject who is available in the entry's period, and the result has no
    teacher and no class conflict; or the room is replaced by another
    catalog room that is flagged available and free in the period, and
    the result has no room conflict. *)
Theorem resolveConflicts_replaces_one_field (db : Storage)
    (eng : SchedulingEngine) (entry : InsertTimetableEntry)
    (originalSlot : Slot) (resolved : InsertTimetableEntry) :
  resolveConflicts db eng entry originalSlot = Some resolved ->
  (exists teacher timePeriod,
      In teacher (getAvailableTeachers db (subjectId entry))
      /\ teacher_id teacher <> teacherId entry
      /\ findTimePeriod db (timePeriodId entry) = Some timePeriod
      /\ isTeacherAvailable teacher timePeriod = true
      /\ resolved = withTeacher entry (teacher_id teacher)
      /\ teacherConflicts (checkConflicts eng resolved) = false
      /\ classConflicts (checkConflicts eng resolved) = false)
  \/ (exists room timePeriod,
        In room (rooms db)
        /\ truthy (roomId entry) = true
        /\ roomId entry <> Some (room_id room)
        /\ truthyB (room_isAvailable room) = true
        /\ findTimePeriod db (timePeriodId entry) = Some timePeriod
        /\ isRoomAvailable eng room timePeriod = true
        /\ resolved = withRoom entry (room_id room)
        /\ roomConflicts (checkConflicts eng resolved) = false).
Proof. exact (resolveConflicts_cases db eng entry originalSlot resolved). Qed.

Lemma resolveConflicts_witness :
  (exists teacher timePeriod,
      In teacher (getAvailableTeachers Catalog.sharedPreferredRoom 1)
      /\ teacher_id teacher <> 1
      /\ findTimePeriod Catalog.sharedPreferredRoom 1 = Some timePeriod
      /\ isTeacherAvailable teacher timePeriod = true
      /\ mkEntry 2 1 2 (Some 1) 1 1 true
         = withTeacher (mkEntry 2 1 1 (Some 1) 1 1 true) (teacher_id teacher)
      /\ teacherConflicts
           (checkConflicts
              (pushEntry (startEngine Catalog.sharedPreferredRoom)
                 (mkEntry 1 1 1 (Some 1) 1 1 true))
              (mkEntry 2 1 2 (Some 1) 1 1 true)) = false
      /\ classConflicts
           (checkConflicts
              (pushEntry (startEngine Catalog.sharedPreferredRoom)
                 (mkEntry 1 1 1 (Some 1) 1 1 true))
              (mkEntry 2 1 2 (Some 1) 1 1 true)) = false)
  \/ (exists room timePeriod,
        In room (rooms Catalog.sharedPreferredRoom)
        /\ truthy (Some 1) = true
        /\ Some 1 <> Some (room_id room)
        /\ truthyB (room_isAvailable room) = true
        /\ findTimePeriod Catalog.sharedPreferredRoom 1 = Some timePeriod
        /\ isRoomAvailable
             (pushEntry (startEngine Catalog.sharedPreferredRoom)
                (mkEntry 1 1 1 (Some 1) 1 1 true)) room timePeriod = true
        /\ mkEntry 2 1 2 (Some 1) 1 1 true
           = withRoom (mkEntry 2 1 1 (Some 1) 1 1 true) (room_id room)
        /\ roomConflicts
             (checkConflicts
                (pushEntry (startEngine Catalog.sharedPreferredRoom)
                   (mkEntry 1 1 1 (Some 1) 1 1 true))
                (mkEntry 2 1 2 (Some 1) 1 1 true)) = false).
Proof.
  exact (resolveConflicts_replaces_one_field Catalog.sharedPreferredRoom
           (pushEntry (startEngine Catalog.sharedPreferredRoom)
              (mkEntry 1 1 1 (Some 1) 1 1 true))
           (mkEntry 2 1 1 (Some 1) 1 1 true)
           (mkSlot 1 Catalog.p1 1 None)
           (mkEntry 2 1 2 (Some 1) 1 1 true) eq_refl).
Defined.

(** X8. An entry whose period is not in the catalog is never resolved: both
    loops skip every teacher and every room. *)
Theorem resolveConflicts_unknown_period (db : Storage) (eng : SchedulingEngine)
    (entry : InsertTimetableEntry) (originalSlot : Slot) :
  findTimePeriod db (timePeriodId entry) = None ->
  resolveConflicts db eng entry originalSlot = None.
Proof.
  intros Hnone.
  assert (Hnofind : forall (A : Type) (f : A -> bool) (l : list A),
            (forall x, f x = false) -> List.find f l = None).
  { intros A f l Hf. induction l as [|x l IH]; simpl; [reflexivity|].
    now rewrite Hf. }
  unfold resolveConflicts, alternativeTeacher, alternativeRoom.
  rewrite Hnone.
  rewrite (Hnofind Teacher), (Hnofind Room); simpl.
  - destruct (negb _), (truthy _); reflexivity.
  - intros room. now rewrite andb_false_r.
  - intros teacher. now rewrite andb_false_r.
Qed.

Lemma resolveConflicts_unknown_period_witness :
  resolveConflicts Catalog.oneTeacherThreeRooms
    (startEngine Catalog.oneTeacherThreeRooms)
    (mkEntry 2 1 1 (Some 2) 9 1 true) (mkSlot 9 Catalog.p1 1 (Some 2)) = None.
Proof.
  apply (resolveConflicts_unknown_period Catalog.oneTeacherThreeRooms
           (startEngine Catalog.oneTeacherThreeRooms)
           (mkEntry 2 1 1 (Some 2) 9 1 true) (mkSlot 9 Catalog.p1 1 (Some 2))).
  reflexivity.
Defined.

(** ** Eligible teachers *)

Lemma In_omap {A B : Type} (f : A -> option B) (l : list A) (y : B) :
  In y (omap f l) <-> exists x, In x l /\ f x = Some y.
Proof.
  induction l as [|a l IH]; simpl.
  - split; [contradiction | intros (x & [] & _)].
  - destruct (f a) as [b|] eqn:Hfa; simpl; rewrite ?IH; split.
    + intros [Heq|(x & Hin & Hx)]; [subst; eauto | eauto].
    + intros (x & [Heq|Hin] & Hx); [subst; left; congruence | right; eauto].
    + intros (x & Hin & Hx). eauto.
    + intros (x & [Heq|Hin] & Hx); [subst; congruence | eauto].
Qed.

Lemma length_omap_le {A B : Type} (f : A -> option B) (l : list A) :
  (length (omap f l) <= length l)%nat.
Proof.
  induction l as [|a l IH]; [apply Nat.le_refl|].
  cbn [omap list_omap length]. destruct (f a); cbn [length]; lia.
Qed.

(** X9. A teacher is returned by [getAvailableTeachers] exactly when some row
    of [teacher_subjects] for the subject names an id whose first holder
    in the catalog is that teacher; rows naming an unknown teacher add
    nothing, and the result is never longer than the subject's rows. *)
Theorem getAvailableTeachers_membership (db : Storage) (sid : Z)
    (teacher : Teacher) :
  (In teacher (getAvailableTeachers db sid)
   <-> exists row,
         In row (teacherSubjects db)
         /\ ts_subjectId row = sid
         /\ List.find (fun t => teacher_id t =? ts_teacherId row) (teachers db)
            = Some teacher)
  /\ (In teacher (getAvailableTeachers db sid) -> In teacher (teachers db))
  /\ (length (getAvailableTeachers db sid)
      <= length (getSubjectTeachers db sid))%nat.
Proof.
  unfold getAvailableTeachers, getSubjectTeachers.
  assert (Hiff : In teacher
                   (omap (fun ts =>
                            List.find (fun t => teacher_id t =? ts_teacherId ts)
                                      (teachers db))
                         (List.filter (fun ts => ts_subjectId ts =? sid)
                                      (teacherSubjects db)))
                 <-> exists row,
                       In row (teacherSubjects db)
                       /\ ts_subjectId row = sid
                       /\ List.find
                            (fun t => teacher_id t =? ts_teacherId row)
                            (teachers db) = Some teacher).
  { rewrite In_omap. split.
    - intros (row & Hin & Hfind). apply filter_In in Hin as [Hin Hsid].
      apply Z.eqb_eq in Hsid. eauto.
    - intros (row & Hin & Hsid & Hfind). exists row. split; [|exact Hfind].
      apply filter_In. split; [exact Hin|]. now apply Z.eqb_eq. }
  split; [exact Hiff|]. split.
  - intros Hin. apply Hiff in Hin as (row & _ & _ & Hfind).
    now apply find_some in Hfind as [Hin _].
  - apply length_omap_le.
Qed.

(** ** Slot Finder: default order, distinct periods, free rooms *)

(** X5. Without [prioritizeMorningClasses] the scan goes through exactly the
    non-break periods in ascending [orderIndex], and the candidates
    follow that order. *)
Theorem sortedTimePeriods_default_order (db : Storage) (eng : SchedulingEngine)
    (classSubject : ClassSubject) (periodsNeeded : Z)
    (options : SchedulingOptions) :
  prioritizeMorningClasses options = false ->
  Permutation (sortedTimePeriods db options) (nonBreakPeriods db)
  /\ StronglySorted (fun a b => orderIndex a <= orderIndex b)
       (sortedTimePeriods db options)
  /\ StronglySorted (fun a b => orderIndex a <= orderIndex b)
       (map slot_timePeriod
          (findSuitableTimeSlots db eng classSubject periodsNeeded options)).
Proof.
  intros Hopt.
  pose proof (sortedTimePeriods_by_orderIndex db options Hopt) as Hsorted.
  split; [apply sortedTimePeriods_perm|]. split; [exact Hsorted|].
  unfold findSuitableTimeSlots.
  destruct (scanTimePeriods_in_order db eng classSubject periodsNeeded
              options (getAvailableTeachers db (cs_subjectId classSubject))
              (sortedTimePeriods db options) [])
    as (found & Heq & Hfound).
  rewrite Heq. simpl. eapply StronglySorted_sublist_of; eassumption.
Qed.

Lemma sortedTimePeriods_default_order_witness :
  StronglySorted (fun a b => orderIndex a <= orderIndex b)
    (sortedTimePeriods Scenario.scenarioC Catalog.defaults)
  /\ sortedTimePeriods Scenario.scenarioC Catalog.defaults
     = [Scenario.p2_first; Scenario.p1_second].
Proof.
  split; [|reflexivity].
  exact (proj1 (proj2 (sortedTimePeriods_default_order Scenario.scenarioC
                         (startEngine Scenario.scenarioC)
                         (mkClassSubject 1 1 None None) 1 Catalog.defaults
                         eq_refl))).
Defined.

(** The slots of the scan with the room each one got. *)
Lemma scanTimePeriods_slots db eng classSubject periodsNeeded options
    availableTeachers sorted suitableSlots (P : Slot -> Prop) :
  (forall teacher timePeriod,
      In teacher availableTeachers ->
      In timePeriod sorted ->
      P (mkSlot (tp_id timePeriod) timePeriod (teacher_id teacher)
           (option_map room_id
              (findSuitableRoom db eng classSubject timePeriod)))) ->
  Forall P suitableSlots ->
  Forall P (scanTimePeriods db eng classSubject periodsNeeded options
              availableTeachers sorted suitableSlots).
Proof.
  revert suitableSlots.
  induction sorted as [|tp rest IH]; intros suitableSlots HP Hacc; simpl.
  - exact Hacc.
  - destruct (periodsNeeded <=? Z.of_nat (length suitableSlots));
      [exact Hacc|].
    assert (HP' : forall teacher timePeriod,
               In teacher availableTeachers -> In timePeriod rest ->
               P (mkSlot (tp_id timePeriod) timePeriod (teacher_id teacher)
                    (option_map room_id
                       (findSuitableRoom db eng classSubject timePeriod)))).
    { intros t p Ht Hp. apply HP; [exact Ht | now right]. }
    unfold firstTeacherFor.
    destruct (List.find _ availableTeachers) as [t|] eqn:Hfind.
    + apply find_some in Hfind as [Hin _].
      apply IH; [exact HP'|].
      apply Forall_app. split; [exact Hacc|].
      constructor; [|constructor]. apply HP; [exact Hin | now left].
    + apply IH; auto.
Qed.

Lemma findSuitableTimeSlots_from_catalog db eng classSubject periodsNeeded
    options :
  Forall (slotFromCatalog db classSubject)
    (findSuitableTimeSlots db eng classSubject periodsNeeded options).
Proof.
  unfold findSuitableTimeSlots. apply scanTimePeriods_slots; [|constructor].
  intros teacher tp Hin Htp. unfold slotFromCatalog. simpl.
  split; [now exists teacher|]. split; [reflexivity|]. split.
  - eapply Permutation_in; [apply sortedTimePeriods_perm | exact Htp].
  - intros r Hr.
    destruct (findSuitableRoom db eng classSubject tp) as [room|] eqn:Hroom;
      [|discriminate].
    simpl in Hr. inversion Hr; subst r. exists room. split; [|reflexivity].
    now apply (proj1 (findSuitableRoom_cases db eng classSubject tp)) in Hroom.
Qed.

Lemma sublist_map {A B : Type} (f : A -> B) (l1 l2 : list A) :
  sublist l1 l2 -> sublist (map f l1) (map f l2).
Proof.
  induction 1 as [|x l1 l2 Hsub IH|x l1 l2 Hsub IH]; simpl.
  - apply sublist_nil.
  - now apply sublist_skip.
  - now apply sublist_cons.
Qed.

(** X10. When the catalog's periods have distinct ids, one call of the Slot
    Finder never offers the same period twice. *)
Theorem findSuitableTimeSlots_distinct_periods (db : Storage)
    (eng : SchedulingEngine) (classSubject : ClassSubject) (periodsNeeded : Z)
    (options : SchedulingOptions) :
  List.NoDup (map tp_id (timePeriods db)) ->
  List.NoDup (map slot_timePeriodId
           (findSuitableTimeSlots db eng classSubject periodsNeeded options)).
Proof.
  intros Hids.
  assert (Hsorted : List.NoDup (map tp_id (sortedTimePeriods db options))).
  { eapply Permutation_NoDup.
    - apply Permutation_map. symmetry. apply sortedTimePeriods_perm.
    - unfold nonBreakPeriods.
      induction (timePeriods db) as [|tp l IH]; simpl; [constructor|].
      inversion Hids as [|? ? Hnotin Hrest]; subst.
      destruct (negb (truthyB (isBreak tp))); simpl; [|now apply IH].
      constructor; [|now apply IH].
      intros Hin. apply Hnotin. apply in_map_iff in Hin as (x & Hx & Hin).
      apply filter_In in Hin as [Hin _]. apply in_map_iff. eauto. }
  assert (Hmap : map slot_timePeriodId
                   (findSuitableTimeSlots db eng classSubject periodsNeeded
                      options)
                 = map tp_id
                     (map slot_timePeriod
                        (findSuitableTimeSlots db eng classSubject
                           periodsNeeded options))).
  { pose proof (findSuitableTimeSlots_from_catalog db eng classSubject
                  periodsNeeded options) as Hall.
    induction Hall as [|slot l Hslot Hall IH]; simpl; [reflexivity|].
    destruct Hslot as (_ & Hid & _). now rewrite Hid, IH. }
  rewrite Hmap.
  unfold findSuitableTimeSlots.
  destruct (scanTimePeriods_in_order db eng classSubject periodsNeeded
              options (getAvailableTeachers db (cs_subjectId classSubject))
              (sortedTimePeriods db options) [])
    as (found & Heq & Hfound).
  rewrite Heq. simpl.
  apply NoDup_ListNoDup.
  apply (sublist_NoDup _ (map tp_id (sortedTimePeriods db options))).
  - now apply NoDup_ListNoDup.
  - now apply sublist_map.
Qed.

Lemma findSuitableTimeSlots_distinct_periods_witness :
  List.NoDup (map slot_timePeriodId
           (findSuitableTimeSlots Catalog.cappedTeacher
              (startEngine Catalog.cappedTeacher)
              (mkClassSubject 1 1 None None) 2 Catalog.defaults)).
Proof.
  apply (findSuitableTimeSlots_distinct_periods Catalog.cappedTeacher
           (startEngine Catalog.cappedTeacher) (mkClassSubject 1 1 None None)
           2 Catalog.defaults).
  repeat constructor; simpl; intuition discriminate.
Defined.

(** X11. For a pairing without a preferred room, no candidate of the Slot
    Finder has a room conflict against the entries it was computed from:
    the room it carries, if any, is free in its period. *)
Theorem findSuitableTimeSlots_room_is_free (db : Storage)
    (eng : SchedulingEngine) (classSubject : ClassSubject) (periodsNeeded : Z)
    (options : SchedulingOptions) :
  truthy (cs_preferredRoomId classSubject) = false ->
  Forall
    (fun slot =>
       roomConflicts (checkConflicts eng (candidateEntry classSubject slot))
       = false)
    (findSuitableTimeSlots db eng classSubject periodsNeeded options).
Proof.
  intros Hnopref. unfold findSuitableTimeSlots.
  apply scanTimePeriods_slots; [|constructor].
  intros teacher tp _ _. unfold checkConflicts, candidateEntry, orElse.
  cbn [roomConflicts roomId timePeriodId slot_roomId slot_timePeriodId].
  rewrite Hnopref.
  destruct (findSuitableRoom db eng classSubject tp) as [room|] eqn:Hroom;
    simpl; [|reflexivity].
  apply (proj1 (findSuitableRoom_cases db eng classSubject tp)) in Hroom
    as (_ & Hfree & _).
  destruct (negb (room_id room =? 0)); [|reflexivity].
  unfold isRoomAvailable in Hfree. apply negb_true_iff in Hfree.
  rewrite <- Hfree. clear Hfree.
  induction (generatedEntries eng) as [|x l IH]; simpl; [reflexivity|].
  rewrite IH. f_equal; unfold strictEqOpt2, strictEqOpt;
    now destruct (roomId x).
Qed.

Lemma findSuitableTimeSlots_room_is_free_witness :
  Forall
    (fun slot =>
       roomConflicts
         (checkConflicts (run_engine Scenario.afterFirstClass)
            (candidateEntry (mkClassSubject 2 1 None None) slot)) = false)
    (findSuitableTimeSlots Catalog.oneTeacherOneRoom
       (run_engine Scenario.afterFirstClass) (mkClassSubject 2 1 None None) 1
       Catalog.defaults).
Proof.
  apply (findSuitableTimeSlots_room_is_free Catalog.oneTeacherOneRoom
           (run_engine Scenario.afterFirstClass)
           (mkClassSubject 2 1 None None) 1 Catalog.defaults).
  reflexivity.
Defined.

(** ** Orchestrator: what a whole run keeps *)

Lemma In_firstn_list {A : Type} (n : nat) (l : list A) (x : A) :
  In x (firstn n l) -> In x l.
Proof.
  revert l. induction n as [|n IH]; intros [|y l]; simpl; try contradiction.
  intros [Heq|Hin]; [now left | right; now apply IH].
Qed.

(** The three ways the commit-or-report branch can end. *)
Lemma commitOrReport_cases db options subject classObj st entry slot :
  (checkConflicts (run_engine st) entry = mkConflictCheck false false false
   /\ commitOrReport db options subject classObj st entry slot
      = mkRun (pushEntry (run_engine st) entry) (run_conflicts st)
              (run_conflictsResolved st))
  \/ (exists resolved,
        resolveConflicts db (run_engine st) entry slot = Some resolved
        /\ commitOrReport db options subject classObj st entry slot
           = mkRun (pushEntry (run_engine st) resolved) (run_conflicts st)
                   (run_conflictsResolved st + 1))
  \/ commitOrReport db options subject classObj st entry slot
     = mkRun (run_engine st)
             (run_conflicts st ++ [unresolvableMessage subject classObj slot])
             (run_conflictsResolved st).
Proof.
  unfold commitOrReport.
  destruct (checkConflicts (run_engine st) entry) as [tc rc cc].
  cbn [teacherConflicts roomConflicts classConflicts].
  destruct (tc || rc || cc || negb (validateConstraints db entry options))
    eqn:Hflag.
  - destruct (resolveConflicts db (run_engine st) entry slot) as [resolved|];
      [|now right; right].
    destruct (validateConstraints db resolved options);
      [|now right; right].
    right; left. now exists resolved.
  - left. split; [|reflexivity].
    apply orb_false_iff in Hflag as [Hflag _].
    apply orb_false_iff in Hflag as [Hflag Hcc].
    apply orb_false_iff in Hflag as [Htc Hrc]. now subst.
Qed.

Lemma attemptSlot_fields db options classSubject subject classObj st slot :
  generatedEntries
    (run_engine (attemptSlot db options classSubject subject classObj st slot))
  = generatedEntries
      (run_engine (commitOrReport db options subject classObj st
                     (candidateEntry classSubject slot) slot))
  /\ run_conflicts (attemptSlot db options classSubject subject classObj st slot)
     = run_conflicts (commitOrReport db options subject classObj st
                        (candidateEntry classSubject slot) slot)
  /\ run_conflictsResolved
       (attemptSlot db options classSubject subject classObj st slot)
     = run_conflictsResolved
         (commitOrReport db options subject classObj st
            (candidateEntry classSubject slot) slot).
Proof.
  unfold attemptSlot. cbv zeta.
  destruct (negb (teacherId (candidateEntry classSubject slot) =? 0));
    cbn [run_engine run_conflicts run_conflictsResolved];
    rewrite ?updateTeacherWorkload_entries; auto.
Qed.

Section RunInvariant.

Variable db : Storage.
Variable options : SchedulingOptions.
Variable Inv : RunState -> Prop.

Hypothesis Inv_message :
  forall st message,
    Inv st ->
    Inv (mkRun (run_engine st) (run_conflicts st ++ [message])
               (run_conflictsResolved st)).

Hypothesis Inv_attempt :
  forall st classSubject subject classObj slot,
    In classSubject (classSubjects db) ->
    findSubject db (cs_subjectId classSubject) = Some subject ->
    findClass db (cs_classId classSubject) = Some classObj ->
    slotFromCatalog db classSubject slot ->
    Inv st ->
    Inv (attemptSlot db options classSubject subject classObj st slot).

Lemma processClassSubject_invariant st classSubject :
  In classSubject (classSubjects db) ->
  Inv st -> Inv (processClassSubject db options st classSubject).
Proof.
  intros Hin Hst. unfold processClassSubject.
  destruct (findSubject db (cs_subjectId classSubject)) as [subject|] eqn:Hs;
    [|exact Hst].
  destruct (findClass db (cs_classId classSubject)) as [classObj|] eqn:Hc;
    [|exact Hst].
  cbv zeta. unfold assignSlots.
  pose proof (findSuitableTimeSlots_from_catalog db (run_engine st)
                classSubject (weeklyHours subject) options) as Hslots.
  set (slots := findSuitableTimeSlots db (run_engine st) classSubject
                  (weeklyHours subject) options) in *.
  assert (Hstart : Inv (noteShortfall (weeklyHours subject) subject classObj
                          slots st)).
  { unfold noteShortfall. destruct (_ <? _); [now apply Inv_message | exact Hst]. }
  assert (Htried : Forall (slotFromCatalog db classSubject)
                     (firstn (Z.to_nat (Z.min (Z.of_nat (length slots))
                                          (weeklyHours subject))) slots)).
  { apply List.Forall_forall. intros slot Hslot.
    apply In_firstn_list in Hslot.
    exact (proj1 (List.Forall_forall _ _) Hslots slot Hslot). }
  revert Hstart Htried.
  generalize (noteShortfall (weeklyHours subject) subject classObj slots st).
  generalize (firstn (Z.to_nat (Z.min (Z.of_nat (length slots))
                                  (weeklyHours subject))) slots).
  intros tried. induction tried as [|slot tried IH]; intros st1 Hst1 Hall;
    simpl; [exact Hst1|].
  inversion Hall; subst. apply IH; [|assumption].
  now apply Inv_attempt.
Qed.

Lemma run_invariant :
  Inv (mkRun (startEngine db) [] 0) ->
  Inv (fold_left (processClassSubject db options) (classSubjects db)
         (mkRun (startEngine db) [] 0)).
Proof.
  assert (Hgen : forall l st,
            (forall cs, In cs l -> In cs (classSubjects db)) ->
            Inv st -> Inv (fold_left (processClassSubject db options) l st)).
  { induction l as [|cs l IH]; intros st Hsub Hst; simpl; [exact Hst|].
    apply IH; [intros c Hc; apply Hsub; now right|].
    apply processClassSubject_invariant; [apply Hsub; now left | exact Hst]. }
  apply Hgen. auto.
Qed.

End RunInvariant.

(** The engine and the entries a run returns are those of the loop over
    the pairings, also when there is no pairing. *)
Lemma generateSchedule_as_loop db options :
  fst (generateSchedule db options)
  = run_engine (fold_left (processClassSubject db options) (classSubjects db)
                  (mkRun (startEngine db) [] 0))
  /\ timetableEntries (snd (generateSchedule db options))
     = generatedEntries
         (run_engine (fold_left (processClassSubject db options)
                        (classSubjects db) (mkRun (startEngine db) [] 0)))
  /\ stats_conflictsResolved (stats (snd (generateSchedule db options)))
     = run_conflictsResolved
         (fold_left (processClassSubject db options) (classSubjects db)
            (mkRun (startEngine db) [] 0))
  /\ stats_totalEntries (stats (snd (generateSchedule db options)))
     = Z.of_nat (length (timetableEntries (snd (generateSchedule db options)))).
Proof.
  unfold generateSchedule.
  destruct (classSubjects db) as [|cs l]; simpl; auto.
Qed.

Lemma workloadConsistent_zero tid : workloadConsistent tid (zeroWorkload tid).
Proof. unfold workloadConsistent, weekSum. simpl. lia. Qed.

Lemma workloadConsistent_incr tid w day :
  workloadConsistent tid w ->
  workloadConsistent tid
    (mkWorkload (workload_teacherId w) (incrPerDay (classesPerDay w) day)
                (totalClasses w + 1)).
Proof.
  unfold workloadConsistent, weekSum.
  intros (Hid & Htot & H1 & H2 & H3 & H4 & H5).
  destruct day; simpl; repeat split; lia.
Qed.

(** X12. After a run the counters cover exactly the teachers of the catalog;
    each record names its own teacher, its week total is the sum of its
    five day counters, and no counter is negative. *)
Theorem generateSchedule_workloads_consistent (db : Storage)
    (options : SchedulingOptions) (tid : Z) :
  (is_Some (teacherWorkloads (fst (generateSchedule db options)) !! tid)
   <-> exists teacher, In teacher (teachers db) /\ teacher_id teacher = tid)
  /\ (forall workload,
        teacherWorkloads (fst (generateSchedule db options)) !! tid
        = Some workload ->
        workloadConsistent tid workload).
Proof.
  destruct (generateSchedule_as_loop db options) as (-> & _).
  set (Inv := fun st : RunState =>
         forall t,
           (is_Some (teacherWorkloads (run_engine st) !! t)
            <-> exists teacher, In teacher (teachers db)
                                /\ teacher_id teacher = t)
           /\ (forall w, teacherWorkloads (run_engine st) !! t = Some w ->
                         workloadConsistent t w)).
  apply (run_invariant db options Inv).
  - intros st message Hst. exact Hst.
  - intros st cs subject classObj slot _ _ _ _ Hst t.
    rewrite attemptSlot_workloads.
    set (c := teacherId (candidateEntry cs slot)).
    destruct (c =? 0); [apply Hst|].
    destruct (teacherWorkloads (run_engine st) !! c) as [w|] eqn:Hc;
      [|apply Hst].
    destruct (Hst t) as [Hdom Hcons].
    destruct (Z.eq_dec c t) as [->|Hne].
    + rewrite lookup_insert_eq. split.
      * rewrite <- Hdom, Hc. split; intros _; eauto.
      * intros w' Hw'. inversion Hw'; subst w'.
        apply workloadConsistent_incr. now apply Hcons.
    + rewrite lookup_insert_ne by exact Hne. now split.
  - intros t. unfold startEngine. cbn [run_engine teacherWorkloads].
    rewrite initializeWorkloadTracking_lookup.
    destruct (List.existsb (fun teacher => teacher_id teacher =? t)
                (teachers db)) eqn:Hex.
    + apply existsb_exists in Hex as (teacher & Hin & Heq).
      apply Z.eqb_eq in Heq. split.
      * split; intros _; eauto.
      * intros w Hw. inversion Hw. apply workloadConsistent_zero.
    + split; [|discriminate]. split.
      * intros [w Hw]. discriminate.
      * intros (teacher & Hin & Heq).
        assert (List.existsb (fun teacher => teacher_id teacher =? t)
                  (teachers db) = true) as Habs.
        { apply existsb_exists. exists teacher. split; [exact Hin|].
          now apply Z.eqb_eq. }
        congruence.
Qed.

Lemma candidateEntry_fromCatalog db classSubject subject classObj slot :
  In classSubject (classSubjects db) ->
  findSubject db (cs_subjectId classSubject) = Some subject ->
  findClass db (cs_classId classSubject) = Some classObj ->
  slotFromCatalog db classSubject slot ->
  entryFromCatalog db (candidateEntry classSubject slot).
Proof.
  intros Hin Hs Hc (Hteacher & Hid & Hperiod & Hroom).
  exists classSubject. unfold candidateEntry. cbn.
  split; [exact Hin|]. split; [reflexivity|]. split; [reflexivity|].
  split; [eauto|]. split; [eauto|].
  split; [exists (slot_timePeriod slot); auto|].
  split.
  - unfold orDefault. destruct (cs_teacherId classSubject) as [n|]; simpl.
    + destruct (negb (n =? 0)); [now left | now right].
    + now right.
  - split; [|split; reflexivity].
    unfold orElse.
    destruct (truthy (cs_preferredRoomId classSubject)); [now right; left|].
    destruct (slot_roomId slot) as [r|] eqn:Hr; [|now left].
    right; right. exists r. split; [reflexivity | now apply Hroom].
Qed.

Lemma resolved_fromCatalog db eng entry slot resolved :
  entryFromCatalog db entry ->
  resolveConflicts db eng entry slot = Some resolved ->
  entryFromCatalog db resolved.
Proof.
  intros (cs & Hin & Hc & Hs & Hsub & Hcls & Htp & Ht & Hr & Hw & Hg) Hres.
  apply resolveConflicts_cases in Hres
    as [(teacher & tp & Hel & _ & _ & _ & -> & _)
       |(room & tp & Hroom & _ & _ & _ & _ & _ & -> & _)];
    exists cs; cbn; repeat split; auto.
  - right. now exists teacher.
  - right; right. exists (room_id room). split; [reflexivity|].
    now exists room.
Qed.

(** X13. Every entry a run returns comes from the catalog: its class and
    subject are those of a class-subject row whose class and subject
    exist; its period is a non-break period of the catalog; its teacher is
    the row's own teacher or a teacher assigned to the subject; its room,
    if any, is the row's preferred room or a room of the catalog; and it
    is marked as generated for week 1. *)
Theorem generateSchedule_entries_from_catalog (db : Storage)
    (options : SchedulingOptions) :
  Forall (entryFromCatalog db)
         (timetableEntries (snd (generateSchedule db options))).
Proof.
  destruct (generateSchedule_as_loop db options) as (_ & -> & _).
  apply (run_invariant db options
           (fun st => Forall (entryFromCatalog db)
                             (generatedEntries (run_engine st)))).
  - intros st message Hst. exact Hst.
  - intros st cs subject classObj slot Hin Hs Hc Hslot Hst.
    destruct (attemptSlot_fields db options cs subject classObj st slot)
      as (-> & _).
    pose proof (candidateEntry_fromCatalog db cs subject classObj slot
                  Hin Hs Hc Hslot) as Hcand.
    destruct (commitOrReport_cases db options subject classObj st
                (candidateEntry cs slot) slot)
      as [[_ ->]|[(resolved & Hres & ->)| ->]]; cbn.
    + apply Forall_app. split; [exact Hst|]. now repeat constructor.
    + apply Forall_app. split; [exact Hst|].
      constructor; [|constructor].
      eapply resolved_fromCatalog; eassumption.
    + exact Hst.
  - constructor.
Qed.



(** X15. With no non-break period in the catalog, or with no teacher-subject
    row, a run commits nothing: it returns no entry, resolves nothing, and
    leaves every counter at zero. *)
Theorem generateSchedule_nothing_to_place (db : Storage)
    (options : SchedulingOptions) :
  nonBreakPeriods db = [] \/ teacherSubjects db = [] ->
  timetableEntries (snd (generateSchedule db options)) = []
  /\ stats_totalEntries (stats (snd (generateSchedule db options))) = 0
  /\ stats_conflictsResolved (stats (snd (generateSchedule db options))) = 0
  /\ teacherWorkloads (fst (generateSchedule db options))
     = initializeWorkloadTracking (teachers db).
Proof.
  intros Hempty.
  destruct (generateSchedule_as_loop db options) as (Hf & He & Hr & Ht).
  assert (Hinv :
    (fun st => generatedEntries (run_engine st) = []
               /\ run_conflictsResolved st = 0
               /\ teacherWorkloads (run_engine st)
                  = initializeWorkloadTracking (teachers db))
      (fold_left (processClassSubject db options) (classSubjects db)
         (mkRun (startEngine db) [] 0))).
  { apply (run_invariant db options).
    - intros st message Hst. exact Hst.
    - intros st cs subject classObj slot _ _ _ (Hteacher & _ & Hperiod & _) _.
      exfalso. destruct Hempty as [Hnone|Hnone].
      + rewrite Hnone in Hperiod. contradiction.
      + destruct Hteacher as (teacher & Hin & _).
        unfold getAvailableTeachers, getSubjectTeachers in Hin.
        rewrite Hnone in Hin. contradiction.
    - repeat split. }
  destruct Hinv as (Hentries & Hresolved & Hwork).
  rewrite Ht, He, Hr, Hf, Hentries, Hresolved, Hwork. auto.
Qed.

Lemma generateSchedule_nothing_to_place_witness :
  timetableEntries
    (snd (generateSchedule
            (mkStorage [Catalog.c1] [Catalog.math] [Catalog.t1] [Catalog.r1]
               [Catalog.p1] [mkClassSubject 1 1 None None] [] [])
            Catalog.defaults)) = [].
Proof.
  apply (generateSchedule_nothing_to_place
           (mkStorage [Catalog.c1] [Catalog.math] [Catalog.t1] [Catalog.r1]
              [Catalog.p1] [mkClassSubject 1 1 None None] [] [])
           Catalog.defaults).
  right. reflexivity.
Defined.

(** X16. Each candidate tried ends as exactly one new entry or exactly one new
    conflict message. So processing a pairing whose subject and class
    exist adds, between entries and messages, one item per candidate
    tried (the smaller of the slots found and [weeklyHours], none when
    that is negative), plus the shortfall message when too few slots were
    found. *)
Theorem processClassSubject_accounts_for_every_candidate (db : Storage)
    (options : SchedulingOptions) (st : RunState)
    (classSubject : ClassSubject) (subject : Subject) (classObj : Class) :
  findSubject db (cs_subjectId classSubject) = Some subject ->
  findClass db (cs_classId classSubject) = Some classObj ->
  Z.of_nat
    (length (generatedEntries
               (run_engine (processClassSubject db options st classSubject))))
  + Z.of_nat
      (length (run_conflicts (processClassSubject db options st classSubject)))
  = Z.of_nat (length (generatedEntries (run_engine st)))
    + Z.of_nat (length (run_conflicts st))
    + Z.max 0
        (Z.min
           (Z.of_nat
              (length (findSuitableTimeSlots db (run_engine st) classSubject
                         (weeklyHours subject) options)))
           (weeklyHours subject))
    + (if Z.of_nat
            (length (findSuitableTimeSlots db (run_engine st) classSubject
                       (weeklyHours subject) options))
          <? weeklyHours subject
       then 1 else 0).
Proof.
  intros Hs Hc. unfold processClassSubject. rewrite Hs, Hc. cbv zeta.
  set (slots := findSuitableTimeSlots db (run_engine st) classSubject
                  (weeklyHours subject) options).
  unfold assignSlots.
  assert (Hfold : forall tried st1,
            Z.of_nat
              (length (generatedEntries
                 (run_engine
                    (fold_left
                       (attemptSlot db options classSubject subject classObj)
                       tried st1))))
            + Z.of_nat
                (length (run_conflicts
                   (fold_left
                      (attemptSlot db options classSubject subject classObj)
                      tried st1)))
            = Z.of_nat (length (generatedEntries (run_engine st1)))
              + Z.of_nat (length (run_conflicts st1))
              + Z.of_nat (length tried)).
  { induction tried as [|slot tried IH]; intros st1; simpl; [lia|].
    rewrite IH.
    destruct (attemptSlot_fields db options classSubject subject classObj
                st1 slot) as (-> & -> & _).
    destruct (commitOrReport_cases db options subject classObj st1
                (candidateEntry classSubject slot) slot)
      as [[_ ->]|[(resolved & _ & ->)| ->]]; cbn;
      rewrite ?length_app; simpl; lia. }
  rewrite Hfold, length_firstn. unfold noteShortfall.
  destruct (Z.ltb_spec (Z.of_nat (length slots)) (weeklyHours subject));
    cbn [run_engine run_conflicts]; rewrite ?length_app; simpl; lia.
Qed.

Lemma processClassSubject_accounts_witness :
  Z.of_nat
    (length (generatedEntries
               (run_engine
                  (processClassSubject Scenario.tooFewPeriods Catalog.defaults
                     (mkRun (startEngine Scenario.tooFewPeriods) [] 0)
                     (mkClassSubject 1 1 None None)))))
  + Z.of_nat
      (length (run_conflicts
                 (processClassSubject Scenario.tooFewPeriods Catalog.defaults
                    (mkRun (startEngine Scenario.tooFewPeriods) [] 0)
                    (mkClassSubject 1 1 None None))))
  = 2.
Proof.
  rewrite (processClassSubject_accounts_for_every_candidate
             Scenario.tooFewPeriods Catalog.defaults
             (mkRun (startEngine Scenario.tooFewPeriods) [] 0)
             (mkClassSubject 1 1 None None) Catalog.math2 Catalog.c1
             eq_refl eq_refl).
  reflexivity.
Defined.

(** ** Client time utilities: [parseTime], [formatTime], [isTimeOverlap] *)














(** X18. [isTimeOverlap] does not depend on the order of its two slots. When
    the four times read as integers it answers whether each slot starts
    before the other ends, so a slot that starts when the other ends does
    not overlap it. When a start or an end reads as NaN (a time without a
    colon, for one) the answer is "no overlap". *)
Theorem isTimeOverlap_symmetric_and_strict (slot1 slot2 : ClientScheduling.TimeRange) :
  ClientScheduling.isTimeOverlap slot1 slot2
  = ClientScheduling.isTimeOverlap slot2 slot1
  /\ (forall start1 end1 start2 end2 : Z,
        ClientScheduling.parseTime (ClientScheduling.range_start slot1)
        = ClientScheduling.JsInt start1 ->
        ClientScheduling.parseTime (ClientScheduling.range_end slot1)
        = ClientScheduling.JsInt end1 ->
        ClientScheduling.parseTime (ClientScheduling.range_start slot2)
        = ClientScheduling.JsInt start2 ->
        ClientScheduling.parseTime (ClientScheduling.range_end slot2)
        = ClientScheduling.JsInt end2 ->
        (ClientScheduling.isTimeOverlap slot1 slot2 = Some true
         <-> start1 < end2 /\ start2 < end1)
        /\ (ClientScheduling.isTimeOverlap slot1 slot2 = Some false
            <-> end2 <= start1 \/ end1 <= start2)
        /\ (end1 = start2 ->
            ClientScheduling.isTimeOverlap slot1 slot2 = Some false))
  /\ (ClientScheduling.parseTime (ClientScheduling.range_start slot1)
      = ClientScheduling.JsNaN
      \/ ClientScheduling.parseTime (ClientScheduling.range_end slot1)
         = ClientScheduling.JsNaN
      \/ ClientScheduling.parseTime (ClientScheduling.range_start slot2)
         = ClientScheduling.JsNaN
      \/ ClientScheduling.parseTime (ClientScheduling.range_end slot2)
         = ClientScheduling.JsNaN ->
      ClientScheduling.isTimeOverlap slot1 slot2 = Some false).
Proof.
  unfold ClientScheduling.isTimeOverlap. cbv zeta.
  split; [|split].
  - destruct (ClientScheduling.parseTime (ClientScheduling.range_start slot1)),
      (ClientScheduling.parseTime (ClientScheduling.range_end slot1)),
      (ClientScheduling.parseTime (ClientScheduling.range_start slot2)),
      (ClientScheduling.parseTime (ClientScheduling.range_end slot2));
      cbn [ClientScheduling.ltNum ClientScheduling.andNum];
      repeat match goal with
             | |- context [?a <? ?b] => destruct (a <? b)
             end; reflexivity.
  - intros s1 e1 s2 e2 -> -> -> ->.
    cbn [ClientScheduling.ltNum ClientScheduling.andNum].
    destruct (Z.ltb_spec s1 e2), (Z.ltb_spec s2 e1);
      repeat split; intros; try discriminate; try lia; try reflexivity.
  - intros [H|[H|[H|H]]]; rewrite H;
      destruct (ClientScheduling.parseTime (ClientScheduling.range_start slot1)),
        (ClientScheduling.parseTime (ClientScheduling.range_end slot1)),
        (ClientScheduling.parseTime (ClientScheduling.range_start slot2)),
        (ClientScheduling.parseTime (ClientScheduling.range_end slot2));
      try discriminate H;
      cbn [ClientScheduling.ltNum ClientScheduling.andNum];
      repeat match goal with
             | |- context [?a <? ?b] => destruct (a <? b)
             end; reflexivity.
Qed.

Lemma isTimeOverlap_witness :
  ClientScheduling.isTimeOverlap
    (ClientScheduling.mkRange "08:00" "09:00")
    (ClientScheduling.mkRange "09:00" "10:00") = Some false
  /\ ClientScheduling.isTimeOverlap
       (ClientScheduling.mkRange "08:00" "09:30")
       (ClientScheduling.mkRange "09:00" "10:00") = Some true
  /\ ClientScheduling.isTimeOverlap
       (ClientScheduling.mkRange "8" "09:30")
       (ClientScheduling.mkRange "09:00" "10:00") = Some false.
Proof.
  split; [|split].
  - apply (proj1 (proj2 (isTimeOverlap_symmetric_and_strict
                           (ClientScheduling.mkRange "08:00" "09:00")
                           (ClientScheduling.mkRange "09:00" "10:00")))
             480 540 540 600 eq_refl eq_refl eq_refl eq_refl).
    reflexivity.
  - apply (proj1 (proj2 (isTimeOverlap_symmetric_and_strict
                           (ClientScheduling.mkRange "08:00" "09:30")
                           (ClientScheduling.mkRange "09:00" "10:00")))
             480 570 540 600 eq_refl eq_refl eq_refl eq_refl).
    split; reflexivity.
  - apply (proj2 (proj2 (isTimeOverlap_symmetric_and_strict
                           (ClientScheduling.mkRange "8" "09:30")
                           (ClientScheduling.mkRange "09:00" "10:00")))).
    left. reflexivity.
Defined.

(** ** Concrete uses of the statements above *)

Lemma getAvailableTeachers_witness :
  In Catalog.t2 (teachers Catalog.sharedPreferredRoom)
  /\ (length (getAvailableTeachers Catalog.sharedPreferredRoom 1) <= 2)%nat.
Proof.
  pose proof (getAvailableTeachers_membership Catalog.sharedPreferredRoom 1
                Catalog.t2) as (Hiff & Hin & Hlen).
  split; [|exact Hlen].
  apply Hin. apply Hiff. exists (mkTeacherSubject 2 1).
  split; [right; left; reflexivity|]. split; reflexivity.
Defined.

Lemma generateSchedule_workloads_witness :
  workloadConsistent 1 (mkWorkload 1 (mkPerDay 2 0 0 0 0) 2).
Proof.
  apply (proj2 (generateSchedule_workloads_consistent
                  Catalog.oneTeacherOneRoom Catalog.defaults 1)).
  reflexivity.
Defined.

(** ** Client conflict detection *)

Lemma strictEqOpt2_true (a b : option Z) : strictEqOpt2 a b = true <-> a = b.
Proof.
  destruct a as [x|], b as [y|]; simpl; split; try discriminate; trivial.
  - intros H. apply Z.eqb_eq in H. now subst.
  - intros H. inversion H. apply Z.eqb_refl.
Qed.

Lemma orderedPair_nil {A : Type} (a b : A) : ~ orderedPair a b [].
Proof. intros (l1 & l2 & l3 & H). now destruct l1. Qed.

Lemma orderedPair_cons {A : Type} (a b x : A) (l : list A) :
  orderedPair a b (x :: l) <-> (a = x /\ In b l) \/ orderedPair a b l.
Proof.
  split.
  - intros (l1 & l2 & l3 & H). destruct l1 as [|y l1]; simpl in H.
    + inversion H; subst. left. split; [reflexivity|].
      apply in_or_app. right. now left.
    + inversion H; subst. right. now exists l1, l2, l3.
  - intros [[-> Hin]|(l1 & l2 & l3 & ->)].
    + apply in_split in Hin as (l2 & l3 & ->). now exists [], l2, l3.
    + now exists (x :: l1), l2, l3.
Qed.

Lemma orderedPair_map_filter {A B : Type} (f : A -> bool) (g : A -> B)
    (x y : B) (l : list A) :
  orderedPair x y (map g (List.filter f l))
  <-> exists a b,
        orderedPair a b l /\ f a = true /\ f b = true /\ g a = x /\ g b = y.
Proof.
  induction l as [|c l IH]; simpl.
  - split; [intros H; now apply orderedPair_nil in H|].
    intros (a & b & H & _). now apply orderedPair_nil in H.
  - destruct (f c) eqn:Hc; simpl.
    + rewrite orderedPair_cons, IH. split.
      * intros [[-> Hin]|(a & b & Hab & Hrest)].
        -- apply in_map_iff in Hin as (b & Hb & Hin).
           apply filter_In in Hin as [Hin Hfb].
           exists c, b. rewrite orderedPair_cons. auto 10.
        -- exists a, b. rewrite orderedPair_cons. auto.
      * intros (a & b & Hab & Hfa & Hfb & Hga & Hgb).
        apply orderedPair_cons in Hab as [[-> Hin]|Hab].
        -- left. split; [auto|]. apply in_map_iff. exists b.
           split; [exact Hgb|]. apply filter_In. auto.
        -- right. exists a, b. auto.
    + rewrite IH. split.
      * intros (a & b & Hab & Hrest). exists a, b.
        rewrite orderedPair_cons. auto.
      * intros (a & b & Hab & Hfa & Hrest).
        apply orderedPair_cons in Hab as [[-> Hin]|Hab]; [congruence|].
        exists a, b. auto.
Qed.

Lemma overlapSameDay_determined (a b : ClientScheduling.TimeSlot) :
  slotDetermined a -> slotDetermined b ->
  exists hit, ClientScheduling.overlapSameDay a b = Some hit.
Proof.
  intros [Ha1 Ha2] [Hb1 Hb2]. unfold ClientScheduling.overlapSameDay.
  destruct (String.eqb _ _); [|now exists false].
  unfold ClientScheduling.isTimeOverlap. cbn.
  destruct (ClientScheduling.parseTime (ClientScheduling.slot_start a)),
    (ClientScheduling.parseTime (ClientScheduling.slot_end a)),
    (ClientScheduling.parseTime (ClientScheduling.slot_start b)),
    (ClientScheduling.parseTime (ClientScheduling.slot_end b));
    try congruence;
    cbn [ClientScheduling.ltNum ClientScheduling.andNum];
    repeat match goal with
           | |- context [?u <? ?v] => destruct (u <? v)
           end; eauto.
Qed.

Section Loops.

Variable mk : ClientScheduling.ScheduleItem -> ClientScheduling.ScheduleItem
              -> ClientScheduling.Conflict.

Lemma innerLoop_found slot1 later :
  slotDetermined (fst slot1) ->
  Forall (fun s => slotDetermined (fst s)) later ->
  exists found,
    ClientScheduling.innerLoop mk slot1 later = Some found
    /\ (found <> []
        <-> exists slot2,
              In slot2 later
              /\ ClientScheduling.overlapSameDay (fst slot1) (fst slot2)
                 = Some true).
Proof.
  intros H1 Hall. induction Hall as [|slot2 later H2 Hall IH]; simpl.
  - exists []. split; [reflexivity|]. split; [congruence|].
    intros (s & [] & _).
  - destruct IH as (found & -> & Hiff).
    destruct (overlapSameDay_determined _ _ H1 H2) as [hit Hhit].
    rewrite Hhit. destruct hit.
    + eexists. split; [reflexivity|]. split; [|congruence].
      intros _. exists slot2. auto.
    + exists found. split; [reflexivity|]. rewrite Hiff. split.
      * intros (s & Hin & Hs). exists s. auto.
      * intros (s & [<-|Hin] & Hs); [congruence|]. exists s. auto.
Qed.

Lemma scheduleLoop_found schedule :
  Forall (fun s => slotDetermined (fst s)) schedule ->
  exists found,
    ClientScheduling.scheduleLoop mk schedule = Some found
    /\ (found <> []
        <-> exists x y,
              orderedPair x y schedule
              /\ ClientScheduling.overlapSameDay (fst x) (fst y) = Some true).
Proof.
  intros Hall. induction Hall as [|slot1 rest H1 Hall IH]; simpl.
  - exists []. split; [reflexivity|]. split; [congruence|].
    intros (x & y & H & _). now apply orderedPair_nil in H.
  - destruct IH as (others & -> & Hothers).
    destruct (innerLoop_found slot1 rest H1 Hall) as (first & -> & Hfirst).
    exists (first ++ others). split; [reflexivity|].
    assert (Happ : first ++ others <> [] <-> first <> [] \/ others <> []).
    { destruct first; simpl; split; intros H; try congruence; auto.
      - destruct H; congruence. }
    rewrite Happ, Hfirst, Hothers. split.
    + intros [(y & Hin & Hy)|(x & y & Hxy & Hhit)].
      * exists slot1, y. rewrite orderedPair_cons. auto.
      * exists x, y. rewrite orderedPair_cons. auto.
    + intros (x & y & Hxy & Hhit).
      apply orderedPair_cons in Hxy as [[-> Hin]|Hxy]; [left | right]; eauto.
Qed.

End Loops.

Lemma schedulesLoop_found
    (mk : option Z -> ClientScheduling.ScheduleItem
          -> ClientScheduling.ScheduleItem -> ClientScheduling.Conflict)
    (m : ClientScheduling.Schedules) :
  Forall (fun g => Forall (fun s => slotDetermined (fst s)) (snd g)) m ->
  exists found,
    ClientScheduling.schedulesLoop mk m = Some found
    /\ (found <> []
        <-> exists key schedule x y,
              In (key, schedule) m
              /\ orderedPair x y schedule
              /\ ClientScheduling.overlapSameDay (fst x) (fst y) = Some true).
Proof.
  intros Hall. induction Hall as [|[key schedule] rest Hg Hall IH]; simpl.
  - exists []. split; [reflexivity|]. split; [congruence|].
    intros (k & s & x & y & [] & _).
  - destruct IH as (others & -> & Hothers).
    destruct (scheduleLoop_found (mk key) schedule Hg) as (first & -> & Hfirst).
    exists (first ++ others). split; [reflexivity|].
    assert (Happ : first ++ others <> [] <-> first <> [] \/ others <> []).
    { destruct first; simpl; split; intros H; try congruence; auto.
      - destruct H; congruence. }
    rewrite Happ, Hfirst, Hothers. split.
    + intros [(x & y & Hxy & Hhit)|(k & s & x & y & Hin & Hxy & Hhit)].
      * exists key, schedule, x, y. auto.
      * exists k, s, x, y. auto.
    + intros (k & s & x & y & [Heq|Hin] & Hxy & Hhit).
      * inversion Heq; subst. left. eauto.
      * right. exists k, s, x, y. auto.
Qed.

Lemma strictEqOpt2_refl (a : option Z) : strictEqOpt2 a a = true.
Proof. now apply strictEqOpt2_true. Qed.

Lemma strictEqOpt2_sym (a b : option Z) : strictEqOpt2 a b = strictEqOpt2 b a.
Proof.
  destruct a as [x|], b as [y|]; simpl; trivial. apply Z.eqb_sym.
Qed.

Lemma scheduleOf_groupPush key item m key' :
  scheduleOf key' (ClientScheduling.groupPush key item m)
  = if strictEqOpt2 key key' then scheduleOf key m ++ [item]
    else scheduleOf key' m.
Proof.
  induction m as [|[k schedule] rest IH].
  - reflexivity.
  - cbn [ClientScheduling.groupPush scheduleOf].
    destruct (strictEqOpt2 k key) eqn:Hk.
    + apply strictEqOpt2_true in Hk. subst k.
      cbn [scheduleOf].
      destruct (strictEqOpt2 key key') eqn:Hkk; [|reflexivity].
      apply strictEqOpt2_true in Hkk. subst key'. reflexivity.
    + cbn [scheduleOf].
      destruct (strictEqOpt2 k key') eqn:Hk'.
      * apply strictEqOpt2_true in Hk'. subst k.
        rewrite strictEqOpt2_sym, Hk. reflexivity.
      * exact IH.
Qed.

Lemma scheduleOf_pushAll key pushes m :
  scheduleOf key (pushAll pushes m)
  = scheduleOf key m
    ++ map snd (List.filter (fun p => strictEqOpt2 (fst p) key) pushes).
Proof.
  unfold pushAll. revert m.
  induction pushes as [|[k item] pushes IH]; intros m; simpl.
  - now rewrite app_nil_r.
  - rewrite IH, scheduleOf_groupPush.
    destruct (strictEqOpt2 k key) eqn:Hk; simpl.
    + apply strictEqOpt2_true in Hk. subst k. now rewrite <- app_assoc.
    + reflexivity.
Qed.

Lemma groupPush_keys key item m k :
  In k (map fst (ClientScheduling.groupPush key item m))
  <-> k = key \/ In k (map fst m).
Proof.
  induction m as [|[k0 schedule] rest IH]; simpl.
  - intuition.
  - destruct (strictEqOpt2 k0 key) eqn:Hk; simpl.
    + apply strictEqOpt2_true in Hk. subst k0. intuition.
    + rewrite IH. intuition.
Qed.

Lemma groupPush_wellGrouped key item m :
  wellGrouped m -> wellGrouped (ClientScheduling.groupPush key item m).
Proof.
  intros [Hnodup Hne].
  induction m as [|[k0 schedule] rest IH]; simpl.
  - split; [repeat constructor; auto | repeat constructor; discriminate].
  - inversion Hnodup as [|? ? Hnotin Hrest]; subst.
    inversion Hne as [|? ? Hs Hne']; subst.
    destruct (strictEqOpt2 k0 key) eqn:Hk; simpl.
    + split; [exact Hnodup|]. constructor; [|exact Hne'].
      simpl. now destruct schedule.
    + destruct (IH Hrest Hne') as [IH1 IH2].
      split; [|now constructor].
      constructor; [|exact IH1].
      simpl in *. intros Hin. apply groupPush_keys in Hin as [->|Hin];
        [|contradiction].
      rewrite strictEqOpt2_refl in Hk. discriminate.
Qed.

Lemma pushAll_wellGrouped pushes m :
  wellGrouped m -> wellGrouped (pushAll pushes m).
Proof.
  unfold pushAll. revert m.
  induction pushes as [|p pushes IH]; intros m Hm; simpl; [exact Hm|].
  apply IH. now apply groupPush_wellGrouped.
Qed.

Lemma scheduleOf_In key schedule m :
  wellGrouped m -> In (key, schedule) m -> scheduleOf key m = schedule.
Proof.
  intros [Hnodup _] Hin.
  induction m as [|[k0 s0] rest IH]; [contradiction|].
  inversion Hnodup as [|? ? Hnotin Hrest]; subst. simpl.
  destruct Hin as [Heq|Hin].
  - inversion Heq; subst.
    assert (strictEqOpt2 key key = true) as -> by now apply strictEqOpt2_true.
    reflexivity.
  - destruct (strictEqOpt2 k0 key) eqn:Hk; [|now apply IH].
    apply strictEqOpt2_true in Hk. subst k0.
    exfalso. apply Hnotin. apply in_map_iff. now exists (key, schedule).
Qed.

Lemma In_scheduleOf key m :
  scheduleOf key m <> [] -> In (key, scheduleOf key m) m.
Proof.
  induction m as [|[k0 s0] rest IH]; simpl; [congruence|].
  destruct (strictEqOpt2 k0 key) eqn:Hk.
  - apply strictEqOpt2_true in Hk. subst k0. now left.
  - intros H. right. now apply IH.
Qed.

(** The detection over a map built by a sequence of pushes finds
    something exactly when two pushes under the same key overlap. *)
Lemma schedulesLoop_pushAll
    (mk : option Z -> ClientScheduling.ScheduleItem
          -> ClientScheduling.ScheduleItem -> ClientScheduling.Conflict)
    (pushes : list (option Z * ClientScheduling.ScheduleItem)) :
  Forall (fun p => slotDetermined (fst (snd p))) pushes ->
  exists found,
    ClientScheduling.schedulesLoop mk (pushAll pushes []) = Some found
    /\ (found <> []
        <-> exists p1 p2,
              orderedPair p1 p2 pushes
              /\ fst p1 = fst p2
              /\ ClientScheduling.overlapSameDay (fst (snd p1)) (fst (snd p2))
                 = Some true).
Proof.
  intros Hdet.
  assert (Hwell : wellGrouped (pushAll pushes [])).
  { apply pushAll_wellGrouped. split; constructor. }
  assert (Hsched : forall key schedule,
            In (key, schedule) (pushAll pushes []) ->
            schedule = map snd (List.filter
                                  (fun p => strictEqOpt2 (fst p) key) pushes)).
  { intros key schedule Hin.
    rewrite <- (scheduleOf_In key schedule _ Hwell Hin).
    now rewrite scheduleOf_pushAll. }
  destruct (schedulesLoop_found mk (pushAll pushes [])) as (found & Hf & Hiff).
  { apply List.Forall_forall. intros [key schedule] Hin. simpl.
    rewrite (Hsched key schedule Hin).
    apply List.Forall_forall. intros s Hs.
    apply in_map_iff in Hs as (p & <- & Hp).
    apply filter_In in Hp as [Hp _].
    exact (proj1 (List.Forall_forall _ _) Hdet p Hp). }
  exists found. split; [exact Hf|]. rewrite Hiff. split.
  - intros (key & schedule & x & y & Hin & Hxy & Hhit).
    rewrite (Hsched key schedule Hin) in Hxy.
    apply orderedPair_map_filter in Hxy
      as (p1 & p2 & Hp & Hk1 & Hk2 & <- & <-).
    apply strictEqOpt2_true in Hk1, Hk2.
    exists p1, p2. split; [exact Hp|]. split; [congruence | exact Hhit].
  - intros (p1 & p2 & Hp & Hkey & Hhit).
    set (key := fst p1).
    assert (Hxy : orderedPair (snd p1) (snd p2)
                    (map snd (List.filter
                                (fun p => strictEqOpt2 (fst p) key) pushes))).
    { apply orderedPair_map_filter. exists p1, p2.
      split; [exact Hp|]. split; [now apply strictEqOpt2_true|].
      split; [apply strictEqOpt2_true; now rewrite <- Hkey|]. auto. }
    exists key, (scheduleOf key (pushAll pushes [])), (snd p1), (snd p2).
    split; [|split; [|exact Hhit]].
    + apply In_scheduleOf. rewrite scheduleOf_pushAll. simpl.
      destruct Hxy as (l1 & l2 & l3 & ->). now destruct l1.
    + rewrite scheduleOf_pushAll. exact Hxy.
Qed.

Lemma groupByTeacher_pushAll index entries m :
  ClientScheduling.groupByTeacher index entries m
  = pushAll (teacherPushes index entries) m.
Proof.
  unfold teacherPushes.
  revert index m. induction entries as [|e entries IH]; intros index m;
    [reflexivity|].
  cbn [ClientScheduling.groupByTeacher keyedPushes]. now rewrite IH.
Qed.

Lemma groupByRoom_pushAll index entries m :
  ClientScheduling.groupByRoom index entries m
  = pushAll (roomPushes index entries) m.
Proof.
  unfold roomPushes.
  revert index m. induction entries as [|e entries IH]; intros index m;
    [reflexivity|].
  cbn [ClientScheduling.groupByRoom keyedPushes]. rewrite IH.
  now destruct (truthy (ClientScheduling.se_roomId e)).
Qed.

Section KeyedPushes.

Variable selected : ClientScheduling.ScheduleEntry -> bool.
Variable keyOf : ClientScheduling.ScheduleEntry -> option Z.

Lemma keyedPushes_In index entries p :
  In p (keyedPushes selected keyOf index entries) ->
  exists e,
    In e entries /\ selected e = true
    /\ fst p = keyOf e /\ fst (snd p) = ClientScheduling.timeSlotOf e.
Proof.
  revert index. induction entries as [|e entries IH]; intros index;
    cbn [keyedPushes]; [contradiction|].
  destruct (selected e) eqn:He.
  - intros [<-|Hin].
    + exists e. simpl. auto.
    + destruct (IH _ Hin) as (e' & Hin' & Hrest). exists e'. simpl. auto.
  - intros Hin. destruct (IH _ Hin) as (e' & Hin' & Hrest).
    exists e'. simpl. auto.
Qed.

Lemma In_keyedPushes index entries e :
  In e entries -> selected e = true ->
  exists p,
    In p (keyedPushes selected keyOf index entries)
    /\ fst p = keyOf e /\ fst (snd p) = ClientScheduling.timeSlotOf e.
Proof.
  revert index. induction entries as [|e0 entries IH]; intros index;
    cbn [keyedPushes]; [contradiction|].
  intros [->|Hin] Hsel.
  - rewrite Hsel. eexists. split; [now left|]. simpl. auto.
  - destruct (IH (S index) Hin Hsel) as (p & Hp & Hrest).
    exists p. split; [|exact Hrest].
    destruct (selected e0); [now right | exact Hp].
Qed.

Lemma keyedPushes_pairs index entries
    (Q : option Z -> ClientScheduling.TimeSlot
         -> option Z -> ClientScheduling.TimeSlot -> Prop) :
  (exists p1 p2,
      orderedPair p1 p2 (keyedPushes selected keyOf index entries)
      /\ Q (fst p1) (fst (snd p1)) (fst p2) (fst (snd p2)))
  <-> (exists e1 e2,
         orderedPair e1 e2 entries
         /\ selected e1 = true /\ selected e2 = true
         /\ Q (keyOf e1) (ClientScheduling.timeSlotOf e1)
              (keyOf e2) (ClientScheduling.timeSlotOf e2)).
Proof.
  revert index. induction entries as [|e entries IH]; intros index;
    cbn [keyedPushes].
  - split.
    + intros (p1 & p2 & H & _). now apply orderedPair_nil in H.
    + intros (e1 & e2 & H & _). now apply orderedPair_nil in H.
  - split.
    + intros (p1 & p2 & Hp & HQ).
      destruct (selected e) eqn:He.
      * apply orderedPair_cons in Hp as [[-> Hin]|Hp].
        -- apply keyedPushes_In in Hin as (e2 & Hin & Hsel & Hk & Hs).
           exists e, e2. rewrite orderedPair_cons.
           rewrite Hk, Hs in HQ. simpl in HQ. auto 10.
        -- destruct (proj1 (IH (S index))) as (e1 & e2 & Hab & Hrest);
             [eauto|].
           exists e1, e2. rewrite orderedPair_cons. auto.
      * destruct (proj1 (IH (S index))) as (e1 & e2 & Hab & Hrest); [eauto|].
        exists e1, e2. rewrite orderedPair_cons. auto.
    + intros (e1 & e2 & Hab & Hs1 & Hs2 & HQ).
      apply orderedPair_cons in Hab as [[-> Hin]|Hab].
      * rewrite Hs1.
        destruct (In_keyedPushes (S index) entries e2 Hin Hs2)
          as (p2 & Hp2 & Hk & Hs).
        eexists. exists p2. rewrite orderedPair_cons.
        split; [left; split; [reflexivity | exact Hp2]|].
        simpl. now rewrite Hk, Hs.
      * destruct (proj2 (IH (S index))) as (p1 & p2 & Hp & HQ');
          [exists e1, e2; auto|].
        exists p1, p2. split; [|exact HQ'].
        destruct (selected e); [|exact Hp].
        rewrite orderedPair_cons. auto.
Qed.

Lemma keyedPushes_determined index entries :
  Forall timesDetermined entries ->
  Forall (fun p => slotDetermined (fst (snd p)))
         (keyedPushes selected keyOf index entries).
Proof.
  intros Hall. apply List.Forall_forall. intros p Hp.
  apply keyedPushes_In in Hp as (e & Hin & _ & _ & Hs).
  destruct p as [k [slot id]]. simpl in Hs |- *. subst slot.
  exact (proj1 (List.Forall_forall _ _) Hall e Hin).
Qed.

End KeyedPushes.

Lemma overlapSameDay_entries e1 e2 :
  ClientScheduling.overlapSameDay (ClientScheduling.timeSlotOf e1)
                                  (ClientScheduling.timeSlotOf e2) = Some true
  <-> entriesOverlap e1 e2.
Proof.
  unfold ClientScheduling.overlapSameDay, entriesOverlap,
    ClientScheduling.timeSlotOf. cbn.
  destruct (String.eqb_spec
              (ClientScheduling.pt_dayOfWeek (ClientScheduling.se_timePeriod e1))
              (ClientScheduling.pt_dayOfWeek (ClientScheduling.se_timePeriod e2)))
    as [Heq|Hne]; split.
  - auto.
  - now intros [_ H].
  - discriminate.
  - intros [H _]. contradiction.
Qed.

Lemma detection_hasConflicts found :
  ClientScheduling.hasConflicts (ClientScheduling.detection found) = true
  <-> found <> [].
Proof. destruct found; simpl; split; congruence. Qed.

(** The shared part of the two detectors. *)
Lemma detect_by_key selected keyOf mk entries :
  Forall timesDetermined entries ->
  exists found,
    ClientScheduling.schedulesLoop mk
      (pushAll (keyedPushes selected keyOf 0 entries) []) = Some found
    /\ (found <> []
        <-> exists e1 e2,
              orderedPair e1 e2 entries
              /\ selected e1 = true /\ selected e2 = true
              /\ keyOf e1 = keyOf e2 /\ entriesOverlap e1 e2).
Proof.
  intros Hdet.
  destruct (schedulesLoop_pushAll mk (keyedPushes selected keyOf 0 entries)
              (keyedPushes_determined selected keyOf 0 entries Hdet))
    as (found & Hfound & Hiff).
  exists found. split; [exact Hfound|]. rewrite Hiff.
  rewrite (keyedPushes_pairs selected keyOf 0 entries
             (fun k1 s1 k2 s2 =>
                k1 = k2 /\ ClientScheduling.overlapSameDay s1 s2 = Some true)).
  split; intros (e1 & e2 & Hab & Hs1 & Hs2 & Hk & Hov); exists e1, e2;
    repeat split; auto; now apply overlapSameDay_entries.
Qed.

(** What [detectTeacherConflicts] collects. *)
Lemma detectTeacherConflicts_found entries :
  Forall timesDetermined entries ->
  exists found,
    ClientScheduling.detectTeacherConflicts entries
    = Some (ClientScheduling.detection found)
    /\ (found <> [] <-> teacherOverlap entries).
Proof.
  intros Hdet. unfold ClientScheduling.detectTeacherConflicts.
  rewrite groupByTeacher_pushAll. unfold teacherPushes.
  destruct (detect_by_key (fun _ => true) ClientScheduling.se_teacherId
              ClientScheduling.teacherConflict entries Hdet)
    as (found & -> & Hiff).
  exists found. split; [reflexivity|].
  rewrite Hiff. unfold teacherOverlap.
  split; intros (e1 & e2 & H); exists e1, e2; tauto.
Qed.

(** What [detectRoomConflicts] collects. *)
Lemma detectRoomConflicts_found entries :
  Forall timesDetermined entries ->
  exists found,
    ClientScheduling.detectRoomConflicts entries
    = Some (ClientScheduling.detection found)
    /\ (found <> [] <-> roomOverlap entries).
Proof.
  intros Hdet. unfold ClientScheduling.detectRoomConflicts.
  rewrite groupByRoom_pushAll. unfold roomPushes.
  destruct (detect_by_key
              (fun e => truthy (ClientScheduling.se_roomId e))
              ClientScheduling.se_roomId
              ClientScheduling.roomConflict entries Hdet)
    as (found & -> & Hiff).
  exists found. split; [reflexivity|].
  rewrite Hiff. unfold roomOverlap. split.
  - intros (e1 & e2 & H). exists e1, e2. tauto.
  - intros (e1 & e2 & Hab & Ht & Heq & Hov). exists e1, e2.
    split; [exact Hab|]. split; [exact Ht|].
    split; [now rewrite <- Heq|]. split; [exact Heq | exact Hov].
Qed.

Lemma orderedPair_length {A : Type} (a b : A) l :
  orderedPair a b l -> (2 <= length l)%nat.
Proof.
  intros (l1 & l2 & l3 & ->).
  rewrite length_app. simpl. rewrite length_app. simpl. lia.
Qed.

Lemma orderedPair_In {A : Type} (a b : A) l :
  orderedPair a b l -> In a l /\ In b l.
Proof.
  intros (l1 & l2 & l3 & ->). split.
  - apply in_or_app. right. now left.
  - apply in_or_app. right. right. apply in_or_app. right. now left.
Qed.

Lemma missingFieldErrors_nil index entry :
  ClientScheduling.missingFieldErrors index entry = []
  <-> hasRequiredFields entry.
Proof.
  unfold ClientScheduling.missingFieldErrors, hasRequiredFields.
  destruct (truthy (ClientScheduling.se_classId entry)),
    (truthy (ClientScheduling.se_subjectId entry)),
    (truthy (ClientScheduling.se_teacherId entry)),
    (truthy (ClientScheduling.se_timePeriodId entry));
    cbn; split; try discriminate; try tauto;
    intros (H1 & H2 & H3 & H4); discriminate.
Qed.

Lemma requiredFieldErrors_nil index entries :
  ClientScheduling.requiredFieldErrors index entries = []
  <-> Forall hasRequiredFields entries.
Proof.
  revert index. induction entries as [|e entries IH]; intros index;
    cbn [ClientScheduling.requiredFieldErrors].
  - split; auto.
  - split.
    + intros H. apply app_eq_nil in H as [H1 H2].
      constructor; [now apply (missingFieldErrors_nil index) | now apply (IH (S index))].
    + intros H. inversion H as [|? ? He Hrest]; subst.
      apply (missingFieldErrors_nil index) in He.
      apply (IH (S index)) in Hrest. now rewrite He, Hrest.
Qed.

Lemma detectedMessages_detection found :
  ClientScheduling.detectedMessages (ClientScheduling.detection found)
  = List.map ClientScheduling.conflict_message found.
Proof. destruct found; reflexivity. Qed.

Lemma length_eqb_0 {A : Type} (l : list A) :
  (length l =? 0)%nat = true <-> l = [].
Proof. destruct l; simpl; split; congruence. Qed.

(** X19. When every time of the entries reads as an integer or as NaN,
    [detectTeacherConflicts] returns a result, and it reports a conflict
    exactly when two entries at different positions carry the same
    teacherId, fall on the same day and have times of which
    [isTimeOverlap] is true. [hasConflicts] agrees with the list of
    conflicts being non-empty, and fewer than two entries never
    conflict. *)
Theorem detectTeacherConflicts_exact
    (entries : list ClientScheduling.ScheduleEntry) :
  Forall timesDetermined entries ->
  exists result,
    ClientScheduling.detectTeacherConflicts entries = Some result
    /\ (ClientScheduling.hasConflicts result = true <-> teacherOverlap entries)
    /\ (ClientScheduling.hasConflicts result = true
        <-> ClientScheduling.detected result <> [])
    /\ ((length entries <= 1)%nat ->
        ClientScheduling.hasConflicts result = false).
Proof.
  intros Hdet.
  destruct (detectTeacherConflicts_found entries Hdet) as (found & -> & Hover).
  exists (ClientScheduling.detection found).
  split; [reflexivity|].
  split; [now rewrite detection_hasConflicts|].
  split; [now rewrite detection_hasConflicts|].
  intros Hlen.
  destruct (ClientScheduling.hasConflicts (ClientScheduling.detection found))
    eqn:Hhas; [|reflexivity].
  apply detection_hasConflicts, Hover in Hhas as (e1 & e2 & Hab & _).
  apply orderedPair_length in Hab. lia.
Qed.

(** X20. When every time of the entries reads as an integer or as NaN,
    [detectRoomConflicts] returns a result, and it reports a conflict
    exactly when two entries at different positions carry the same
    non-zero roomId, fall on the same day and have times of which
    [isTimeOverlap] is true. Entries without a room never take part: when
    no entry has one, nothing is reported. *)
Theorem detectRoomConflicts_exact
    (entries : list ClientScheduling.ScheduleEntry) :
  Forall timesDetermined entries ->
  exists result,
    ClientScheduling.detectRoomConflicts entries = Some result
    /\ (ClientScheduling.hasConflicts result = true <-> roomOverlap entries)
    /\ (ClientScheduling.hasConflicts result = true
        <-> ClientScheduling.detected result <> [])
    /\ (Forall (fun e => truthy (ClientScheduling.se_roomId e) = false) entries
        -> ClientScheduling.hasConflicts result = false).
Proof.
  intros Hdet.
  destruct (detectRoomConflicts_found entries Hdet) as (found & -> & Hover).
  exists (ClientScheduling.detection found).
  split; [reflexivity|].
  split; [now rewrite detection_hasConflicts|].
  split; [now rewrite detection_hasConflicts|].
  intros Hnone.
  destruct (ClientScheduling.hasConflicts (ClientScheduling.detection found))
    eqn:Hhas; [|reflexivity].
  apply detection_hasConflicts, Hover in Hhas as (e1 & e2 & Hab & Ht & _).
  apply orderedPair_In in Hab as [Hin _].
  rewrite (proj1 (List.Forall_forall _ _) Hnone e1 Hin) in Ht. discriminate.
Qed.

(** X21. When every time of the entries reads as an integer or as NaN,
    [validateScheduleIntegrity] returns a verdict. The schedule is valid
    exactly when every entry has its four required ids and no two entries
    of one teacher overlap; it is valid exactly when the list of errors is
    empty. Two overlapping entries in one room only give a warning: they
    are what makes the warnings non-empty, and they do not make the
    schedule invalid. *)
Theorem validateScheduleIntegrity_verdict
    (entries : list ClientScheduling.ScheduleEntry) :
  Forall timesDetermined entries ->
  exists v,
    ClientScheduling.validateScheduleIntegrity entries = Some v
    /\ (ClientScheduling.isValid v = true
        <-> Forall hasRequiredFields entries /\ ~ teacherOverlap entries)
    /\ (ClientScheduling.isValid v = true
        <-> ClientScheduling.validation_errors v = [])
    /\ (ClientScheduling.validation_warnings v <> [] <-> roomOverlap entries).
Proof.
  intros Hdet. unfold ClientScheduling.validateScheduleIntegrity.
  destruct (detectTeacherConflicts_found entries Hdet) as (ft & -> & Ht).
  destruct (detectRoomConflicts_found entries Hdet) as (fr & -> & Hr).
  eexists. split; [reflexivity|].
  cbn [ClientScheduling.isValid ClientScheduling.validation_errors
       ClientScheduling.validation_warnings].
  rewrite !detectedMessages_detection, length_eqb_0.
  split; [|split; [reflexivity|]].
  - rewrite <- Ht. split.
    + intros H. apply app_eq_nil in H as [H1 H2].
      split; [now apply (requiredFieldErrors_nil 0)|].
      intros Hne. apply Hne. now destruct ft.
    + intros [H1 H2]. apply (requiredFieldErrors_nil 0) in H1. rewrite H1.
      destruct ft as [|c ft]; [reflexivity|]. exfalso. now apply H2.
  - rewrite <- Hr. destruct fr; simpl; split; congruence.
Qed.

Lemma timetable_determined :
  Forall timesDetermined Timetable.doubleBookedTeacher
  /\ Forall timesDetermined Timetable.sharedRoom.
Proof. split; repeat constructor; vm_compute; discriminate. Qed.

Lemma detectTeacherConflicts_witness :
  Forall timesDetermined Timetable.doubleBookedTeacher
  /\ (exists result,
        ClientScheduling.detectTeacherConflicts Timetable.doubleBookedTeacher
        = Some result
        /\ (ClientScheduling.hasConflicts result = true
            <-> teacherOverlap Timetable.doubleBookedTeacher)
        /\ (ClientScheduling.hasConflicts result = true
            <-> ClientScheduling.detected result <> [])
        /\ ((length Timetable.doubleBookedTeacher <= 1)%nat ->
            ClientScheduling.hasConflicts result = false))
  /\ ClientScheduling.detectTeacherConflicts Timetable.doubleBookedTeacher
     = Some (ClientScheduling.mkDetection true
               [ClientScheduling.mkConflict ClientScheduling.kind_teacher
                  "Teacher 1 has overlapping classes"
                  (ClientScheduling.mkTimeSlot "08:00" "09:00" "monday")
                  ["entry-0"%string; "entry-2"%string];
                ClientScheduling.mkConflict ClientScheduling.kind_teacher
                  "Teacher 1 has overlapping classes"
                  (ClientScheduling.mkTimeSlot "09:00" "10:00" "monday")
                  ["entry-1"%string; "entry-2"%string]]).
Proof.
  split; [exact (proj1 timetable_determined)|].
  split; [|reflexivity].
  apply detectTeacherConflicts_exact. exact (proj1 timetable_determined).
Defined.

Lemma detectRoomConflicts_witness :
  Forall timesDetermined Timetable.sharedRoom
  /\ (exists result,
        ClientScheduling.detectRoomConflicts Timetable.sharedRoom = Some result
        /\ (ClientScheduling.hasConflicts result = true
            <-> roomOverlap Timetable.sharedRoom)
        /\ (ClientScheduling.hasConflicts result = true
            <-> ClientScheduling.detected result <> [])
        /\ (Forall (fun e => truthy (ClientScheduling.se_roomId e) = false)
                   Timetable.sharedRoom
            -> ClientScheduling.hasConflicts result = false))
  /\ ClientScheduling.detectRoomConflicts Timetable.sharedRoom
     = Some (ClientScheduling.mkDetection true
               [ClientScheduling.mkConflict ClientScheduling.kind_room
                  "Room 5 has overlapping bookings"
                  (ClientScheduling.mkTimeSlot "08:00" "09:00" "monday")
                  ["entry-0"%string; "entry-2"%string]])
  /\ ClientScheduling.detectRoomConflicts Timetable.doubleBookedTeacher
     = Some (ClientScheduling.mkDetection false []).
Proof.
  split; [exact (proj2 timetable_determined)|].
  split; [|split; reflexivity].
  apply detectRoomConflicts_exact. exact (proj2 timetable_determined).
Defined.

Lemma validateScheduleIntegrity_witness :
  Forall timesDetermined Timetable.sharedRoom
  /\ (exists v,
        ClientScheduling.validateScheduleIntegrity Timetable.sharedRoom
        = Some v
        /\ (ClientScheduling.isValid v = true
            <-> Forall hasRequiredFields Timetable.sharedRoom
                /\ ~ teacherOverlap Timetable.sharedRoom)
        /\ (ClientScheduling.isValid v = true
            <-> ClientScheduling.validation_errors v = [])
        /\ (ClientScheduling.validation_warnings v <> []
            <-> roomOverlap Timetable.sharedRoom))
  /\ ClientScheduling.validateScheduleIntegrity Timetable.sharedRoom
     = Some (ClientScheduling.mkValidation true []
               ["Room 5 has overlapping bookings"%string])
  /\ ClientScheduling.validateScheduleIntegrity Timetable.doubleBookedTeacher
     = Some (ClientScheduling.mkValidation false
               ["Teacher 1 has overlapping classes"%string;
                "Teacher 1 has overlapping classes"%string] []).
Proof.
  split; [exact (proj2 timetable_determined)|].
  split; [|split; reflexivity].
  apply validateScheduleIntegrity_verdict. exact (proj2 timetable_determined).
Defined.

(** ** Teacher availability grid *)

Section GridProperties.

Import AvailabilityGrid.

Lemma setAvailable_own_flag slot :
  setAvailable (available slot) slot = slot.
Proof. now destruct slot. Qed.

Lemma count_insert (slots : list AvailabilitySlot) i old new :
  slots !! i = Some old ->
  Z.of_nat (length (List.filter available (<[i:=new]> slots)))
  = Z.of_nat (length (List.filter available slots))
    - (if available old then 1 else 0) + (if available new then 1 else 0).
Proof.
  revert i. induction slots as [|s slots IH]; intros i; [discriminate|].
  destruct i as [|i]; simpl.
  - intros [= ->]. destruct (available old), (available new); simpl; lia.
  - intros Hi. specialize (IH i Hi).
    destruct (available s); simpl; lia.
Qed.



Lemma asWindow_setAvailable flag (slots : list AvailabilitySlot) :
  List.map asWindow (List.map (setAvailable flag) slots)
  = List.map asWindow slots.
Proof. rewrite map_map. now apply map_ext. Qed.

Lemma asWindow_insert (slots : list AvailabilitySlot) i slot flag :
  slots !! i = Some slot ->
  List.map asWindow (<[i:=setAvailable flag slot]> slots)
  = List.map asWindow slots.
Proof.
  revert i. induction slots as [|s slots IH]; intros i; [discriminate|].
  destruct i as [|i]; simpl.
  - now intros [= ->].
  - intros Hi. now rewrite (IH i Hi).
Qed.

Lemma storedAvailability_insert grid dayKey slots slots' :
  grid !! dayKey = Some slots ->
  List.map asWindow slots' = List.map asWindow slots ->
  storedAvailability (<[dayKey:=slots']> grid) = storedAvailability grid.
Proof.
  intros Hday Hsame. unfold storedAvailability.
  rewrite fmap_insert, Hsame. apply insert_id.
  now rewrite lookup_fmap, Hday.
Qed.

Lemma storedAvailability_handleAllToggle grid flag :
  storedAvailability (handleAllToggle grid flag) = storedAvailability grid.
Proof.
  unfold storedAvailability, handleAllToggle. apply map_eq. intros dayKey.
  rewrite !lookup_fmap. destruct (grid !! dayKey) as [slots|]; simpl;
    [|reflexivity].
  now rewrite asWindow_setAvailable.
Qed.

Lemma storedAvailability_handleDayToggle grid dayKey flag grid' :
  handleDayToggle grid dayKey flag = Some grid' ->
  storedAvailability grid' = storedAvailability grid.
Proof.
  unfold handleDayToggle.
  destruct (grid !! dayKey) as [slots|] eqn:Hday; [|discriminate].
  intros [= <-]. apply (storedAvailability_insert grid dayKey slots);
    [exact Hday | apply asWindow_setAvailable].
Qed.

Lemma storedAvailability_handleSlotToggle grid dayKey i grid' :
  handleSlotToggle grid dayKey i = Some grid' ->
  storedAvailability grid' = storedAvailability grid.
Proof.
  unfold handleSlotToggle.
  destruct (grid !! dayKey) as [slots|] eqn:Hday; [|discriminate].
  destruct (slots !! i) as [slot|] eqn:Hslot; [|discriminate].
  intros [= <-]. apply (storedAvailability_insert grid dayKey slots);
    [exact Hday | now apply asWindow_insert].
Qed.

(** The sum over the keys of the object is the sum over the five days. *)
Lemma map_fold_overDays (c : DayOfWeek -> Z) (grid : DayAvailability) :
  map_fold (fun dayKey _ total => total + c dayKey) 0 grid
  = overDays (fun d => match grid !! d with Some _ => c d | None => 0 end).
Proof.
  induction grid as [|dayKey slots grid Hnone IH] using map_ind.
  - rewrite map_fold_empty. reflexivity.
  - rewrite map_fold_insert_L; [|intros; lia|exact Hnone].
    rewrite IH. unfold overDays.
    destruct dayKey;
      rewrite lookup_insert_eq, !lookup_insert_ne by discriminate;
      rewrite Hnone; lia.
Qed.

Lemma getTotalAvailableCount_overDays grid :
  getTotalAvailableCount grid = overDays (getAvailableCount grid).
Proof.
  unfold getTotalAvailableCount. rewrite map_fold_overDays.
  unfold overDays, getAvailableCount.
  now destruct (grid !! monday), (grid !! tuesday), (grid !! wednesday),
    (grid !! thursday), (grid !! friday).
Qed.


(** X22. [handleSlotToggle] does nothing exactly when the day has no slots under
    that index. Otherwise it flips the flag of that one slot: the times of
    the slot, the other slots of the day and the other days are as they
    were, the day's count of available slots moves by one, and a second
    toggle of the same cell gives the grid back. *)
Theorem handleSlotToggle_flips_one_slot (grid : DayAvailability)
    (dayKey : DayOfWeek) (timeSlotIndex : nat) :
  match handleSlotToggle grid dayKey timeSlotIndex with
  | Some grid' =>
      exists slots slot,
        grid !! dayKey = Some slots
        /\ slots !! timeSlotIndex = Some slot
        /\ grid' !! dayKey
           = Some (<[timeSlotIndex :=
                       mkAvailabilitySlot (avail_start slot) (avail_end slot)
                                          (negb (available slot))]> slots)
        /\ (forall other, other <> dayKey -> grid' !! other = grid !! other)
        /\ getAvailableCount grid' dayKey
           = getAvailableCount grid dayKey
             + (if available slot then -1 else 1)
        /\ handleSlotToggle grid' dayKey timeSlotIndex = Some grid
  | None =>
      forall slots,
        grid !! dayKey = Some slots -> (length slots <= timeSlotIndex)%nat
  end.
Proof.
  unfold handleSlotToggle.
  destruct (grid !! dayKey) as [slots|] eqn:Hday; [|discriminate].
  destruct (slots !! timeSlotIndex) as [slot|] eqn:Hslot.
  - exists slots, slot.
    split; [reflexivity|]. split; [exact Hslot|].
    split; [apply lookup_insert_eq|].
    split; [intros other Hne; now apply lookup_insert_ne|].
    split.
    + unfold getAvailableCount. rewrite lookup_insert_eq, Hday.
      rewrite (count_insert slots timeSlotIndex slot) by exact Hslot.
      simpl. destruct (available slot); simpl; lia.
    + rewrite lookup_insert_eq.
      rewrite list_lookup_insert_eq
        by (apply lookup_lt_is_Some; eauto).
      f_equal. rewrite insert_insert_eq, list_insert_insert_eq.
      unfold setAvailable at 1. cbn [avail_start avail_end available setAvailable].
      rewrite negb_involutive.
      change (mkAvailabilitySlot (avail_start slot) (avail_end slot)
                                 (available slot))
        with (setAvailable (available slot) slot).
      rewrite setAvailable_own_flag.
      rewrite list_insert_id by exact Hslot.
      now apply insert_id.
  - intros slots' [= <-]. now apply lookup_ge_None.
Qed.


Lemma isTeacherAvailable_savedWith teacher grid timePeriod :
  isTeacherAvailable (savedWith teacher grid) timePeriod
  = match grid !! dayOfWeek timePeriod with
    | Some slots =>
        List.existsb
          (fun slot =>
             geNum (hourOf (startTime timePeriod)) (hourOf (avail_start slot))
             && leNum (hourOf (endTime timePeriod)) (hourOf (avail_end slot)))
          slots
    | None => false
    end.
Proof.
  unfold isTeacherAvailable, savedWith, storedAvailability.
  cbn [availability]. rewrite lookup_fmap.
  destruct (grid !! dayOfWeek timePeriod) as [slots|]; simpl; [|reflexivity].
  induction slots as [|s slots IH]; simpl; [reflexivity|].
  now rewrite IH.
Qed.

Ltac pick_slot i :=
  apply existsb_exists;
  exists (nth i (List.map (setAvailable false)
                          (List.map (fun slot =>
                                       mkAvailabilitySlot (fst slot) (snd slot)
                                                          true)
                                    TIME_SLOTS))
              (mkAvailabilitySlot EmptyString EmptyString false));
  split;
  [ vm_compute; auto 20
  | cbv beta;
    match goal with
    | |- geNum _ ?a && leNum _ ?b = true =>
        let a' := eval vm_compute in a in
        let b' := eval vm_compute in b in
        change a with a'; change b with b'
    end;
    unfold geNum, leNum; apply andb_true_iff; split; apply Z.leb_le; lia ].

Lemma cleared_default_covers (startHour endHour : Z) :
  8 <= startHour <= 15 ->
  endHour <= startHour + 1 ->
  List.existsb
    (fun slot =>
       geNum (Some startHour) (hourOf (avail_start slot))
       && leNum (Some endHour) (hourOf (avail_end slot)))
    (List.map (setAvailable false)
       (List.map (fun slot => mkAvailabilitySlot (fst slot) (snd slot) true)
                 TIME_SLOTS))
  = true.
Proof.
  intros Hstart Hend.
  assert (Hcases : startHour = 8 \/ startHour = 9 \/ startHour = 10
                   \/ startHour = 11 \/ startHour = 12 \/ startHour = 13
                   \/ startHour = 14 \/ startHour = 15) by lia.
  destruct Hcases as [H|[H|[H|[H|[H|[H|[H|H]]]]]]].
  - pick_slot 0%nat.
  - pick_slot 1%nat.
  - pick_slot 2%nat.
  - pick_slot 3%nat.
  - pick_slot 4%nat.
  - pick_slot 5%nat.
  - pick_slot 6%nat.
  - pick_slot 7%nat.
Qed.

(** X24. For a teacher saved with the grid's value, [isTeacherAvailable] is
    computed from the start and end of the day's slots alone: the
    [available] flag is not read, so no toggle of the grid changes the
    engine's answer. With every slot of the default grid cleared the grid
    counts no available slot, and the engine still takes the teacher as
    available for every period that starts between 8 and 15 o'clock and
    ends at most an hour later. *)
Theorem isTeacherAvailable_ignores_available_flag (teacher : Teacher)
    (grid : DayAvailability) (timePeriod : TimePeriod) :
  isTeacherAvailable (savedWith teacher grid) timePeriod
  = match grid !! dayOfWeek timePeriod with
    | Some slots =>
        List.existsb
          (fun slot =>
             geNum (hourOf (startTime timePeriod)) (hourOf (avail_start slot))
             && leNum (hourOf (endTime timePeriod)) (hourOf (avail_end slot)))
          slots
    | None => false
    end
  /\ (forall flag,
        isTeacherAvailable (savedWith teacher (handleAllToggle grid flag))
                           timePeriod
        = isTeacherAvailable (savedWith teacher grid) timePeriod)
  /\ (forall dayKey flag grid',
        handleDayToggle grid dayKey flag = Some grid' ->
        isTeacherAvailable (savedWith teacher grid') timePeriod
        = isTeacherAvailable (savedWith teacher grid) timePeriod)
  /\ (forall dayKey timeSlotIndex grid',
        handleSlotToggle grid dayKey timeSlotIndex = Some grid' ->
        isTeacherAvailable (savedWith teacher grid') timePeriod
        = isTeacherAvailable (savedWith teacher grid) timePeriod)
  /\ getTotalAvailableCount (handleAllToggle createDefaultAvailability false)
     = 0
  /\ (forall startHour endHour,
        hourOf (startTime timePeriod) = Some startHour ->
        hourOf (endTime timePeriod) = Some endHour ->
        8 <= startHour <= 15 ->
        endHour <= startHour + 1 ->
        isTeacherAvailable
          (savedWith teacher (handleAllToggle createDefaultAvailability false))
          timePeriod
        = true).
Proof.
  split; [apply isTeacherAvailable_savedWith|].
  split; [|split; [|split; [|split]]].
  - intros flag. unfold savedWith.
    now rewrite storedAvailability_handleAllToggle.
  - intros dayKey flag grid' Hg. unfold savedWith.
    now rewrite (storedAvailability_handleDayToggle grid dayKey flag grid' Hg).
  - intros dayKey i grid' Hg. unfold savedWith.
    now rewrite (storedAvailability_handleSlotToggle grid dayKey i grid' Hg).
  - rewrite getTotalAvailableCount_overDays. reflexivity.
  - intros startHour endHour Hs He Hstart Hend.
    rewrite isTeacherAvailable_savedWith, Hs, He.
    replace (handleAllToggle createDefaultAvailability false
             !! dayOfWeek timePeriod)
      with (Some (List.map (setAvailable false)
                    (List.map (fun slot =>
                                 mkAvailabilitySlot (fst slot) (snd slot) true)
                              TIME_SLOTS)))
      by (now destruct (dayOfWeek timePeriod)).
    now apply cleared_default_covers.
Qed.

End GridProperties.

(** ** CSV export *)

Section ExportProperties.

Import ExcelExport.

Lemma sameDayKey_refl d : sameDayKey d d = true.
Proof. destruct d; simpl; [apply String.eqb_refl | reflexivity]. Qed.

Lemma sameDayKey_eq a b : sameDayKey a b = true <-> a = b.
Proof.
  destruct a, b; simpl; split; try congruence.
  - intros H. apply String.eqb_eq in H. congruence.
  - intros [= ->]. apply String.eqb_refl.
Qed.

Lemma dayGet_daySet d e (dayEntries : DayEntries) d' :
  dayGet d' (daySet d e dayEntries)
  = if sameDayKey d d' then Some e else dayGet d' dayEntries.
Proof.
  induction dayEntries as [|[k v] rest IH]; simpl.
  - reflexivity.
  - destruct (sameDayKey k d) eqn:Hkd; simpl.
    + apply sameDayKey_eq in Hkd. subst k.
      now destruct (sameDayKey d d').
    + destruct (sameDayKey k d') eqn:Hkd'; [|exact IH].
      apply sameDayKey_eq in Hkd'. subst k.
      destruct (sameDayKey d d') eqn:Hdd; [|reflexivity].
      apply sameDayKey_eq in Hdd. subst d'.
      rewrite sameDayKey_refl in Hkd. discriminate.
Qed.

Lemma slotGet_groupEntry k d e (timeSlots : TimeSlots) k' :
  slotGet k' (groupEntry k d e timeSlots)
  = if String.eqb k k' then daySet d e (slotGet k' timeSlots)
    else slotGet k' timeSlots.
Proof.
  induction timeSlots as [|[k0 v] rest IH]; simpl.
  - now destruct (String.eqb k k').
  - destruct (String.eqb_spec k0 k) as [->|Hne]; simpl.
    + now destruct (String.eqb k k').
    + destruct (String.eqb_spec k0 k') as [->|Hne'].
      * destruct (String.eqb_spec k k') as [->|_]; [contradiction|reflexivity].
      * exact IH.
Qed.

Lemma keys_groupEntry k d e (timeSlots : TimeSlots) :
  List.map fst (groupEntry k d e timeSlots)
  = if List.existsb (fun s => String.eqb s k) (List.map fst timeSlots)
    then List.map fst timeSlots
    else List.map fst timeSlots ++ [k].
Proof.
  induction timeSlots as [|[k0 v] rest IH]; simpl; [reflexivity|].
  destruct (String.eqb k0 k); simpl; [reflexivity|].
  rewrite IH. now destruct (List.existsb _ _).
Qed.

Lemma keys_fold entries (timeSlots : TimeSlots) :
  List.map fst
    (fold_left
       (fun acc entry =>
          groupEntry (timeKeyOf entry) (dayKeyOf entry) entry acc)
       entries timeSlots)
  = List.map fst timeSlots
    ++ firstOccurrences (List.map fst timeSlots) (List.map timeKeyOf entries).
Proof.
  revert timeSlots. induction entries as [|e entries IH]; intros timeSlots;
    simpl.
  - now rewrite app_nil_r.
  - rewrite IH, keys_groupEntry.
    destruct (List.existsb _ _); [reflexivity|].
    now rewrite <- app_assoc.
Qed.

Lemma existsb_eqb_In seen k :
  List.existsb (fun s => String.eqb s k) seen = true <-> In k seen.
Proof.
  rewrite existsb_exists. split.
  - intros (s & Hin & Heq). apply String.eqb_eq in Heq. now subst.
  - intros Hin. exists k. split; [exact Hin | apply String.eqb_refl].
Qed.

Lemma firstOccurrences_In seen keys k :
  In k (firstOccurrences seen keys) <-> In k keys /\ ~ In k seen.
Proof.
  revert seen. induction keys as [|k0 keys IH]; intros seen; simpl.
  - tauto.
  - destruct (List.existsb _ seen) eqn:Hex.
    + apply existsb_eqb_In in Hex. rewrite IH. split.
      * tauto.
      * intros [[->|Hin] Hnot]; [contradiction | tauto].
    + assert (Hk0 : ~ In k0 seen).
      { intros Hin. apply existsb_eqb_In in Hin. congruence. }
      simpl. rewrite IH, in_app_iff. simpl.
      destruct (String.eqb_spec k0 k) as [->|Hne]; [tauto|].
      split.
      * intros [Heq|[Hin Hnot]]; [contradiction | tauto].
      * intros [[Heq|Hin] Hnot]; [contradiction|].
        right. split; [exact Hin|]. intros [H|[H|[]]]; auto.
Qed.

Lemma firstOccurrences_fresh seen keys k :
  In k (firstOccurrences seen keys) -> ~ In k seen.
Proof. intros Hin. now apply firstOccurrences_In in Hin. Qed.

Lemma firstOccurrences_length seen keys :
  (length (firstOccurrences seen keys) <= length keys)%nat.
Proof.
  revert seen. induction keys as [|k0 keys IH]; intros seen; simpl; [lia|].
  destruct (List.existsb _ seen).
  - specialize (IH seen). lia.
  - specialize (IH (seen ++ [k0])). simpl. lia.
Qed.

Lemma firstOccurrences_NoDup seen keys :
  List.NoDup (firstOccurrences seen keys).
Proof.
  revert seen. induction keys as [|k0 keys IH]; intros seen; simpl;
    [constructor|].
  destruct (List.existsb _ seen); [apply IH|].
  constructor; [|apply IH].
  intros Hin. apply firstOccurrences_fresh in Hin. apply Hin.
  apply in_or_app. right. now left.
Qed.

Lemma rows_by_key {B : Type} (g : string -> DayEntries -> B)
    (timeSlots : TimeSlots) :
  List.NoDup (List.map fst timeSlots) ->
  List.map (fun slot => g (fst slot) (snd slot)) timeSlots
  = List.map (fun k => g k (slotGet k timeSlots)) (List.map fst timeSlots).
Proof.
  induction timeSlots as [|[k v] rest IH]; simpl; [reflexivity|].
  intros Hnd. inversion Hnd as [|? ? Hnotin Hrest]; subst.
  rewrite String.eqb_refl. f_equal. rewrite (IH Hrest).
  apply map_ext_in. intros k' Hin.
  destruct (String.eqb_spec k k') as [->|Hne]; [contradiction|reflexivity].
Qed.

Lemma groupEntries_snoc entries e :
  groupEntries (entries ++ [e])
  = groupEntry (timeKeyOf e) (dayKeyOf e) e (groupEntries entries).
Proof. unfold groupEntries. now rewrite fold_left_app. Qed.

Lemma dayGet_groupEntries entries k d :
  dayGet d (slotGet k (groupEntries entries)) = lastFor k d entries.
Proof.
  induction entries as [|e entries IH] using rev_ind; [reflexivity|].
  rewrite groupEntries_snoc, slotGet_groupEntry. unfold lastFor.
  rewrite rev_app_distr. simpl.
  destruct (String.eqb (timeKeyOf e) k); simpl; [|exact IH].
  rewrite dayGet_daySet.
  destruct (sameDayKey (dayKeyOf e) d); [reflexivity | exact IH].
Qed.

(** X25. The lines of the CSV are the title, the date line, an empty line and
    the header, then one row for each distinct time key of the entries, in
    the order in which the keys first appear. In the row of a time key
    the cell of a day shows the last entry with that time key and that
    day, and a dash when there is none: of two entries that fall in one
    cell only the later is exported, and an entry whose day is none of
    the five is in no cell, though its time key still has a row. *)
Theorem generateCSV_rows_and_cells (generatedOn : string)
    (entries : list ExportEntry) (options : ExcelOptions) :
  generateCSV generatedOn entries options
  = join newline (csvLines generatedOn entries options)
  /\ csvLines generatedOn entries options
     = [quoted (title options);
        quoted ("Generated on: " ++ generatedOn)%string;
        EmptyString;
        tableHeader]
       ++ List.map
            (fun timeKey =>
               join ","
                 (quoted timeKey
                  :: List.map
                       (fun day =>
                          csvCell (lastFor timeKey (Some day) entries))
                       days))
            (firstOccurrences [] (List.map timeKeyOf entries))
  /\ List.NoDup (firstOccurrences [] (List.map timeKeyOf entries))
  /\ (forall timeKey,
        In timeKey (firstOccurrences [] (List.map timeKeyOf entries))
        <-> exists entry, In entry entries /\ timeKeyOf entry = timeKey)
  /\ (length (csvLines generatedOn entries options) <= 4 + length entries)%nat.
Proof.
  assert (Hkeys : List.map fst (groupEntries entries)
                  = firstOccurrences [] (List.map timeKeyOf entries)).
  { unfold groupEntries. now rewrite keys_fold. }
  assert (Hrows : List.map (fun slot => csvRow (fst slot) (snd slot))
                           (groupEntries entries)
                  = List.map
                      (fun timeKey =>
                         join ","
                           (quoted timeKey
                            :: List.map
                                 (fun day =>
                                    csvCell (lastFor timeKey (Some day)
                                                     entries))
                                 days))
                      (firstOccurrences [] (List.map timeKeyOf entries))).
  { rewrite (rows_by_key csvRow)
      by (rewrite Hkeys; apply firstOccurrences_NoDup).
    rewrite Hkeys. apply map_ext. intros k. unfold csvRow.
    do 2 f_equal. apply map_ext. intros day.
    now rewrite dayGet_groupEntries. }
  split; [reflexivity|].
  split; [unfold csvLines; now rewrite Hrows|].
  split; [apply firstOccurrences_NoDup|].
  split.
  - intros timeKey. rewrite firstOccurrences_In, in_map_iff. split.
    + intros [(entry & Hkey & Hin) _]. eauto.
    + intros (entry & Hin & Hkey). split; [eauto | intros []].
  - unfold csvLines. rewrite length_app, Hrows, length_map. simpl.
    pose proof (firstOccurrences_length [] (List.map timeKeyOf entries)) as H.
    rewrite length_map in H. lia.
Qed.

Lemma generateCSV_witness :
  csvLines "3/11/2026" ExportSample.week (mkExcelOptions "Week 1")
  = [quoted "Week 1";
     quoted "Generated on: 3/11/2026";
     EmptyString;
     tableHeader;
     join "," [quoted "08:00-09:00"; quoted "English - Grace (N/A)";
               quoted "-"; quoted "-"; quoted "-"; quoted "-"];
     join "," [quoted "undefined-undefined"; quoted "-"; quoted "-";
               quoted "-"; quoted "-"; quoted "-"]].
Proof.
  rewrite (proj1 (proj2 (generateCSV_rows_and_cells
                           "3/11/2026" ExportSample.week
                           (mkExcelOptions "Week 1")))).
  reflexivity.
Defined.

End ExportProperties.
